(** * Code-Magic-Visualizer: the sandboxed execution subsystem

    A shallow embedding of
    - [src/runtime/sandboxRunner.js]  (the iframe JavaScript runner and the
                                       harness it injects),
    - [src/python/executor.js]        (the host wrapper of the Pyodide worker),
    - [src/python/pyWorker.js]        (the worker itself),
    - [src/runtime/virtualizer.js]    (the unified runner [runCode]),
    - [server/index.js]               (the snippet service),
    and the properties of the event streams they produce; and, of the
    components around them,
    - [src/TerminalOutput.jsx]        (the consumer of [runCode]),
    - [src/components/Toasts.jsx]     (the toasts),
    - [src/EnhancedComponents.jsx]    (the tokens of the token viewer),
    - [src/ParserTreeGraph.jsx]       (the tree drawn for a source text),
    with the regular expressions they use.

    Host code is single threaded: every handler (a message listener, a
    timer callback, a call of [stop]) runs to completion before the next
    one starts, and the microtasks it queued run right after it.  A call
    of [stop] that the consumer makes from its callback is part of the
    turn of the handler that called the callback ([Virtualizer.turn]).  A run is
    therefore a fold of a step function over the list of things the
    browser delivers to the host, the [Input]s.  The model lets any
    message arrive at any time, also after the context that could have
    sent it is gone; a timer fires only while it is pending.

    Functions that call a callback are written in a small monad of
    exceptions over a store, so that what [try]/[catch] does is part of
    the model.  The store of a run holds the events handed to the
    consumer, in order, and the counters of the output budget.

    Random draws and the clock are arguments.  The interpreters of the
    submitted programs are not modelled: a program is given by what it
    does, its console calls or writes and the way it ends. *)

From Stdlib Require Import ZArith List String Ascii Bool Lia DecimalString.
From Stdlib Require Import FunctionalExtensionality Sorted Permutation.
From Stdlib Require DecimalZ.
Import ListNotations.
Local Open Scope string_scope.
Local Open Scope list_scope.
Local Open Scope Z_scope.

(** ** JavaScript values

    A JavaScript string is a [string]: one character per code unit, code
    units ranging over 0..255.  A property that may be [undefined] (or
    [null]) is an [option]. *)
Module JS.

(** [new TextEncoder().encode(s).length]: a code unit below 0x80 takes
    one byte of UTF-8, the others (0x80..0xFF here) take two. *)
Fixpoint utf8_length (s : string) : Z :=
  match s with
  | EmptyString => 0
  | String c r => (if (N_of_ascii c <? 128)%N then 1 else 2) + utf8_length r
  end.

(** [s.length] *)
Definition length (s : string) : Z := Z.of_nat (String.length s).

(** Truthiness of a string-or-undefined: [undefined], [null] and [''] are
    falsy. *)
Definition truthy (v : option string) : bool :=
  match v with
  | Some s => negb (String.eqb s "")
  | None => false
  end.

(** [v || d] for a string-or-undefined [v] and a string [d]. *)
Definition or_else (v : option string) (d : string) : string :=
  match v with
  | Some s => if String.eqb s "" then d else s
  | None => d
  end.

(** [v === s] for a string-or-undefined [v] and a string [s]. *)
Definition strict_eq (v : option string) (s : string) : bool :=
  match v with
  | Some t => String.eqb t s
  | None => false
  end.

(** The decimal text of an integral number, as a template literal
    [`${n}`] prints it while the number is below 10^21 in absolute value;
    from there on JavaScript prints the exponent form, which this
    function does not. *)
Definition number_to_string (n : Z) : string :=
  NilZero.string_of_int (Z.to_int n).

(** [xs.join(sep)] *)
Definition join (sep : string) (xs : list string) : string :=
  String.concat sep xs.

End JS.

(** ** Exceptions and mutable state

    A computation reads and writes a store [W] and either returns or
    throws.  What it wrote before throwing stays written, as in
    JavaScript. *)
Inductive result (A : Type) : Type :=
| Returned (a : A)
| Thrown.
Arguments Returned {A} a.
Arguments Thrown {A}.

Definition M (W A : Type) : Type := W -> result A * W.

Definition ret {W A} (a : A) : M W A := fun w => (Returned a, w).

Definition bind {W A B} (m : M W A) (k : A -> M W B) : M W B :=
  fun w =>
    match m w with
    | (Returned a, w') => k a w'
    | (Thrown, w') => (Thrown, w')
    end.

(** [try { m } catch (_) {}] *)
Definition try_catch {W} (m : M W unit) : M W unit :=
  fun w => (Returned tt, snd (m w)).

Declare Scope js_scope.
Delimit Scope js_scope with js.
Notation "x <- m ;; k" := (bind m (fun x => k))
  (at level 61, m at next level, right associativity) : js_scope.
Notation "m ;; k" := (bind m (fun _ => k))
  (at level 61, right associativity) : js_scope.
Local Open Scope js_scope.

(** [if (c) m] with no [else]. *)
Definition when {W} (c : bool) (m : M W unit) : M W unit :=
  if c then m else ret tt.

(** ** Events

    The object handed to an [onEvent] callback.  [ev_language] is absent
    on the events of the JavaScript runner, which does not set it. *)
Record Payload : Type := mkPayload {
  p_text : option string;
  p_level : option string;
  p_message : option string;
  p_stack : option string;
  p_value : option string
}.

Definition no_payload : Payload := mkPayload None None None None None.

Record Event : Type := mkEvent {
  ev_type : string;
  ev_runId : string;
  ev_language : option string;
  ev_payload : Payload
}.

(** A [done], [error] or [timeout] event. *)
Definition terminal (e : Event) : bool :=
  String.eqb (ev_type e) "done" || String.eqb (ev_type e) "error"
  || String.eqb (ev_type e) "timeout".

Definition has_type (t : string) (e : Event) : bool := String.eqb (ev_type e) t.

Definition count_type (t : string) (es : list Event) : nat :=
  List.length (filter (has_type t) es).

Definition count_terminal (es : list Event) : nat :=
  List.length (filter terminal es).

(** ** Messages *)

(** The [data] of a [message] event on the host window. *)
Record FrameMsg : Type := mkFrameMsg {
  fm_runner : bool;               (* data.__runner === true *)
  fm_token : option string;
  fm_type : option string;
  fm_level : option string;
  fm_args : option (list string);
  fm_message : option string;
  fm_stack : option string
}.

(** What the host posts into the iframe. *)
Record ExecuteMsg : Type := mkExecuteMsg {
  xm_code : string;
  xm_token : string
}.

(** The [data] of a message from the Pyodide worker to the host. *)
Record WorkerMsg : Type := mkWorkerMsg {
  wm_type : option string;
  wm_token : option string;
  wm_runId : option string;
  wm_text : option string;
  wm_value : option string;
  wm_message : option string
}.

(** A message from the host to the Pyodide worker. *)
Record HostMsg : Type := mkHostMsg {
  hm_type : option string;
  hm_token : option string;
  hm_indexURL : option string;
  hm_runId : option string;
  hm_code : option string
}.

(** What the browser can deliver to the host during a run. *)
Inductive Input : Type :=
| WindowMessage (data : option FrameMsg)  (* a message event on window *)
| IframeLoad                              (* the iframe's load event *)
| TimerFires                              (* the pending setTimeout is due *)
| WorkerMessage (data : option WorkerMsg) (* a message event on the worker *)
| Stop.                                   (* the consumer calls stop() *)

(** ** sandboxRunner.js *)
Module SandboxRunner.

Record Options : Type := mkOptions {
  o_timeoutMs : option Z;
  o_maxLogBytes : option Z
}.

(** The local variables of one call of [runJavaScript], and the browser
    objects it owns. *)
Record State : Type := mkState {
  runId : string;
  token : string;
  code : string;
  timeoutMs : Z;
  maxLogBytes : Z;
  finished : bool;
  totalLogBytes : Z;
  truncatedNotified : bool;
  listening : bool;            (* handleMsg is registered on window *)
  timer : option Z;            (* the delay of the pending watchdog *)
  iframe : bool;               (* the iframe is attached to the body *)
  outbox : list ExecuteMsg     (* messages posted into the iframe *)
}.

Definition set_finished (st : State) : State :=
  mkState (runId st) (token st) (code st) (timeoutMs st) (maxLogBytes st)
          true (totalLogBytes st) (truncatedNotified st)
          (listening st) (timer st) (iframe st) (outbox st).

Definition set_totalLogBytes (n : Z) (st : State) : State :=
  mkState (runId st) (token st) (code st) (timeoutMs st) (maxLogBytes st)
          (finished st) n (truncatedNotified st)
          (listening st) (timer st) (iframe st) (outbox st).

Definition set_truncatedNotified (st : State) : State :=
  mkState (runId st) (token st) (code st) (timeoutMs st) (maxLogBytes st)
          (finished st) (totalLogBytes st) true
          (listening st) (timer st) (iframe st) (outbox st).

(** [clearTimeout(timer)] *)
Definition clearTimeout (st : State) : State :=
  mkState (runId st) (token st) (code st) (timeoutMs st) (maxLogBytes st)
          (finished st) (totalLogBytes st) (truncatedNotified st)
          (listening st) None (iframe st) (outbox st).

(** [cleanup]: the listener is removed and the iframe detached. *)
Definition cleanup (st : State) : State :=
  mkState (runId st) (token st) (code st) (timeoutMs st) (maxLogBytes st)
          (finished st) (totalLogBytes st) (truncatedNotified st)
          false (timer st) false (outbox st).

Definition post (m : ExecuteMsg) (st : State) : State :=
  mkState (runId st) (token st) (code st) (timeoutMs st) (maxLogBytes st)
          (finished st) (totalLogBytes st) (truncatedNotified st)
          (listening st) (timer st) (iframe st) (outbox st ++ [m]).

Definition timeout_message (ms : Z) : string :=
  ("Execution timed out after " ++ JS.number_to_string ms ++ "ms")%string.

Section Run.
Context {W : Type}.
Variable onEvent : Event -> M W unit.

Definition emit (rid : string) (type : string) (p : Payload) : M W unit :=
  try_catch (onEvent (mkEvent type rid None p)).

Definition handleMsg (st : State) (data : option FrameMsg) : M W State :=
  match data with
  | None => ret st
  | Some data =>
    if negb (fm_runner data) || negb (JS.strict_eq (fm_token data) (token st))
    then ret st
    else if finished st then ret st
    else if JS.strict_eq (fm_type data) "log" then
      let text :=
        JS.join " " (match fm_args data with Some a => a | None => [] end) in
      let bytes := JS.utf8_length text in
      if totalLogBytes st + bytes <=? maxLogBytes st then
        let st := set_totalLogBytes (totalLogBytes st + bytes) st in
        emit (runId st) "log"
             (mkPayload (Some text) (Some (JS.or_else (fm_level data) "log"))
                        None None None) ;;
        ret st
      else if negb (truncatedNotified st) then
        let st := set_truncatedNotified st in
        emit (runId st) "log"
             (mkPayload (Some "[output truncated]") (Some "warn")
                        None None None) ;;
        ret st
      else ret st
    else if JS.strict_eq (fm_type data) "error" then
      emit (runId st) "error"
           (mkPayload None None (fm_message data) (fm_stack data) None) ;;
      ret (cleanup (clearTimeout (set_finished st)))
    else if JS.strict_eq (fm_type data) "start" then
      emit (runId st) "start" no_payload ;;
      ret st
    else if JS.strict_eq (fm_type data) "done" then
      emit (runId st) "done" no_payload ;;
      ret (cleanup (clearTimeout (set_finished st)))
    else ret st
  end.

(** The callback given to [setTimeout]. *)
Definition on_timer (st : State) : M W State :=
  if negb (finished st) then
    emit (runId st) "timeout"
         (mkPayload None None (Some (timeout_message (timeoutMs st)))
                    None None) ;;
    ret (cleanup (set_finished st))
  else ret st.

Definition stop (st : State) : State := cleanup (clearTimeout st).

(** [execute], the iframe's load listener.  Posting into the window of
    a detached iframe throws, and the throw is swallowed. *)
Definition execute (st : State) : State :=
  if iframe st then post (mkExecuteMsg (code st) (token st)) st else st.

(** [runJavaScript(code, options, onEvent)], up to its [return stop].
    [rnd] and [now] are the values of [Math.random().toString(36).slice(2)]
    (drawn twice) and of [Date.now()]. *)
Definition runJavaScript (code : string) (options : Options)
           (rnd1 rnd2 now : string) : M W State :=
  let timeoutMs :=
    match o_timeoutMs options with Some t => t | None => 3000 end in
  let maxLogBytes :=
    match o_maxLogBytes options with Some b => b | None => 64 * 1024 end in
  let runId := ("js_" ++ rnd1)%string in
  let token := (rnd2 ++ "." ++ now)%string in
  emit runId "init" no_payload ;;
  ret (mkState runId token code timeoutMs maxLogBytes
               false 0 false true (Some timeoutMs) true []).

(** One turn of the host event loop. *)
Definition step (st : State) (i : Input) : M W State :=
  match i with
  | WindowMessage data =>
    if listening st then handleMsg st data else ret st
  | IframeLoad => ret (execute st)
  | TimerFires =>
    match timer st with
    | Some _ => on_timer (clearTimeout st)
    | None => ret st
    end
  | WorkerMessage _ => ret st
  | Stop => ret (stop st)
  end.

End Run.

End SandboxRunner.

(** ** The harness inside the iframe (the script of [srcdoc])

    The script is text that the browser has to compile before it runs
    any of it.  The module holds that text, what a browser makes of it,
    and what its listener does with an [execute] message. *)
Module Harness.

(** An argument of a [console] call, seen through the three things the
    harness does with it. *)
Inductive ConsoleArg : Type :=
| AString (s : string)               (* typeof a === 'string' *)
| AJson (json : option string)       (* JSON.stringify(a) returns *)
| AThrows (str : string).            (* it throws; String(a) *)

(** [JSON.stringify] may return [undefined], which [join] on the host
    side prints as the empty string. *)
Definition serialize (a : ConsoleArg) : string :=
  match a with
  | AString s => s
  | AJson (Some j) => j
  | AJson None => ""
  | AThrows s => s
  end.

(** How the body compiled by [new Function] ends. *)
Inductive Completion : Type :=
| Returns
| Throws (message : string) (stack : option string)
| Diverges.

(** The observable behaviour of a submitted program: its console calls,
    in order, and its completion. *)
Record Behaviour : Type := mkBehaviour {
  calls : list (string * list ConsoleArg);
  completion : Completion
}.

Definition send (execToken : option string) (type : string)
           (level : option string) (args : option (list string))
           (message stack : option string) : FrameMsg :=
  mkFrameMsg true execToken (Some type) level args message stack.

(** [console[l] = function () { ... send({ type: 'log', level: l, args }) }] *)
Definition console (execToken : option string)
           (call : string * list ConsoleArg) : FrameMsg :=
  send execToken "log" (Some (fst call)) (Some (map serialize (snd call)))
       None None.

(** The listener the script registers for [execute] messages, once the
    script runs: what it posts to the parent for a message carrying
    [tok]. *)
Definition listener (tok : string) (b : Behaviour) : list FrameMsg :=
  let execToken := if String.eqb tok "" then None else Some tok in
  send execToken "start" None None None None
  :: map (console execToken) (calls b)
  ++ match completion b with
     | Returns => [send execToken "done" None None None None]
     | Throws m s => [send execToken "error" None None (Some m) s]
     | Diverges => []
     end.

(** The text of the inline script of [srcdoc], line by line, as the
    document holds it.  [srcdoc] is a template literal: the escape
    sequence written in the argument of [new Function] is a line feed in
    the document, so that the string literal of the script that was to
    hold it is cut in two lines. *)
Definition script_lines : list string :=
  ["      (function(){";
   "        // Communication channel via postMessage";
   "        const send = (msg) => parent.postMessage(msg, '*');";
   "";
   "        // Track the token provided by the host per execution";
   "        let execToken = null;";
   "";
   "        // Override console to pipe logs out";
   "        const levels = ['log','info','warn','error'];";
   "        const original = {};";
   "        levels.forEach(l=>{";
   "          original[l] = console[l] && console[l].bind ? console[l].bind(console) : function(){};";
   "          console[l] = function(){";
   "            try {";
   "              const args = Array.from(arguments).map(a => {";
   "                try { return typeof a === 'string' ? a : JSON.stringify(a); } catch(_) { return String(a); }";
   "              });";
   "              send({ __runner: true, token: execToken, type: 'log', level: l, args });";
   "            } catch(_){}";
   "            try { return original[l](...arguments); } catch(_){ return undefined; }";
   "          }";
   "        });";
   "";
   "        window.addEventListener('message', (e) => {";
   "          const data = e && e.data;";
   "          if (!data || data.__runner !== true || data.type !== 'execute') return;";
   "          execToken = data.token || null;";
   "          send({ __runner: true, token: execToken, type: 'start' });";
   "          try {";
   "            // Use Function constructor to run in global scope of iframe";
   "            const fn = new Function(String(data.code || '') + '";
   "//# sourceURL=runtime.js');";
   "            fn();";
   "            send({ __runner: true, token: execToken, type: 'done' });";
   "          } catch (err) {";
   "            send({ __runner: true, token: execToken, type: 'error', message: String(err && err.message || err), stack: err && err.stack });";
   "          }";
   "        });";
   "      })();"].

Definition line_feed : ascii := ascii_of_nat 10.

Definition script : string :=
  String.concat (String line_feed "") script_lines.

(** Where a scan of the text of a script is: in code, in a comment up to
    the end of the line, in a comment up to its closing mark, or in a
    string literal opened by [quote]. *)
Inductive Lex : Type :=
| Code
| LineComment
| BlockComment
| Literal (quote : ascii).

Definition line_terminator (c : ascii) : bool :=
  Ascii.eqb c line_feed || Ascii.eqb c (ascii_of_nat 13).

Definition quotation_mark (c : ascii) : bool :=
  Ascii.eqb c "'" || Ascii.eqb c (ascii_of_nat 34).

(** The scan of the rest [s] of a text, for comments and string literals
    (the script has no template and no regular expression literal).  A
    string literal ends at the next quotation mark of its kind that no
    backslash precedes; a line terminator inside it is an error, and so
    is the end of the text inside a literal or a comment with a closing
    mark. *)
Fixpoint scans (st : Lex) (s : list ascii) : bool :=
  match s with
  | [] =>
    match st with
    | Code | LineComment => true
    | BlockComment | Literal _ => false
    end
  | c :: t =>
    match st with
    | Code =>
      if Ascii.eqb c "/" then
        match t with
        | c2 :: t2 =>
          if Ascii.eqb c2 "/" then scans LineComment t2
          else if Ascii.eqb c2 "*" then scans BlockComment t2
          else scans Code t
        | [] => true
        end
      else if quotation_mark c then scans (Literal c) t
      else scans Code t
    | LineComment =>
      if line_terminator c then scans Code t else scans LineComment t
    | BlockComment =>
      if Ascii.eqb c "*" then
        match t with
        | c2 :: t2 =>
          if Ascii.eqb c2 "/" then scans Code t2 else scans BlockComment t
        | [] => false
        end
      else scans BlockComment t
    | Literal q =>
      if Ascii.eqb c q then scans Code t
      else if Ascii.eqb c "\" then
        match t with
        | _ :: t2 => scans (Literal q) t2
        | [] => false
        end
      else if line_terminator c then false
      else scans (Literal q) t
    end
  end.

(** A script whose text does not scan is a [SyntaxError]: the browser
    runs none of it. *)
Definition compiles (text : string) : bool :=
  scans Code (list_ascii_of_string text).

(** What the iframe posts to the parent when it is sent an [execute]
    message carrying [tok], for a program that would behave as [b]: what
    the listener does, if the script that registers it runs. *)
Definition on_execute (tok : string) (b : Behaviour) : list FrameMsg :=
  if compiles script then listener tok b else [].

End Harness.

(** ** executor.js: [PythonExecutor] *)
Module PythonExecutor.

Record Options : Type := mkOptions { o_indexURL : option string }.

Section Exec.
Context {W : Type}.

(** The members of [this.listeners]. *)
Inductive Listener : Type :=
| Callback (cb : WorkerMsg -> M W unit)   (* given to onMessage *)
| ReadyWaiter (code rnd : string).        (* registered by run(code) *)

Record Executor : Type := mkExecutor {
  worker : bool;                          (* this.worker is not null *)
  listeners : list (nat * Listener);      (* in insertion order *)
  ready : bool;
  indexURL : option string;
  token : string;
  fresh : nat;                            (* next listener identity *)
  outbox : list HostMsg;                  (* posted to the worker *)
  terminated : nat                        (* workers terminated *)
}.

(** [new PythonExecutor(options)] *)
Definition new (options : Options) (rnd now : string) : Executor :=
  mkExecutor false [] false
             (if JS.truthy (o_indexURL options) then o_indexURL options
              else None)
             (rnd ++ "." ++ now)%string 0 [] 0.

Definition ensureWorker (ex : Executor) : Executor :=
  if worker ex then ex
  else
    let initPayload :=
      mkHostMsg (Some "init") (Some (token ex))
                (if JS.truthy (indexURL ex) then indexURL ex else None)
                None None in
    mkExecutor true (listeners ex) (ready ex) (indexURL ex) (token ex)
               (fresh ex) (outbox ex ++ [initPayload]) (terminated ex).

Definition add (l : Listener) (ex : Executor) : Executor :=
  mkExecutor (worker ex) (listeners ex ++ [(fresh ex, l)]) (ready ex)
             (indexURL ex) (token ex) (S (fresh ex)) (outbox ex)
             (terminated ex).

(** [this.listeners.delete(cb)] *)
Definition delete (key : nat) (ex : Executor) : Executor :=
  mkExecutor (worker ex)
             (filter (fun kl => negb (Nat.eqb (fst kl) key)) (listeners ex))
             (ready ex) (indexURL ex) (token ex) (fresh ex) (outbox ex)
             (terminated ex).

(** [onMessage(cb)] for a function [cb] that is not a member of
    [this.listeners]: every caller in the program passes an arrow
    function made for the call.  The number is the identity of that
    function object, and the number returned stands for the closure
    [() => this.listeners.delete(cb)]. *)
Definition onMessage (cb : WorkerMsg -> M W unit) (ex : Executor)
  : Executor * nat :=
  (add (Callback cb) ex, fresh ex).


Definition set_ready (b : bool) (ex : Executor) : Executor :=
  mkExecutor (worker ex) (listeners ex) b (indexURL ex) (token ex)
             (fresh ex) (outbox ex) (terminated ex).

Definition postMessage (m : HostMsg) (ex : Executor) : Executor :=
  mkExecutor (worker ex) (listeners ex) (ready ex) (indexURL ex) (token ex)
             (fresh ex) (outbox ex ++ [m]) (terminated ex).

(** The part of [run] after its [await]: the promise is fulfilled
    with the run identifier, or rejected when [this.worker] is null. *)
Definition resume (code rnd : string) (ex : Executor)
  : Executor * result string :=
  let runId := ("py_" ++ rnd)%string in
  if worker ex then
    (postMessage (mkHostMsg (Some "run") (Some (token ex)) None
                            (Some runId) (Some code)) ex,
     Returned runId)
  else (ex, Thrown).

(** [run(code)] up to its first suspension: [None] when the promise is
    left pending. *)
Definition run (code rnd : string) (ex : Executor)
  : Executor * option (result string) :=
  let ex := ensureWorker ex in
  if negb (ready ex) then (add (ReadyWaiter code rnd) ex, None)
  else let (ex, r) := resume code rnd ex in (ex, Some r).

Definition dispose (ex : Executor) : Executor :=
  mkExecutor false [] false (indexURL ex) (token ex) (fresh ex) (outbox ex)
             (if worker ex then S (terminated ex) else terminated ex).

Definition empty_msg : WorkerMsg :=
  mkWorkerMsg None None None None None None.

(** The body of [this.listeners.forEach]: the listeners still to visit
    are [ls]; [woken] collects the runs whose promise a [ReadyWaiter]
    resolved. *)
Fixpoint dispatch (msg : WorkerMsg) (ls : list (nat * Listener))
         (ex : Executor) (woken : list (string * string))
  : M W (Executor * list (string * string)) :=
  match ls with
  | [] => ret (ex, woken)
  | (key, Callback cb) :: ls =>
    try_catch (cb msg) ;;
    dispatch msg ls ex woken
  | (key, ReadyWaiter code rnd) :: ls =>
    if JS.strict_eq (wm_type msg) "ready"
    then dispatch msg ls (delete key ex) (woken ++ [(code, rnd)])
    else dispatch msg ls ex woken
  end.

(** The microtasks that follow: every woken [run] continues. *)
Fixpoint resume_all (woken : list (string * string)) (ex : Executor)
  : Executor * list (result string) :=
  match woken with
  | [] => (ex, [])
  | (code, rnd) :: r =>
    let (ex, res) := resume code rnd ex in
    let (ex, rs) := resume_all r ex in
    (ex, res :: rs)
  end.

(** [this.worker.onmessage], followed by the continuations it woke.
    The second component lists the [run] promises settled. *)
Definition onmessage (ex : Executor) (data : option WorkerMsg)
  : M W (Executor * list (result string)) :=
  let msg := match data with Some d => d | None => empty_msg end in
  if JS.truthy (wm_token msg)
     && negb (JS.strict_eq (wm_token msg) (token ex))
  then ret (ex, [])
  else
    let ex :=
      if JS.strict_eq (wm_type msg) "ready" then set_ready true ex else ex in
    r <- dispatch msg (listeners ex) ex [] ;;
    ret (resume_all (snd r) (fst r)).

End Exec.
Arguments Listener : clear implicits.
Arguments Executor : clear implicits.

End PythonExecutor.

(** ** pyWorker.js *)
Module PyWorker.

(** The value of the last expression of a Python program, as Pyodide
    hands it to JavaScript. *)
Inductive PyValue : Type :=
| VNullish                           (* value == null *)
| VOther (str : string).             (* anything else; String(value) *)

(** A thrown value, through [err.message] and [String(err)]. *)
Record Exception : Type := mkException {
  exn_message : option string;
  exn_string : string
}.

Inductive Completion : Type :=
| Value (v : PyValue)
| Raises (err : Exception)
| Diverges.

Inductive Stream : Type := Stdout | Stderr.

Definition stream_name (s : Stream) : string :=
  match s with
  | Stdout => "stdout"
  | Stderr => "stderr"
  end.

(** What evaluating a program does: the [write] calls on [sys.stdout] and
    [sys.stderr], in order, and how it ends. *)
Record Behaviour : Type := mkBehaviour {
  writes : list (Stream * string);
  completion : Completion
}.

(** The Pyodide runtime, which is not part of the repository. *)
Record Runtime : Type := mkRuntime {
  loadPyodide : string -> option Exception;   (* None: it loads *)
  redirect : option Exception;       (* running the redirection script *)
  runPythonAsync : string -> Behaviour
}.

(** The module-level variables. *)
Record State : Type := mkState {
  initialized : bool;
  indexURL : string;
  currentToken : option string
}.

Definition initial : State :=
  mkState false "https://cdn.jsdelivr.net/pyodide/v0.24.1/full/" None.

(** What the worker does, in order. *)
Inductive Effect : Type :=
| LoadRuntime (url : string)         (* self.loadPyodide({ indexURL }) *)
| SetBridge                          (* post_std is exposed *)
| Post (m : WorkerMsg)               (* self.postMessage(m) *)
| InstallRedirect                    (* sys.stdout/sys.stderr replaced *)
| Evaluate (code : string).          (* runPythonAsync(code) starts *)

(** [String((err && err.message) || err)] *)
Definition error_text (err : Exception) : string :=
  if JS.truthy (exn_message err)
  then JS.or_else (exn_message err) "" else exn_string err.

Definition ends_with_slash (s : string) : bool :=
  match rev (list_ascii_of_string s) with
  | c :: _ => Ascii.eqb c "/"%char
  | [] => false
  end.

Section Worker.
Variable rt : Runtime.

(** [loadPyodideIfNeeded]: the new state, what was done, and the
    exception if it threw. *)
Definition loadPyodideIfNeeded (st : State)
  : State * list Effect * option Exception :=
  if initialized st then (st, [], None)
  else
    match loadPyodide rt (indexURL st) with
    | None =>
      (mkState true (indexURL st) (currentToken st),
       [LoadRuntime (indexURL st)], None)
    | Some err => (st, [LoadRuntime (indexURL st)], Some err)
    end.

(** The outer [catch]. *)
Definition report (st : State) (err : Exception) : Effect :=
  Post (mkWorkerMsg (Some "error") (currentToken st) None None None
                    (Some (error_text err))).

(** [postStd(kind, text)] *)
Definition postStd (st : State) (runId : option string) (kind text : string)
  : Effect :=
  Post (mkWorkerMsg (Some kind) (currentToken st) runId (Some text) None None).

(** [StdoutCatcher.write(s)] and [StderrCatcher.write(s)]: an empty string
    is skipped. *)
Definition write (st : State) (runId : option string) (w : Stream * string)
  : list Effect :=
  if String.eqb (snd w) "" then []
  else [postStd st runId (stream_name (fst w)) (snd w)].

(** The [run] branch once the token has been accepted. *)
Definition run_accepted (st : State) (msg : HostMsg) : list Effect :=
  let runId := if JS.truthy (hm_runId msg) then hm_runId msg else None in
  let code := JS.or_else (hm_code msg) "" in
  [SetBridge;
   Post (mkWorkerMsg (Some "start") (currentToken st) runId None None None)]
  ++ match redirect rt with
     | Some err => [report st err]
     | None =>
       InstallRedirect :: Evaluate code
       :: flat_map (write st runId) (writes (runPythonAsync rt code))
       ++ match completion (runPythonAsync rt code) with
          | Value v =>
            [Post (mkWorkerMsg (Some "result") (currentToken st) runId None
                     (Some (match v with
                            | VNullish => ""
                            | VOther s => s
                            end)) None)]
          | Raises err =>
            [Post (mkWorkerMsg (Some "error") (currentToken st) runId None
                               None (Some (error_text err)))]
          | Diverges => []
          end
     end.

(** [self.onmessage], one message handled from start to end. *)
Definition onmessage (st : State) (data : option HostMsg)
  : State * list Effect :=
  match data with
  | None => (st, [])
  | Some msg =>
    if JS.strict_eq (hm_type msg) "init" then
      let st :=
        mkState (initialized st)
                (match hm_indexURL msg with
                 | Some u =>
                   if String.eqb u "" then indexURL st
                   else if ends_with_slash u then u else (u ++ "/")%string
                 | None => indexURL st
                 end)
                (if JS.truthy (hm_token msg) then hm_token msg else None) in
      match loadPyodideIfNeeded st with
      | (st, eff, None) =>
        (st, eff ++ [Post (mkWorkerMsg (Some "ready") (currentToken st)
                                       None None None None)])
      | (st, eff, Some err) => (st, eff ++ [report st err])
      end
    else if JS.strict_eq (hm_type msg) "run" then
      match loadPyodideIfNeeded st with
      | (st, eff, Some err) => (st, eff ++ [report st err])
      | (st, eff, None) =>
        if negb (JS.truthy (hm_token msg))
           || negb (match currentToken st with
                    | Some t => JS.strict_eq (hm_token msg) t
                    | None => false
                    end)
        then (st, eff)
        else (st, eff ++ run_accepted st msg)
      end
    else (st, [])
  end.

End Worker.

End PyWorker.

(** ** virtualizer.js: [runCode] *)
Module Virtualizer.

Record Options : Type := mkOptions {
  o_language : option string;
  o_code : option string;
  o_timeoutMs : option Z;
  o_maxLogBytes : option Z;
  o_indexURL : option string
}.

(** The values drawn from [Math.random().toString(36).slice(2)] and
    [Date.now()] during one call, in the order they are drawn. *)
Record Entropy : Type := mkEntropy {
  rnd_runId : string;      (* runCode's runId *)
  rnd_inner : string;      (* the executor's first draw: js runId, py token *)
  rnd_token : string;      (* the js token *)
  rnd_now : string;        (* Date.now() in the token *)
  rnd_pyrun : string       (* the runId drawn by PythonExecutor.run *)
}.

(** The consumer's callback, seen from the runner: given the events it
    has been called with so far and the next one, it returns ([false])
    or throws ([true]).  A callback that also calls the [stop] that
    [runCode] returned is a [Consumer], at the end of this module. *)
Definition Callback : Type := list Event -> Event -> bool.

(** The mutable variables shared by the closures of one call, and the
    calls made to the consumer's callback. *)
Record World : Type := mkWorld {
  delivered : list Event;
  totalLogBytes : Z;
  truncatedNotified : bool
}.

Definition initial : World := mkWorld [] 0 false.

(** The destructured options. *)
Record Resolved : Type := mkResolved {
  language : string;
  code : string;
  timeoutMs : Z;
  maxLogBytes : Z;
  indexURL : option string;
  runId : string
}.

Definition resolve (options : option Options) (en : Entropy) : Resolved :=
  let o := match options with
           | Some o => o
           | None => mkOptions None None None None None
           end in
  let language :=
    match o_language o with Some l => l | None => "javascript" end in
  mkResolved language
             (match o_code o with Some c => c | None => "" end)
             (match o_timeoutMs o with Some t => t | None => 5000 end)
             (match o_maxLogBytes o with Some b => b | None => 64 * 1024 end)
             (o_indexURL o)
             (language ++ "_" ++ rnd_runId en)%string.

Record PythonRun : Type := mkPythonRun {
  py : PythonExecutor.Executor World;
  off : nat;               (* the unsubscribe closure of the adapter *)
  finished : bool;
  timer : option Z         (* the delay of the pending host-side timer *)
}.

(** What [runCode] leaves behind for the event loop and [stop]. *)
Inductive Run : Type :=
| JavaScript (js : SandboxRunner.State)
| Python (p : PythonRun)
| Unsupported.

Definition is_javascript (l : string) : bool :=
  String.eqb l "javascript" || String.eqb l "js"
  || String.eqb l "typescript" || String.eqb l "ts".

Definition is_python (l : string) : bool :=
  String.eqb l "python" || String.eqb l "py".

Section RunCode.
Variable onEvent : Callback.
Variable r : Resolved.

(** The call [onEvent(e)] itself. *)
Definition call (e : Event) : M World unit :=
  fun w =>
    (if onEvent (delivered w) e then Thrown else Returned tt,
     mkWorld (delivered w ++ [e]) (totalLogBytes w) (truncatedNotified w)).

Definition emit (type : string) (p : Payload) : M World unit :=
  try_catch (call (mkEvent type (runId r) (Some (language r)) p)).

Definition budgetedEmit (type : string) (text : option string)
           (level : string) : M World unit :=
  fun w =>
    let s := JS.or_else text "" in
    let bytes := JS.utf8_length s in
    if totalLogBytes w + bytes <=? maxLogBytes r then
      emit type (mkPayload (Some s) (Some level) None None None)
           (mkWorld (delivered w) (totalLogBytes w + bytes)
                    (truncatedNotified w))
    else if negb (truncatedNotified w) then
      emit "log"
           (mkPayload (Some "[output truncated]") (Some "warn")
                      None None None)
           (mkWorld (delivered w) (totalLogBytes w) true)
    else (Returned tt, w).

(** The callback handed to [runJavaScript]. *)
Definition js_adapter (evt : Event) : M World unit :=
  when (String.eqb (ev_type evt) "init") (emit "init" no_payload) ;;
  when (String.eqb (ev_type evt) "start") (emit "start" no_payload) ;;
  when (String.eqb (ev_type evt) "log")
       (let level := JS.or_else (p_level (ev_payload evt)) "log" in
        budgetedEmit "stdout" (p_text (ev_payload evt)) level ;;
        emit "log" (mkPayload (p_text (ev_payload evt)) (Some level)
                              None None None)) ;;
  when (String.eqb (ev_type evt) "error")
       (emit "error" (mkPayload None None (p_message (ev_payload evt))
                                (p_stack (ev_payload evt)) None)) ;;
  when (String.eqb (ev_type evt) "done") (emit "done" no_payload) ;;
  when (String.eqb (ev_type evt) "timeout")
       (emit "timeout" (mkPayload None None (p_message (ev_payload evt))
                                  None None)).

(** The listener registered with [py.onMessage]. *)
Definition py_adapter (msg : WorkerMsg) : M World unit :=
  if JS.strict_eq (wm_type msg) "ready" then ret tt
  else
    when (JS.strict_eq (wm_type msg) "start") (emit "start" no_payload) ;;
    when (JS.strict_eq (wm_type msg) "stdout")
         (budgetedEmit "stdout" (wm_text msg) "info") ;;
    when (JS.strict_eq (wm_type msg) "stderr")
         (budgetedEmit "stderr" (wm_text msg) "warn") ;;
    when (JS.strict_eq (wm_type msg) "result")
         (emit "result" (mkPayload None None None None (wm_value msg))) ;;
    when (JS.strict_eq (wm_type msg) "error")
         (emit "error" (mkPayload None None (wm_message msg) None None)).

(** The callback of the host-side [setTimeout]. *)
Definition py_on_timer (p : PythonRun) : M World PythonRun :=
  if negb (finished p) then
    emit "timeout"
         (mkPayload None None
                    (Some (SandboxRunner.timeout_message (timeoutMs r)))
                    None None) ;;
    ret (mkPythonRun (PythonExecutor.dispose (py p)) (off p) (finished p)
                     (timer p))
  else ret p.

(** The callback given to [finally] on the promise of [py.run(code)]. *)
Definition py_finally (p : PythonRun) : M World PythonRun :=
  if negb (finished p) then
    emit "done" no_payload ;;
    ret (mkPythonRun (py p) (off p) true None)
  else ret p.

Definition py_stop (p : PythonRun) : PythonRun :=
  mkPythonRun (PythonExecutor.dispose (PythonExecutor.delete (off p) (py p)))
              (off p) (finished p) None.

(** A message event on the worker: the executor's handler, then the
    microtasks of the settled promise. *)
Definition py_message (p : PythonRun) (data : option WorkerMsg)
  : M World PythonRun :=
  x <- PythonExecutor.onmessage (py p) data ;;
  let p := mkPythonRun (fst x) (off p) (finished p) (timer p) in
  match snd x with
  | [] => ret p
  | _ :: _ => py_finally p
  end.

(** [runCode(options, onEvent)] up to its [return]. *)
Definition runCode_body (en : Entropy) : M World Run :=
  emit "init" no_payload ;;
  if is_javascript (language r) then
    js <- SandboxRunner.runJavaScript js_adapter (code r)
            (SandboxRunner.mkOptions (Some (timeoutMs r))
                                     (Some (maxLogBytes r)))
            (rnd_inner en) (rnd_token en) (rnd_now en) ;;
    ret (JavaScript js)
  else if is_python (language r) then
    let ex := PythonExecutor.new (PythonExecutor.mkOptions (indexURL r))
                                 (rnd_inner en) (rnd_now en) in
    let (ex, off) := PythonExecutor.onMessage py_adapter ex in
    match PythonExecutor.run (code r) (rnd_pyrun en) ex with
    | (ex, None) =>
      ret (Python (mkPythonRun ex off false (Some (timeoutMs r))))
    | (ex, Some _) =>
      (* the promise is already settled: its [finally] callback runs
         as soon as [runCode] has returned *)
      p <- py_finally (mkPythonRun ex off false (Some (timeoutMs r))) ;;
      ret (Python p)
    end
  else
    emit "error"
         (mkPayload None None
                    (Some ("Unsupported language: " ++ language r)%string)
                    None None) ;;
    emit "done" no_payload ;;
    ret Unsupported.

(** One turn of the host event loop after [runCode] has returned. *)
Definition step (run : Run) (i : Input) : M World Run :=
  match run with
  | JavaScript js =>
    js <- SandboxRunner.step js_adapter js i ;;
    ret (JavaScript js)
  | Python p =>
    match i with
    | WorkerMessage data =>
      p <- py_message p data ;; ret (Python p)
    | TimerFires =>
      match timer p with
      | Some _ =>
        p <- py_on_timer (mkPythonRun (py p) (off p) (finished p) None) ;;
        ret (Python p)
      | None => ret run
      end
    | Stop => ret (Python (py_stop p))
    | _ => ret run
    end
  | Unsupported => ret Unsupported
  end.

Fixpoint steps (run : Run) (ins : list Input) : M World Run :=
  match ins with
  | [] => ret run
  | i :: ins => run <- step run i ;; steps run ins
  end.

End RunCode.

(** A whole run: the call of [runCode], then the inputs in order. *)
Definition runCode (options : option Options) (onEvent : Callback)
           (en : Entropy) (ins : list Input) : result Run * World :=
  let r := resolve options en in
  (run <- runCode_body onEvent r en ;; steps onEvent r run ins) initial.

(** The events the consumer's callback was called with. *)
Definition stream (options : option Options) (onEvent : Callback)
           (en : Entropy) (ins : list Input) : list Event :=
  delivered (snd (runCode options onEvent en ins)).

(** *** A consumer that calls [stop] from its callback *)

(** A consumer whose callback may also call the [stop] that [runCode]
    returned.  Called with an event after the events of a list, the
    callback returns or throws ([throws]) and has or has not called
    [stop()] by then ([stops]). *)
Record Consumer : Type := mkConsumer {
  throws : Callback;
  stops : list Event -> Event -> bool
}.

(** Whether [stop()] was called during the calls of the callback that
    delivered the events [new] after the events [before]. *)
Fixpoint stop_called (c : Consumer) (before new : list Event) : bool :=
  match new with
  | [] => false
  | e :: new => stops c before e || stop_called c (before ++ [e]) new
  end.

(** One turn of the host event loop for such a consumer.  [stop] writes
    only what the handler that is running does not read again (the timer,
    the window listener and the iframe of a JavaScript run; the timer, the
    registration of the adapter and the worker of a Python run), and
    calling it twice is calling it once: so a call made from the callback
    has the effect of a [stop()] made when the handler returns, and what
    the handler still hands to the callback after the call is delivered. *)
Definition turn (c : Consumer) (r : Resolved) (run : Run) (i : Input)
  : M World Run :=
  fun w =>
    match step (throws c) r run i w with
    | (Returned run', w') =>
      if stop_called c (delivered w)
                     (skipn (List.length (delivered w)) (delivered w'))
      then step (throws c) r run' Stop w'
      else (Returned run', w')
    | (Thrown, w') => (Thrown, w')
    end.

Fixpoint turns (c : Consumer) (r : Resolved) (run : Run) (ins : list Input)
  : M World Run :=
  match ins with
  | [] => ret run
  | i :: ins => run <- turn c r run i ;; turns c r run ins
  end.

(** A whole run watched by such a consumer.  The consumer holds [stop]
    once [runCode] has returned: the events delivered before that are
    handled without it. *)
Definition runCode_with (options : option Options) (c : Consumer)
           (en : Entropy) (ins : list Input) : result Run * World :=
  let r := resolve options en in
  (run <- runCode_body (throws c) r en ;; turns c r run ins) initial.

Definition stream_with (options : option Options) (c : Consumer)
           (en : Entropy) (ins : list Input) : list Event :=
  delivered (snd (runCode_with options c en ins)).

End Virtualizer.

(** ** server/index.js: the snippet service *)
Module Server.

(** A JSON value of a request body; arrays and objects are kept as
    their JSON text. *)
Inductive Json : Type :=
| JNull
| JBool (b : bool)
| JNum (n : Z)
| JStr (s : string)
| JArr (text : string)
| JObj (text : string).

Record Snippet : Type := mkSnippet {
  id : string;
  code : string;
  language : Json;
  meta : Json;
  createdAt : option Z
}.

(** The object kept in [snippets.json]: its own properties, in property
    order. *)
Definition Store : Type := list (string * Snippet).

(** [req.body] of a POST; a field is [None] when it is [undefined]. *)
Record Body : Type := mkBody {
  b_code : option Json;
  b_language : option Json;
  b_meta : option Json
}.

Inductive Content : Type :=
| CError (error : string)
| CId (id : string)
| CList (list : list Snippet)
| CSnippet (snip : Snippet)
| CInherited (name : string).   (* a member of Object.prototype *)

Record Response : Type := mkResponse {
  status : Z;
  content : Content
}.

(** The decimal value of a string of digits. *)
Fixpoint digits (acc : N) (s : string) : option N :=
  match s with
  | EmptyString => Some acc
  | String c r =>
    let n := N_of_ascii c in
    if ((48 <=? n) && (n <=? 57))%N
    then digits (acc * 10 + (n - 48))%N r
    else None
  end.

(** A property name that is an array index: the canonical decimal form
    of an integer below 2^32 - 1.  Such properties come first, in
    ascending order, when an object is enumerated. *)
Definition array_index (k : string) : option N :=
  match k with
  | EmptyString => None
  | String "0" EmptyString => Some 0%N
  | String "0" _ => None
  | _ =>
    match digits 0 k with
    | Some n => if (n <? 4294967295)%N then Some n else None
    | None => None
    end
  end.

(** Does the property [k1] come before a new property [k] ? *)
Definition precedes (k1 k : string) : bool :=
  match array_index k1, array_index k with
  | Some n1, Some n => (n1 <? n)%N
  | Some _, None => true
  | None, Some _ => false
  | None, None => true
  end.

(** The names [Object.prototype] answers to. *)
Definition object_prototype : list string :=
  ["constructor"; "__defineGetter__"; "__defineSetter__"; "hasOwnProperty";
   "__lookupGetter__"; "__lookupSetter__"; "isPrototypeOf";
   "propertyIsEnumerable"; "toString"; "valueOf"; "__proto__";
   "toLocaleString"].

Definition inherited (k : string) : bool :=
  existsb (String.eqb k) object_prototype.

Fixpoint own (all : Store) (k : string) : option Snippet :=
  match all with
  | [] => None
  | (k1, v) :: r => if String.eqb k1 k then Some v else own r k
  end.

(** The three outcomes of reading [all[k]]. *)
Inductive Lookup : Type :=
| Own (snip : Snippet)
| Inherited
| Undefined.

(** [all[k]] *)
Definition get (all : Store) (k : string) : Lookup :=
  match own all k with
  | Some v => Own v
  | None => if inherited k then Inherited else Undefined
  end.

Fixpoint define (all : Store) (k : string) (v : Snippet) : Store :=
  match all with
  | [] => [(k, v)]
  | (k1, v1) :: r =>
    if String.eqb k1 k then (k, v) :: r
    else if precedes k1 k then (k1, v1) :: define r k v
    else (k, v) :: (k1, v1) :: r
  end.

(** [all[k] = v]; assigning to [__proto__] runs the setter of
    [Object.prototype] and creates no property. *)
Definition set (all : Store) (k : string) (v : Snippet) : Store :=
  if String.eqb k "__proto__" && negb (match own all k with
                                       | Some _ => true
                                       | None => false
                                       end)
  then all else define all k v.

(** [Object.values(all)] *)
Definition values (all : Store) : list Snippet := map snd all.

Section Sort.
Context {A : Type}.
Variable compare : A -> A -> Z.

Fixpoint insert (x : A) (sorted : list A) : list A :=
  match sorted with
  | [] => [x]
  | y :: r => if compare x y <? 0 then x :: y :: r else y :: insert x r
  end.

(** [xs.sort(compare)]: the stable sort the language prescribes,
    written as an insertion sort. *)
Definition sort (xs : list A) : list A :=
  fold_left (fun sorted x => insert x sorted) xs [].
End Sort.

Definition or_zero (n : option Z) : Z :=
  match n with Some z => z | None => 0 end.

(** [(a, b) => (b.createdAt || 0) - (a.createdAt || 0)] *)
Definition newest_first (a b : Snippet) : Z :=
  or_zero (createdAt b) - or_zero (createdAt a).

(** GET /api/snippets *)
Definition list_snippets (all : Store) : Response :=
  mkResponse 200 (CList (firstn 100 (sort newest_first (values all)))).

(** POST /api/snippets; [new_id] is the value of [nanoid(10)] and [now]
    that of [Date.now()]. *)
Definition post_snippet (all : Store) (body : option Body)
           (new_id : string) (now : Z) : Store * Response :=
  let body := match body with Some b => b | None => mkBody None None None end in
  let code := match b_code body with Some c => c | None => JStr "" end in
  let language :=
    match b_language body with Some l => l | None => JStr "python" end in
  let meta := match b_meta body with Some m => m | None => JObj "{}" end in
  match code with
  | JStr code =>
    if JS.length code >? 200000
    then (all, mkResponse 400 (CError "Invalid code"))
    else
      (set all new_id (mkSnippet new_id code language meta (Some now)),
       mkResponse 200 (CId new_id))
  | _ => (all, mkResponse 400 (CError "Invalid code"))
  end.

(** GET /api/snippets/:id *)
Definition get_snippet (all : Store) (id : string) : Response :=
  match get all id with
  | Undefined => mkResponse 404 (CError "Not found")
  | Own snip => mkResponse 200 (CSnippet snip)
  | Inherited => mkResponse 200 (CInherited id)
  end.

End Server.


(** ** components/Toasts.jsx: [ToastProvider]

    The state of the provider is the list [toasts]; the timers it has set
    are listed beside it.  A toast is the object given to [push]: its
    [id], when it has one of its own, its [type], its [message] and its
    [ttl], a number of milliseconds; a property is [None] when the object
    does not have it. *)
Module Toasts.

Record Toast : Type := mkToast {
  t_id : option string;
  t_type : option string;
  t_message : option string;
  t_ttl : option Z
}.

(** [{ id, ...toast }] *)
Record Item : Type := mkItem {
  id : string;
  type : option string;
  message : option string;
  ttl : option Z
}.

Record State : Type := mkState {
  toasts : list Item;
  timers : list (string * Z)     (* the id each timer removes, its delay *)
}.

Definition initial : State := mkState [] [].

(** [remove(id)] *)
Definition remove (id0 : string) (st : State) : State :=
  mkState (filter (fun x => negb (String.eqb (id x) id0)) (toasts st))
          (timers st).

(** [push(toast)]; [rnd] is [Math.random().toString(36).slice(2)].  The
    result is the new state and the id returned. *)
Definition push (toast : Toast) (rnd : string) (st : State) : State * string :=
  let item :=
    mkItem (match t_id toast with Some i => i | None => rnd end)
           (t_type toast) (t_message toast) (t_ttl toast) in
  let ttl := match t_ttl toast with Some n => n | None => 3000 end in
  (mkState (toasts st ++ [item])
           (if ttl >? 0 then timers st ++ [(rnd, ttl)] else timers st),
   rnd).

(** The [n]-th pending timer fires: [remove(id)] with the id it closed
    over. *)
Definition fire (n : nat) (st : State) : State :=
  match nth_error (timers st) n with
  | Some (id0, _) =>
    remove id0 (mkState (toasts st)
                        (firstn n (timers st) ++ skipn (S n) (timers st)))
  | None => st
  end.

End Toasts.

(** ** Regular expressions

    The regular expressions of the components, as syntax trees, and the
    backtracking matcher of the language: alternatives are tried from
    left to right, a greedy quantifier tries one more iteration before it
    tries to go on, a lazy one the other way round, and an iteration that
    consumes nothing is refused.  A position is the list of the code
    units still to read, with the one just read. *)
Module Regex.

Inductive Re : Type :=
| Eps
| Chr (p : ascii -> bool)          (* a character class, [.] included *)
| Seq (a b : Re)
| Alt (a b : Re)
| Star (greedy : bool) (a : Re)    (* a* and a*? *)
| Opt (greedy : bool) (a : Re)     (* a? and a?? *)
| Group (n : nat) (a : Re)         (* the n-th capturing group *)
| Bol                              (* ^ *)
| Eol                              (* $ *)
| WordB.                           (* \b *)

(** a+ and a+? *)
Definition Plus (greedy : bool) (a : Re) : Re := Seq a (Star greedy a).

(** The characters of a string, one after the other. *)
Fixpoint Lit (s : string) : Re :=
  match s with
  | EmptyString => Eps
  | String c r => Seq (Chr (Ascii.eqb c)) (Lit r)
  end.

Definition code (c : ascii) : N := N_of_ascii c.

Definition between (lo hi : N) (c : ascii) : bool :=
  ((lo <=? code c) && (code c <=? hi))%N.

(** \d, \w and \s on code units up to 255 *)
Definition digit (c : ascii) : bool := between 48 57 c.

Definition letter (c : ascii) : bool := between 65 90 c || between 97 122 c.

Definition word (c : ascii) : bool :=
  letter c || digit c || Ascii.eqb c "_".

Definition space (c : ascii) : bool :=
  between 9 13 c || (code c =? 32)%N || (code c =? 160)%N.

(** [.]: any code unit but a line terminator *)
Definition dot (c : ascii) : bool :=
  negb ((code c =? 10)%N || (code c =? 13)%N).

Record Pos : Type := mkPos {
  before : option ascii;
  rest : list ascii
}.

(** The captures made so far, the latest first. *)
Definition Caps : Type := list (nat * string).

Definition Cont : Type := Pos -> Caps -> option (Pos * Caps).

Definition consumed (s s' : Pos) : bool :=
  (List.length (rest s') <? List.length (rest s))%nat.

(** The text between two positions. *)
Definition text (s s' : Pos) : string :=
  string_of_list_ascii
    (firstn (List.length (rest s) - List.length (rest s')) (rest s)).

Definition word_at (c : option ascii) : bool :=
  match c with
  | Some c => word c
  | None => false
  end.

Definition or_try {A} (x y : option A) : option A :=
  match x with
  | Some _ => x
  | None => y
  end.

(** The iterations of a quantifier whose body is matched by [body] and
    which is followed by [k]; [n] bounds the iterations left, each of
    which consumes a code unit. *)
Fixpoint star (greedy : bool) (body : Pos -> Caps -> Cont -> option (Pos * Caps))
         (k : Cont) (n : nat) (s : Pos) (c : Caps) : option (Pos * Caps) :=
  let again :=
    match n with
    | O => None
    | S n' =>
      body s c (fun s' c' => if consumed s s' then star greedy body k n' s' c'
                             else None)
    end in
  if greedy then or_try again (k s c) else or_try (k s c) again.

Fixpoint run (r : Re) : Pos -> Caps -> Cont -> option (Pos * Caps) :=
  match r with
  | Eps => fun s c k => k s c
  | Chr p =>
    fun s c k =>
      match rest s with
      | ch :: t => if p ch then k (mkPos (Some ch) t) c else None
      | [] => None
      end
  | Seq a b => fun s c k => run a s c (fun s' c' => run b s' c' k)
  | Alt a b => fun s c k => or_try (run a s c k) (run b s c k)
  | Star greedy a =>
    fun s c k => star greedy (run a) k (List.length (rest s)) s c
  | Opt greedy a =>
    fun s c k =>
      let once :=
        run a s c (fun s' c' => if consumed s s' then k s' c' else None) in
      if greedy then or_try once (k s c) else or_try (k s c) once
  | Group n a =>
    fun s c k => run a s c (fun s' c' => k s' ((n, text s s') :: c'))
  | Bol =>
    fun s c k => match before s with None => k s c | Some _ => None end
  | Eol =>
    fun s c k => match rest s with [] => k s c | _ :: _ => None end
  | WordB =>
    fun s c k =>
      if xorb (word_at (before s)) (word_at (hd_error (rest s)))
      then k s c else None
  end.

Definition accept : Cont := fun s c => Some (s, c).

(** A match at the position [s]. *)
Definition at_pos (r : Re) (s : Pos) : option (Pos * Caps) :=
  run r s [] accept.

(** The capture of the group [n], [undefined] when the group took no
    part in the match. *)
Fixpoint capture (n : nat) (c : Caps) : option string :=
  match c with
  | [] => None
  | (m, t) :: c => if Nat.eqb m n then Some t else capture n c
  end.

(** The leftmost match at or after a position: the text before it and
    the match. *)
Fixpoint search (r : Re) (prev : option ascii) (s : list ascii)
  : option (Pos * (Pos * Caps)) :=
  match at_pos r (mkPos prev s) with
  | Some m => Some (mkPos prev s, m)
  | None =>
    match s with
    | [] => None
    | ch :: t => search r (Some ch) t
    end
  end.

(** [re.exec(str)] and [str.match(re)] for a [re] without the flag g:
    the captures of the leftmost match. *)
Definition exec (r : Re) (str : string) : option Caps :=
  match search r None (list_ascii_of_string str) with
  | Some (_, (_, c)) => Some c
  | None => None
  end.

(** [re.test(str)] *)
Definition test (r : Re) (str : string) : bool :=
  match exec r str with
  | Some _ => true
  | None => false
  end.

(** [str.split(re)] for a [re] with [groups] capturing groups.  The
    pieces between the matches and the captures of each match, in order;
    a match that ends where the piece before it began is passed over.
    [piece] is the piece being read, reversed, and [skip] counts the
    code units of the last match still to pass. *)
Fixpoint split_from (r : Re) (groups : list nat) (prev : option ascii)
         (s : list ascii) (piece : list ascii) (skip : nat)
  : list (option string) :=
  match s with
  | [] => [Some (string_of_list_ascii (rev piece))]
  | ch :: t =>
    match skip with
    | S skip' => split_from r groups (Some ch) t piece skip'
    | O =>
      match at_pos r (mkPos prev s) with
      | None => split_from r groups (Some ch) t (ch :: piece) 0
      | Some (e, c) =>
        let len := (List.length s - List.length (rest e))%nat in
        match len, piece with
        | O, [] => split_from r groups (Some ch) t [ch] 0
        | O, _ :: _ =>
          Some (string_of_list_ascii (rev piece))
          :: map (fun n => capture n c) groups
          ++ split_from r groups (Some ch) t [ch] 0
        | S len', _ =>
          Some (string_of_list_ascii (rev piece))
          :: map (fun n => capture n c) groups
          ++ split_from r groups (Some ch) t [] len'
        end
      end
    end
  end.

Definition split (r : Re) (groups : list nat) (str : string)
  : list (option string) :=
  match list_ascii_of_string str with
  | [] =>
    match at_pos r (mkPos None []) with
    | Some _ => []
    | None => [Some ""]
    end
  | s => split_from r groups None s [] 0
  end.

(** The regular expressions of a list, one after the other. *)
Fixpoint Cat (rs : list Re) : Re :=
  match rs with
  | [] => Eps
  | [r] => r
  | r :: rs => Seq r (Cat rs)
  end.

(** [str.replace(re, '')] for a [re] without the flag g: the leftmost
    match is taken out. *)
Definition remove_first (r : Re) (str : string) : string :=
  let s := list_ascii_of_string str in
  match search r None s with
  | Some (start, (e, _)) =>
    string_of_list_ascii
      (firstn (List.length s - List.length (rest start)) s
       ++ rest e)
  | None => str
  end.

(** [str.split(re)] for a [re] without capturing groups *)
Fixpoint strings (xs : list (option string)) : list string :=
  match xs with
  | [] => []
  | Some x :: xs => x :: strings xs
  | None :: xs => strings xs
  end.

Definition split_plain (r : Re) (str : string) : list string :=
  strings (split r [] str).

End Regex.

(** ** Strings *)
Module Str.

(** [s.trim()] *)
Fixpoint trim_start (s : list ascii) : list ascii :=
  match s with
  | c :: r => if Regex.space c then trim_start r else s
  | [] => []
  end.

Definition trim (s : string) : string :=
  string_of_list_ascii
    (rev (trim_start (rev (trim_start (list_ascii_of_string s))))).

(** [s.slice(0, n)] for a natural number [n] *)
Definition slice0 (n : nat) (s : string) : string :=
  string_of_list_ascii (firstn n (list_ascii_of_string s)).

(** [s.split(sep)] for a separator of one character *)
Fixpoint split_chars (sep : ascii) (s : list ascii) (piece : list ascii)
  : list string :=
  match s with
  | [] => [string_of_list_ascii (rev piece)]
  | c :: r =>
    if Ascii.eqb c sep
    then string_of_list_ascii (rev piece) :: split_chars sep r []
    else split_chars sep r (c :: piece)
  end.

Definition split_on (sep : ascii) (s : string) : list string :=
  split_chars sep (list_ascii_of_string s) [].

(** [xs.includes(x)] for strings *)
Definition includes (xs : list string) (x : string) : bool :=
  existsb (String.eqb x) xs.

(** [xs.filter(Boolean)] for strings: the empty string is falsy *)
Definition filter_Boolean (xs : list string) : list string :=
  filter (fun x => negb (String.eqb x "")) xs.

End Str.

(** ** EnhancedComponents.jsx: the tokens of [TokenViewer] *)
Module TokenViewer.

Record Config : Type := mkConfig {
  keywords : list string;
  operators : list string;
  delimiters : list string
}.

Definition javascript : Config :=
  mkConfig
    ["function"; "const"; "let"; "var"; "if"; "else"; "for"; "while"; "return";
     "class"; "import"; "export"]
    ["="; "+"; "-"; "*"; "/"; "=="; "==="; "!="; "!=="; "<"; ">"; "<="; ">=";
     "&&"; "||"; "!"]
    ["("; ")"; "{"; "}"; "["; "]"; ";"; ","; "."].

Definition python : Config :=
  mkConfig
    ["def"; "class"; "if"; "else"; "elif"; "for"; "while"; "return"; "import";
     "from"; "as"; "try"; "except"]
    ["="; "+"; "-"; "*"; "/"; "//"; "%"; "**"; "=="; "!="; "<"; ">"; "<=";
     ">="; "and"; "or"; "not"]
    ["("; ")"; "["; "]"; ":"; ","; "."].

Definition java : Config :=
  mkConfig
    ["public"; "private"; "class"; "interface"; "if"; "else"; "for"; "while";
     "return"; "import"; "package"]
    ["="; "+"; "-"; "*"; "/"; "=="; "!="; "<"; ">"; "<="; ">="; "&&"; "||"; "!"]
    ["("; ")"; "{"; "}"; "["; "]"; ";"; ","; "."].

Definition cpp : Config :=
  mkConfig
    ["int"; "float"; "double"; "char"; "if"; "else"; "for"; "while"; "return";
     "class"; "public"; "private"]
    ["="; "+"; "-"; "*"; "/"; "=="; "!="; "<"; ">"; "<="; ">="; "&&"; "||"; "!"]
    ["("; ")"; "{"; "}"; "["; "]"; ";"; ","; "."].

Definition c : Config :=
  mkConfig
    ["int"; "float"; "double"; "char"; "if"; "else"; "for"; "while"; "return";
     "struct"; "typedef"]
    ["="; "+"; "-"; "*"; "/"; "=="; "!="; "<"; ">"; "<="; ">="; "&&"; "||"; "!"]
    ["("; ")"; "{"; "}"; "["; "]"; ";"; ","; "."].

(** [languageConfig[language] || languageConfig.javascript]: [None]
    when [language] names a member of [Object.prototype], which is no
    configuration. *)
Definition config_of (language : string) : option Config :=
  if String.eqb language "javascript" then Some javascript
  else if String.eqb language "python" then Some python
  else if String.eqb language "java" then Some java
  else if String.eqb language "cpp" then Some cpp
  else if String.eqb language "c" then Some c
  else if Server.inherited language then None
  else Some javascript.

Record Token : Type := mkToken {
  id : nat;
  value : string;
  position_start : nat;
  position_end : nat;
  line : nat;
  column : nat;
  type : string;
  category : string;
  description : string;
  color : string;
  bgColor : string
}.

(** /(\s+|[^\w\s])/g *)
Definition separator : Regex.Re :=
  Regex.Group 1
    (Regex.Alt (Regex.Plus true (Regex.Chr Regex.space))
               (Regex.Chr (fun ch => negb (Regex.word ch || Regex.space ch)))).

(** /^\d+(\.\d+)?$/ *)
Definition number : Regex.Re :=
  Regex.Seq Regex.Bol
   (Regex.Seq (Regex.Plus true (Regex.Chr Regex.digit))
    (Regex.Seq
       (Regex.Opt true
          (Regex.Group 1
             (Regex.Seq (Regex.Chr (Ascii.eqb "."))
                        (Regex.Plus true (Regex.Chr Regex.digit)))))
       Regex.Eol)).

(** The class of the two quotation marks *)
Definition quote (ch : ascii) : bool :=
  Ascii.eqb ch (ascii_of_nat 34) || Ascii.eqb ch "'".

(** /^[QUOTES].*[QUOTES]$/, where QUOTES are the two quotation marks *)
Definition quoted : Regex.Re :=
  Regex.Seq Regex.Bol
   (Regex.Seq (Regex.Chr quote)
    (Regex.Seq (Regex.Star true (Regex.Chr Regex.dot))
     (Regex.Seq (Regex.Chr quote) Regex.Eol))).

(** /^\/\// and /^\/\*/ *)
Definition line_comment : Regex.Re := Regex.Seq Regex.Bol (Regex.Lit "//").

Definition block_comment : Regex.Re := Regex.Seq Regex.Bol (Regex.Lit "/*").

(** /^[a-zA-Z_][a-zA-Z0-9_]*$/ *)
Definition identifier : Regex.Re :=
  Regex.Seq Regex.Bol
   (Regex.Seq (Regex.Chr (fun ch => Regex.letter ch || Ascii.eqb ch "_"))
    (Regex.Seq (Regex.Star true (Regex.Chr Regex.word)) Regex.Eol)).

(** The callback of [words.map]. *)
Definition token (config : Config) (w : string) (index : nat) : Token :=
  let make := mkToken index w index (index + String.length w) 1 index in
  if Str.includes (keywords config) w then
    make "keyword" "reserved" "Reserved language keyword"
         "text-blue-400" "bg-blue-900"
  else if Str.includes (operators config) w then
    make "operator" "symbol" "Operator or symbol"
         "text-purple-400" "bg-purple-900"
  else if Str.includes (delimiters config) w then
    make "delimiter" "punctuation" "Delimiter or punctuation"
         "text-gray-400" "bg-gray-700"
  else if Regex.test number w then
    make "number" "literal" "Numeric literal" "text-yellow-400" "bg-yellow-900"
  else if Regex.test quoted w then
    make "string" "literal" "String literal" "text-green-400" "bg-green-900"
  else if Regex.test line_comment w || Regex.test block_comment w then
    make "comment" "documentation" "Code comment"
         "text-gray-500" "bg-gray-800"
  else if Regex.test identifier w then
    make "identifier" "variable" "User-defined identifier"
         "text-cyan-400" "bg-cyan-900"
  else
    make "unknown" "error" "Unrecognized token" "text-red-400" "bg-red-900".

(** [.filter(word => word.trim())]; [trim] of [undefined] throws. *)
Fixpoint words_of (pieces : list (option string)) : result (list string) :=
  match pieces with
  | [] => Returned []
  | None :: _ => Thrown
  | Some w :: pieces =>
    match words_of pieces with
    | Returned ws =>
      Returned (if String.eqb (Str.trim w) "" then ws else w :: ws)
    | Thrown => Thrown
    end
  end.

Fixpoint map_index (f : string -> nat -> Token) (ws : list string) (index : nat)
  : list Token :=
  match ws with
  | [] => []
  | w :: ws => f w index :: map_index f ws (S index)
  end.

(** [performLiveTokenization(sourceCode)] for the [language] of the
    component. *)
Definition performLiveTokenization (language : string) (sourceCode : string)
  : result (list Token) :=
  match words_of (Regex.split separator [1%nat] sourceCode) with
  | Thrown => Thrown
  | Returned [] => Returned []
  | Returned ws =>
    match config_of language with
    | Some config => Returned (map_index (token config) ws 0)
    | None => Thrown
    end
  end.

End TokenViewer.

(** ** ParserTreeGraph.jsx: [generateDynamicAST]

    The tree the component draws for the text of the editor: one node for
    each line it recognises, by regular expressions, as a function, a
    declaration, a [return], a call or an expression. *)
Module ParserTreeGraph.

(** The label of a node: a text, or the label of a call, which is the
    callee followed by an ellipsis in brackets; the ellipsis, the
    character U+2026, is no code unit of a [string]. *)
Inductive Label : Type :=
| Text (s : string)
| CallOf (callee : string).

Inductive Properties : Type :=
| Script                                        (* { sourceType: 'script' } *)
| Params (params : list string)
| Declared (kind : string) (init : option string)
| Args (args : list string)
| NoProperties.

Record Node : Type := mkNode {
  id : string;
  type : string;
  label : Label;
  children : list string;
  level : Z;
  position : Z * Z;
  description : string;
  properties : Properties
}.

(** The object returned: the properties of the root, and [allNodes]. *)
Record Tree : Type := mkTree {
  root : Node;
  allNodes : list Node
}.

(** NAME: [[A-Za-z_][A-Za-z0-9_]*] *)
Definition name : Regex.Re :=
  Regex.Seq (Regex.Chr (fun ch => Regex.letter ch || Ascii.eqb ch "_"))
            (Regex.Star true (Regex.Chr Regex.word)).

Definition spaces : Regex.Re := Regex.Star true (Regex.Chr Regex.space).

Definition spaces1 : Regex.Re := Regex.Plus true (Regex.Chr Regex.space).

Definition chr (c : ascii) : Regex.Re := Regex.Chr (Ascii.eqb c).

(** [/^function\s+(NAME)\s*\((ARGS)\)/], where ARGS is [[^)]*] *)
Definition function_declaration : Regex.Re :=
  Regex.Cat
    [Regex.Bol; Regex.Lit "function"; spaces1; Regex.Group 1 name; spaces;
     chr "(";
     Regex.Group 2
       (Regex.Star true (Regex.Chr (fun ch => negb (Ascii.eqb ch ")"))));
     chr ")"].

(** [/^(let|const|var)\s+(NAME)(\s*=\s*(.*?))?;?$/] *)
Definition variable_declaration : Regex.Re :=
  Regex.Cat
    [Regex.Bol;
     Regex.Group 1
       (Regex.Alt (Regex.Lit "let")
                  (Regex.Alt (Regex.Lit "const") (Regex.Lit "var")));
     spaces1; Regex.Group 2 name;
     Regex.Opt true
       (Regex.Group 3
          (Regex.Cat
             [spaces; chr "="; spaces;
              Regex.Group 4 (Regex.Star false (Regex.Chr Regex.dot))]));
     Regex.Opt true (chr ";"); Regex.Eol].

(** [/^return\s+(.+);?$/] *)
Definition return_statement : Regex.Re :=
  Regex.Cat
    [Regex.Bol; Regex.Lit "return"; spaces1;
     Regex.Group 1 (Regex.Plus true (Regex.Chr Regex.dot));
     Regex.Opt true (chr ";"); Regex.Eol].

(** [/^(NAME)\s*\((ARGS)\);?$/], where ARGS is [.*] *)
Definition call_expression : Regex.Re :=
  Regex.Cat
    [Regex.Bol; Regex.Group 1 name; spaces; chr "(";
     Regex.Group 2 (Regex.Star true (Regex.Chr Regex.dot)); chr ")";
     Regex.Opt true (chr ";"); Regex.Eol].

(** /[;]+$/ *)
Definition semicolons : Regex.Re :=
  Regex.Seq (Regex.Plus true (chr ";")) Regex.Eol.

(** /\r?\n/ *)
Definition newline : Regex.Re :=
  Regex.Seq (Regex.Opt true (chr (ascii_of_nat 13))) (chr (ascii_of_nat 10)).

(** A capture that always takes part in the match. *)
Definition group (n : nat) (c : Regex.Caps) : string :=
  match Regex.capture n c with
  | Some s => s
  | None => ""
  end.

(** [`${prefix}_${i}`] and [`${prefix}_${i}_${k}`] *)
Definition id1 (prefix : string) (i : nat) : string :=
  (prefix ++ "_" ++ JS.number_to_string (Z.of_nat i))%string.

Definition id2 (prefix : string) (i k : nat) : string :=
  (prefix ++ "_" ++ JS.number_to_string (Z.of_nat i) ++ "_"
   ++ JS.number_to_string (Z.of_nat k))%string.

(** [xs.map((x, k) => f(x, k))] *)
Fixpoint mapi {A B} (f : A -> nat -> B) (xs : list A) (k : nat) : list B :=
  match xs with
  | [] => []
  | x :: xs => f x k :: mapi f xs (S k)
  end.

(** [s.split(',').map(s => s.trim()).filter(Boolean)] *)
Definition items (s : string) : list string :=
  Str.filter_Boolean (map Str.trim (Str.split_on "," s)).

(** The variables the callback of [lines.forEach] closes over. *)
Record State : Type := mkState {
  nodes : list Node;             (* children *)
  root_children : list string;   (* root.children *)
  idx : nat
}.

(** [gridPos()] *)
Definition gridPos (st : State) : (Z * Z) * State :=
  let col := Z.of_nat (idx st) mod 4 in
  let row := Z.of_nat (idx st) / 4 in
  ((100 + col * 200, 150 + row * 120),
   mkState (nodes st) (root_children st) (S (idx st))).

(** [addChild(node)] *)
Definition addChild (node : Node) (st : State) : State :=
  mkState (nodes st ++ [node]) (root_children st ++ [id node]) (idx st).

(** [children.push(node)] *)
Definition push (node : Node) (st : State) : State :=
  mkState (nodes st ++ [node]) (root_children st) (idx st).

(** The callback of [lines.forEach]. *)
Definition visit (st : State) (line : string) (i : nat) : State :=
  match Regex.exec function_declaration line with
  | Some fn =>
    let name := group 1 fn in
    let params := items (group 2 fn) in
    let (pos, st) := gridPos st in
    let st :=
      addChild (mkNode (id1 "fn" i) "FunctionDeclaration" (Text name)
                       (mapi (fun _ k => id2 "param" i k) params 0) 1 pos
                       ("Function: " ++ name) (Params params)) st in
    fold_left (fun st node => push node st)
              (mapi (fun p k =>
                       mkNode (id2 "param" i k) "Identifier" (Text p) [] 2
                              (fst pos, snd pos + 60 + Z.of_nat k * 22)
                              ("Parameter: " ++ p) NoProperties)
                    params 0)
              st
  | None =>
    match Regex.exec variable_declaration line with
    | Some vd =>
      let kind := group 1 vd in
      let name := group 2 vd in
      let init :=
        if JS.truthy (Regex.capture 4 vd) then Regex.capture 4 vd else None in
      let (pos, st) := gridPos st in
      let st :=
        addChild (mkNode (id1 "var" i) "VariableDeclaration" (Text name)
                         (match init with
                          | Some _ => [id1 "init" i]
                          | None => []
                          end)
                         1 pos ("Variable: " ++ name) (Declared kind init)) st in
      match init with
      | Some init =>
        push (mkNode (id1 "init" i) "Init" (Text (Str.slice0 16 init)) [] 2
                     (fst pos, snd pos + 60) ("Initializer: " ++ init)
                     NoProperties) st
      | None => st
      end
    | None =>
      match Regex.exec return_statement line with
      | Some rt =>
        let arg := group 1 rt in
        let (pos, st) := gridPos st in
        addChild (mkNode (id1 "ret" i) "ReturnStatement"
                         (Text ("return " ++ Str.slice0 16 arg)) [] 1 pos
                         ("Return: " ++ arg) NoProperties) st
      | None =>
        match Regex.exec call_expression line with
        | Some call =>
          let callee := group 1 call in
          let args := items (group 2 call) in
          let (pos, st) := gridPos st in
          let st :=
            addChild (mkNode (id1 "call" i) "CallExpression"
                             (CallOf callee)
                             (mapi (fun _ k => id2 "arg" i k) args 0) 1 pos
                             ("Call: " ++ callee) (Args args)) st in
          fold_left (fun st node => push node st)
                    (mapi (fun a k =>
                             mkNode (id2 "arg" i k) "Argument"
                                    (Text (Str.slice0 12 a)) [] 2
                                    (fst pos, snd pos + 60 + Z.of_nat k * 20)
                                    ("Argument: " ++ a) NoProperties)
                          args 0)
                    st
        | None =>
          let asg := Str.trim (Regex.remove_first semicolons line) in
          if String.eqb asg "" then st
          else
            let (pos, st) := gridPos st in
            addChild (mkNode (id1 "expr" i) "ExpressionStatement"
                             (Text (Str.slice0 16 asg)) [] 1 pos
                             ("Expression: " ++ asg) NoProperties) st
        end
      end
    end
  end.

(** [lines.forEach((line, i) => ...)] from the index [i] on *)
Fixpoint forEach (st : State) (lines : list string) (i : nat) : State :=
  match lines with
  | [] => st
  | line :: lines => forEach (visit st line i) lines (S i)
  end.

(** [trimmed.split(/\r?\n/).map(l => l.trim()).filter(Boolean)] *)
Definition lines_of (trimmed : string) : list string :=
  Str.filter_Boolean (map Str.trim (Regex.split_plain newline trimmed)).

(** [generateDynamicAST(sourceCode)]; the source is [None] when it is
    [undefined] or [null]. *)
Definition generateDynamicAST (sourceCode : option string) : Tree :=
  let trimmed := Str.trim (JS.or_else sourceCode "") in
  let root children :=
    mkNode "root" "Program" (Text "Program") children 0 (400, 50)
           (if String.eqb trimmed "" then "Root of the program - empty"
            else "Root of the program - auto AST from your code")
           Script in
  if String.eqb trimmed "" then mkTree (root []) [root []]
  else
    let st := forEach (mkState [] [] 0) (lines_of trimmed) 0 in
    mkTree (root (root_children st)) (root (root_children st) :: nodes st).

(** [treeData.allNodes?.filter(node => node.level === 1) || []], the
    nodes the component draws below the root *)
Definition childNodes (treeData : Tree) : list Node :=
  filter (fun node => level node =? 1) (allNodes treeData).

End ParserTreeGraph.

(** ** TerminalOutput.jsx: the consumer of [runCode]

    The state of the component during one run of the effect that calls
    [runCode]: the array [lines] its callback closes over, the React
    states [output] and [isJsRunning], and whether [stopRef.current]
    holds the [stop] of the run.  The time of day a line is stamped with
    is an argument. *)
Module TerminalOutput.

(** The text of a line: one of the fixed texts, which hold characters
    that are no code units of a [string], or a text taken from an event
    ([undefined] when the event has none). *)
Inductive Text : Type :=
| Launching            (* 'Launching runtime...' after its emoji *)
| ProgramStarted       (* 'Program started' after its emoji *)
| ProgramFinished      (* 'Program finished' after its emoji *)
| StoppedByUser        (* 'JS execution stopped by user' after its emoji *)
| Of (s : option string).

Record Line : Type := mkLine {
  id : Z;
  type : string;
  text : Text;
  timestamp : string
}.

Record State : Type := mkState {
  lines : list Line;
  output : list Line;
  isJsRunning : bool;
  stopRef : bool
}.

(** The component before its first run. *)
Definition initial : State := mkState [] [] false false.

Definition MAX_LINES : nat := 500.

(** [[...lines].slice(-MAX_LINES)] *)
Definition last_lines (ls : list Line) : list Line :=
  skipn (List.length ls - MAX_LINES) ls.

(** [add(type, text)] at the time [now] *)
Definition add (now : string) (type : string) (text : Text) (ls : list Line)
  : list Line :=
  ls ++ [mkLine (Z.of_nat (List.length ls) + 1) type text now].

(** [String(v ?? '')] *)
Definition text_of (v : option string) : Text :=
  Of (Some (match v with Some s => s | None => "" end)).

(** The effect, up to the call of [runCode]. *)
Definition launch (now : string) (st : State) : State :=
  let ls := add now "info" Launching [] in
  mkState ls (last_lines ls) (isJsRunning st) (stopRef st).

(** The callback given to [runCode], for the [language] of the
    component. *)
Definition onEvent (language : string) (now : string) (evt : Event)
           (st : State) : State :=
  let js := String.eqb language "javascript" in
  let p := ev_payload evt in
  let stopped := if js then false else isJsRunning st in
  let (ls, running) :=
    if String.eqb (ev_type evt) "start" then
      (add now "info" ProgramStarted (lines st),
       if js then true else isJsRunning st)
    else if String.eqb (ev_type evt) "stdout" then
      (add now "output" (text_of (p_text p)) (lines st), isJsRunning st)
    else if String.eqb (ev_type evt) "stderr" then
      (add now "warning" (text_of (p_text p)) (lines st), isJsRunning st)
    else if String.eqb (ev_type evt) "result" then
      (add now "success" (text_of (p_value p)) (lines st), isJsRunning st)
    else if String.eqb (ev_type evt) "error" then
      (add now "error" (Of (Some (JS.or_else (p_message p) "Runtime error")))
           (lines st),
       stopped)
    else if String.eqb (ev_type evt) "timeout" then
      (add now "warning" (Of (p_message p)) (lines st), stopped)
    else if String.eqb (ev_type evt) "done" then
      (add now "success" ProgramFinished (lines st), stopped)
    else (lines st, isJsRunning st) in
  mkState ls (last_lines ls) running (stopRef st).

(** [stopRef.current = stop], once [runCode] has returned *)
Definition returned (st : State) : State :=
  mkState (lines st) (output st) (isJsRunning st) true.

(** [clearTerminal()] *)
Definition clearTerminal (st : State) : State :=
  mkState (lines st) [] (isJsRunning st) (stopRef st).

(** [prev[prev.length-1]?.id || 0] *)
Definition last_id (prev : list Line) : Z :=
  match rev prev with
  | l :: _ => id l
  | [] => 0
  end.

(** [stopJs()] at the time [now]; what [stop] does to the run is an
    input of the run. *)
Definition stopJs (now : string) (st : State) : State :=
  if stopRef st then
    mkState (lines st)
            (output st
             ++ [mkLine (last_id (output st) + 1) "warning" StoppedByUser now])
            false (stopRef st)
  else st.

End TerminalOutput.


(** * Specification vocabulary *)

(** A computation that cannot throw. *)
Definition total {W A} (m : M W A) : Prop :=
  forall w, exists a, fst (m w) = Returned a.

(** A consumer callback that always returns. *)
Definition well_behaved : Virtualizer.Callback := fun _ _ => false.

(** The listeners of a list called in turn on [msg], each on the store the
    previous one left, whether it returned or threw. *)
Definition invoke_all {W} (msg : WorkerMsg)
           (ls : list (nat * PythonExecutor.Listener W)) (w : W) : W :=
  fold_left
    (fun w kl =>
       match snd kl with
       | PythonExecutor.Callback cb => snd (cb msg w)
       | PythonExecutor.ReadyWaiter _ _ => w
       end)
    ls w.

(** The isolation contexts (iframes, workers) a run has created. *)
Definition contexts_created (run : Virtualizer.Run) : nat :=
  match run with
  | Virtualizer.JavaScript _ => 1
  | Virtualizer.Python p =>
    (if PythonExecutor.worker (Virtualizer.py p) then 1 else 0)
    + PythonExecutor.terminated (Virtualizer.py p)
  | Virtualizer.Unsupported => 0
  end.

(** The delay of the timer a run has pending. *)
Definition pending_timer (run : Virtualizer.Run) : option Z :=
  match run with
  | Virtualizer.JavaScript js => SandboxRunner.timer js
  | Virtualizer.Python p => Virtualizer.timer p
  | Virtualizer.Unsupported => None
  end.

Definition event (r : Virtualizer.Resolved) (type : string) (p : Payload)
  : Event :=
  mkEvent type (Virtualizer.runId r) (Some (Virtualizer.language r)) p.

(** The store once [e] has been handed to the consumer. *)
Definition push (e : Event) (w : Virtualizer.World) : Virtualizer.World :=
  Virtualizer.mkWorld (Virtualizer.delivered w ++ [e])
                      (Virtualizer.totalLogBytes w)
                      (Virtualizer.truncatedNotified w).

Definition truncation_warning (r : Virtualizer.Resolved) : Event :=
  event r "log"
        (mkPayload (Some "[output truncated]") (Some "warn") None None None).

(** The store after [budgetedEmit(type, text, level)]. *)
Definition budgeted (r : Virtualizer.Resolved) (type : string)
           (text : option string) (level : string) (w : Virtualizer.World)
  : Virtualizer.World :=
  let s := JS.or_else text "" in
  let bytes := JS.utf8_length s in
  if Virtualizer.totalLogBytes w + bytes <=? Virtualizer.maxLogBytes r then
    Virtualizer.mkWorld
      (Virtualizer.delivered w
       ++ [event r type (mkPayload (Some s) (Some level) None None None)])
      (Virtualizer.totalLogBytes w + bytes)
      (Virtualizer.truncatedNotified w)
  else if negb (Virtualizer.truncatedNotified w) then
    Virtualizer.mkWorld (Virtualizer.delivered w ++ [truncation_warning r])
                        (Virtualizer.totalLogBytes w) true
  else w.

Definition on (c : bool) (f : Virtualizer.World -> Virtualizer.World)
           (w : Virtualizer.World) : Virtualizer.World :=
  if c then f w else w.

(** The store after the adapter of the JavaScript runner has seen [evt]. *)
Definition js_adapter_world (r : Virtualizer.Resolved) (evt : Event)
           (w : Virtualizer.World) : Virtualizer.World :=
  let w := on (String.eqb (ev_type evt) "init")
              (push (event r "init" no_payload)) w in
  let w := on (String.eqb (ev_type evt) "start")
              (push (event r "start" no_payload)) w in
  let w :=
    on (String.eqb (ev_type evt) "log")
       (fun w =>
          let level := JS.or_else (p_level (ev_payload evt)) "log" in
          push (event r "log" (mkPayload (p_text (ev_payload evt)) (Some level)
                                         None None None))
               (budgeted r "stdout" (p_text (ev_payload evt)) level w)) w in
  let w :=
    on (String.eqb (ev_type evt) "error")
       (push (event r "error"
                    (mkPayload None None (p_message (ev_payload evt))
                               (p_stack (ev_payload evt)) None))) w in
  let w := on (String.eqb (ev_type evt) "done")
              (push (event r "done" no_payload)) w in
  on (String.eqb (ev_type evt) "timeout")
     (push (event r "timeout"
                  (mkPayload None None (p_message (ev_payload evt)) None None)))
     w.

(** The store after the adapter of the Python executor has seen [msg]. *)
Definition py_adapter_world (r : Virtualizer.Resolved) (msg : WorkerMsg)
           (w : Virtualizer.World) : Virtualizer.World :=
  if JS.strict_eq (wm_type msg) "ready" then w
  else
    let w := on (JS.strict_eq (wm_type msg) "start")
                (push (event r "start" no_payload)) w in
    let w := on (JS.strict_eq (wm_type msg) "stdout")
                (budgeted r "stdout" (wm_text msg) "info") w in
    let w := on (JS.strict_eq (wm_type msg) "stderr")
                (budgeted r "stderr" (wm_text msg) "warn") w in
    let w := on (JS.strict_eq (wm_type msg) "result")
                (push (event r "result"
                             (mkPayload None None None None (wm_value msg)))) w in
    on (JS.strict_eq (wm_type msg) "error")
       (push (event r "error"
                    (mkPayload None None (wm_message msg) None None))) w.

(** A callback that only records what it is called with. *)
Definition recorder : Event -> M (list Event) unit :=
  fun e w => (Returned tt, w ++ [e]).

(** What one step of the JavaScript runner hands to its callback, and the
    state it leaves. *)
Definition js_events (js : SandboxRunner.State) (i : Input) : list Event :=
  snd (SandboxRunner.step recorder js i []).

Definition js_next (js : SandboxRunner.State) (i : Input)
  : SandboxRunner.State :=
  match fst (SandboxRunner.step recorder js i []) with
  | Returned js' => js'
  | Thrown => js
  end.

(** The store after a callback has been called on each of [es], its
    exceptions swallowed. *)
Definition deliver {W} (cb : Event -> M W unit) (es : list Event) (w : W) : W :=
  fold_left (fun w e => snd (cb e w)) es w.

(** Neither the window listener nor the watchdog of the runner is left. *)
Definition quiet (js : SandboxRunner.State) : Prop :=
  SandboxRunner.listening js = false /\ SandboxRunner.timer js = None.

(** The three phases of a Python run: the [run] promise is pending; the
    program has been submitted to the worker; the executor is disposed. *)
Inductive Phase : Type := Waiting | Submitted | Disposed.

Definition in_phase (onEvent : Virtualizer.Callback) (r : Virtualizer.Resolved)
           (p : Virtualizer.PythonRun) (ph : Phase) : Prop :=
  let adapter :=
    (Virtualizer.off p,
     PythonExecutor.Callback (Virtualizer.py_adapter onEvent r)) in
  match ph with
  | Waiting =>
    (exists key code rnd,
        PythonExecutor.listeners (Virtualizer.py p)
        = [adapter; (key, PythonExecutor.ReadyWaiter code rnd)]
        /\ key <> Virtualizer.off p)
    /\ Virtualizer.finished p = false
    /\ Virtualizer.timer p = Some (Virtualizer.timeoutMs r)
    /\ PythonExecutor.worker (Virtualizer.py p) = true
  | Submitted =>
    PythonExecutor.listeners (Virtualizer.py p) = [adapter]
    /\ Virtualizer.finished p = true
    /\ Virtualizer.timer p = None
    /\ PythonExecutor.worker (Virtualizer.py p) = true
  | Disposed =>
    PythonExecutor.listeners (Virtualizer.py p) = []
    /\ Virtualizer.timer p = None
    /\ PythonExecutor.worker (Virtualizer.py p) = false
  end.

(** Does the host wrapper let the message through its token check? *)
Definition host_accepts (token : string) (msg : WorkerMsg) : bool :=
  negb (JS.truthy (wm_token msg) && negb (JS.strict_eq (wm_token msg) token)).

Definition data_of (data : option WorkerMsg) : WorkerMsg :=
  match data with Some d => d | None => PythonExecutor.empty_msg end.

(** What one turn of the event loop does to a Python run: the phase
    before, the input, the store before, the phase and the store after. *)
Inductive py_turn (r : Virtualizer.Resolved) (token : string)
  : Phase -> Input -> Virtualizer.World -> Phase -> Virtualizer.World -> Prop :=
| turn_message ph data w :
    ph <> Disposed ->
    host_accepts token (data_of data) = true ->
    (ph = Waiting -> JS.strict_eq (wm_type (data_of data)) "ready" = false) ->
    py_turn r token ph (WorkerMessage data) w
            ph (py_adapter_world r (data_of data) w)
| turn_ready data w :
    host_accepts token (data_of data) = true ->
    JS.strict_eq (wm_type (data_of data)) "ready" = true ->
    py_turn r token Waiting (WorkerMessage data) w
            Submitted (push (event r "done" no_payload) w)
| turn_timeout w :
    py_turn r token Waiting TimerFires w
            Disposed
            (push (event r "timeout"
                         (mkPayload None None
                            (Some (SandboxRunner.timeout_message
                                     (Virtualizer.timeoutMs r)))
                            None None)) w)
| turn_stop ph w :
    py_turn r token ph Stop w Disposed w
| turn_ignored ph i w :
    i <> Stop ->
    (ph = Waiting -> i <> TimerFires) ->
    (ph <> Disposed ->
     forall data, i = WorkerMessage data ->
                  host_accepts token (data_of data) = false) ->
    py_turn r token ph i w ph w.

(** A JavaScript run as a fold: the state of the runner and the store
    after the inputs [ins]. *)
Fixpoint js_trace (r : Virtualizer.Resolved) (js : SandboxRunner.State)
         (ins : list Input) (w : Virtualizer.World)
  : SandboxRunner.State * Virtualizer.World :=
  match ins with
  | [] => (js, w)
  | i :: ins =>
    js_trace r (js_next js i) ins
             (fold_left (fun w e => js_adapter_world r e w) (js_events js i) w)
  end.

(** A Python run as a sequence of turns. *)
Inductive py_turns (r : Virtualizer.Resolved) (token : string)
  : Phase -> list Input -> Virtualizer.World
    -> Phase -> Virtualizer.World -> Prop :=
| turns_nil ph w : py_turns r token ph [] w ph w
| turns_cons ph i w ph1 w1 ins ph2 w2 :
    py_turn r token ph i w ph1 w1 ->
    py_turns r token ph1 ins w1 ph2 w2 ->
    py_turns r token ph (i :: ins) w ph2 w2.

(** The state [runJavaScript] returns when called by [runCode]. *)
Definition js_start (r : Virtualizer.Resolved) (en : Virtualizer.Entropy)
  : SandboxRunner.State :=
  SandboxRunner.mkState
    ("js_" ++ Virtualizer.rnd_inner en)%string
    (Virtualizer.rnd_token en ++ "." ++ Virtualizer.rnd_now en)%string
    (Virtualizer.code r) (Virtualizer.timeoutMs r) (Virtualizer.maxLogBytes r)
    false 0 false true (Some (Virtualizer.timeoutMs r)) true [].

(** The token of the executor [runCode] creates for a Python run. *)
Definition py_token (en : Virtualizer.Entropy) : string :=
  (Virtualizer.rnd_inner en ++ "." ++ Virtualizer.rnd_now en)%string.

Definition unsupported_error (r : Virtualizer.Resolved) : Event :=
  event r "error"
        (mkPayload None None
                   (Some ("Unsupported language: " ++ Virtualizer.language r)%string)
                   None None).

(** An option the caller left out. *)
Definition unspecified {A} (field : Virtualizer.Options -> option A)
           (options : option Virtualizer.Options) : Prop :=
  match options with
  | Some o => field o = None
  | None => True
  end.

(** The bytes of text carried by the [stdout] and [stderr] events. *)
Definition is_std (e : Event) : bool :=
  String.eqb (ev_type e) "stdout" || String.eqb (ev_type e) "stderr".

Definition text_bytes (e : Event) : Z :=
  match p_text (ev_payload e) with
  | Some s => JS.utf8_length s
  | None => 0
  end.

Fixpoint out_bytes (es : list Event) : Z :=
  match es with
  | [] => 0
  | e :: es => (if is_std e then text_bytes e else 0) + out_bytes es
  end.

(** The budget counter accounts for the bytes forwarded, and is within the
    budget. *)
Definition budget_ok (r : Virtualizer.Resolved) (w : Virtualizer.World) : Prop :=
  out_bytes (Virtualizer.delivered w) = Virtualizer.totalLogBytes w
  /\ Virtualizer.totalLogBytes w <= Virtualizer.maxLogBytes r.

(** [w'] is [w] with more events delivered, all of them satisfying [P]. *)
Definition grows (P : Event -> Prop) (w w' : Virtualizer.World) : Prop :=
  exists es,
    Virtualizer.delivered w' = Virtualizer.delivered w ++ es /\ Forall P es.

(** No event of the list is terminal. *)
Definition noterm (es : list Event) : Prop :=
  Forall (fun e => terminal e = false) es.

(** A terminal event, if there is one, is the last event. *)
Definition terminal_closes (es : list Event) : Prop :=
  forall pre e post, es = pre ++ e :: post -> terminal e = true -> post = [].

(** An input that carries a [start] message of an isolation context. *)
Definition is_start_input (i : Input) : bool :=
  match i with
  | WindowMessage (Some data) => JS.strict_eq (fm_type data) "start"
  | WorkerMessage data => JS.strict_eq (wm_type (data_of data)) "start"
  | _ => false
  end.


(** The invariant of a JavaScript run behind "at most one terminal event,
    and nothing after it". *)
Definition js_term_inv (js : SandboxRunner.State) (w : Virtualizer.World)
  : Prop :=
  noterm (Virtualizer.delivered w)
  \/ (quiet js
      /\ exists pre e,
          Virtualizer.delivered w = pre ++ [e]
          /\ noterm pre /\ terminal e = true).







(** The messages of type [t] among the effects of the worker. *)
Definition posts_of_type (t : string) (effs : list PyWorker.Effect) : nat :=
  List.length
    (filter (fun eff =>
               match eff with
               | PyWorker.Post m => JS.strict_eq (wm_type m) t
               | _ => false
               end) effs).

(** The runner was given the timeout and the budget [runCode] resolved,
    and its watchdog, while pending, has that delay. *)
Definition js_config_inv (r : Virtualizer.Resolved) (js : SandboxRunner.State)
  : Prop :=
  SandboxRunner.timeoutMs js = Virtualizer.timeoutMs r
  /\ SandboxRunner.maxLogBytes js = Virtualizer.maxLogBytes r
  /\ (SandboxRunner.timer js = None
      \/ SandboxRunner.timer js = Some (Virtualizer.timeoutMs r)).

Definition sample_entropy : Virtualizer.Entropy :=
  Virtualizer.mkEntropy "k3v9x1" "q8w2e4" "z7m5n3" "1730000000000" "h6j4k2".

Definition options_for (language code : string) : option Virtualizer.Options :=
  Some (Virtualizer.mkOptions (Some language) (Some code) None None None).


(** In a Python run the only [log] event is the truncation warning of the
    budget check, and the budget check issues it once. *)
Definition py_log_inv (w : Virtualizer.World) : Prop :=
  count_type "log" (Virtualizer.delivered w)
  = if Virtualizer.truncatedNotified w then 1%nat else 0%nat.

(** Output events ([stdout], [stderr], [log]) and the others, which make
    the life cycle of a run. *)
Definition is_output (e : Event) : bool :=
  String.eqb (ev_type e) "stdout" || String.eqb (ev_type e) "stderr"
  || String.eqb (ev_type e) "log".

Definition lifecycle (es : list Event) : list Event :=
  filter (fun e => negb (is_output e)) es.

(** The options with [maxLogBytes] replaced. *)
Definition with_budget (b : option Z) (options : option Virtualizer.Options)
  : option Virtualizer.Options :=
  match options with
  | Some o =>
    Some (Virtualizer.mkOptions (Virtualizer.o_language o) (Virtualizer.o_code o)
                                (Virtualizer.o_timeoutMs o) b
                                (Virtualizer.o_indexURL o))
  | None => Some (Virtualizer.mkOptions None None None b None)
  end.

(** Two resolved calls that differ at most in the budget. *)
Definition same_call (r r' : Virtualizer.Resolved) : Prop :=
  Virtualizer.language r' = Virtualizer.language r
  /\ Virtualizer.runId r' = Virtualizer.runId r
  /\ Virtualizer.timeoutMs r' = Virtualizer.timeoutMs r
  /\ Virtualizer.code r' = Virtualizer.code r.

(** Two states of the JavaScript runner that differ at most in the budget
    and its counters. *)
Definition same_control (js js' : SandboxRunner.State) : Prop :=
  SandboxRunner.runId js' = SandboxRunner.runId js
  /\ SandboxRunner.token js' = SandboxRunner.token js
  /\ SandboxRunner.code js' = SandboxRunner.code js
  /\ SandboxRunner.timeoutMs js' = SandboxRunner.timeoutMs js
  /\ SandboxRunner.finished js' = SandboxRunner.finished js
  /\ SandboxRunner.listening js' = SandboxRunner.listening js
  /\ SandboxRunner.timer js' = SandboxRunner.timer js
  /\ SandboxRunner.iframe js' = SandboxRunner.iframe js
  /\ SandboxRunner.outbox js' = SandboxRunner.outbox js.

(** The life-cycle events the adapter of the JavaScript runner forwards
    for an event of the runner. *)
Definition js_forward (r : Virtualizer.Resolved) (e : Event) : list Event :=
  lifecycle
    (Virtualizer.delivered (js_adapter_world r e Virtualizer.initial)).

(** The life-cycle events the adapter of the Python executor forwards for
    a message of the worker. *)
Definition py_forward (r : Virtualizer.Resolved) (msg : WorkerMsg)
  : list Event :=
  lifecycle
    (Virtualizer.delivered (py_adapter_world r msg Virtualizer.initial)).

(** Nothing is forwarded once the truncation warning has been given: what
    the specification asks of the budget. *)
Definition silent_after_truncation (r : Virtualizer.Resolved)
           (es : list Event) : Prop :=
  forall pre post,
    es = pre ++ truncation_warning r :: post ->
    Forall (fun e => is_output e = false) post.

(** The messages among the effects of the worker. *)
Definition posted (effs : list PyWorker.Effect) : list WorkerMsg :=
  flat_map (fun eff =>
              match eff with
              | PyWorker.Post m => [m]
              | _ => []
              end) effs.

(** What a worker posts while it handles the messages of the host in
    order. *)
Fixpoint worker_session (rt : PyWorker.Runtime) (st : PyWorker.State)
         (msgs : list HostMsg) : list WorkerMsg :=
  match msgs with
  | [] => []
  | m :: msgs =>
    let (st', effs) := PyWorker.onmessage rt st (Some m) in
    posted effs ++ worker_session rt st' msgs
  end.

Definition deliveries (msgs : list WorkerMsg) : list Input :=
  map (fun m => WorkerMessage (Some m)) msgs.

(** A Pyodide that loads, and on which every program behaves as [b]. *)
Definition pyodide (b : PyWorker.Behaviour) : PyWorker.Runtime :=
  PyWorker.mkRuntime (fun _ => None) None (fun _ => b).

(** What the executor of the sample run posts to its worker. *)
Definition sample_host_msgs (code : string) : list HostMsg :=
  [mkHostMsg (Some "init") (Some (py_token sample_entropy)) None None None;
   mkHostMsg (Some "run") (Some (py_token sample_entropy)) None
             (Some "py_h6j4k2") (Some code)].

(** A worker's side of the sample run of [code], as inputs of the host. *)
Definition sample_session (b : PyWorker.Behaviour) (code : string)
  : list Input :=
  deliveries (worker_session (pyodide b) PyWorker.initial
                             (sample_host_msgs code)).

Definition infinite_loop : string := "while True: pass".

Definition three_writes : string :=
  "import sys; w = sys.stdout.write; w('abcd'); w('xyz'); w('z')".

Definition three_writes_behaviour : PyWorker.Behaviour :=
  PyWorker.mkBehaviour
    [(PyWorker.Stdout, "abcd"); (PyWorker.Stdout, "xyz"); (PyWorker.Stdout, "z")]
    (PyWorker.Value PyWorker.VNullish).

Definition small_budget (code : string) : option Virtualizer.Options :=
  Some (Virtualizer.mkOptions (Some "python") (Some code) None (Some 5) None).

Definition infinite_loop_behaviour : PyWorker.Behaviour :=
  PyWorker.mkBehaviour [] PyWorker.Diverges.

(** The host wrapper drops [msg]: no listener runs (the store is as it
    was), whatever the listeners are. *)
Definition host_drops (token : string) (msg : WorkerMsg) : Prop :=
  forall (W : Type) (ex : PythonExecutor.Executor W) (w : W),
    PythonExecutor.token ex = token ->
    snd (PythonExecutor.onmessage ex (Some msg) w) = w.

(** A listener that counts its calls. *)
Definition counting : WorkerMsg -> M nat unit :=
  fun _ n => (Returned tt, S n).

Definition tokenless_stdout : WorkerMsg :=
  mkWorkerMsg (Some "stdout") None None (Some "hello") None None.

Definition foreign_stdout : WorkerMsg :=
  mkWorkerMsg (Some "stdout") (Some "a1b2c3.1729999999999") None
              (Some "hello") None None.

(** The position of the first effect satisfying [p]. *)
Fixpoint position (p : PyWorker.Effect -> bool) (effs : list PyWorker.Effect)
  : option nat :=
  match effs with
  | [] => None
  | e :: effs =>
    if p e then Some 0%nat
    else match position p effs with
         | Some n => Some (S n)
         | None => None
         end
  end.

Definition is_install (e : PyWorker.Effect) : bool :=
  match e with
  | PyWorker.InstallRedirect => true
  | _ => false
  end.

Definition is_post (t : string) (e : PyWorker.Effect) : bool :=
  match e with
  | PyWorker.Post m => JS.strict_eq (wm_type m) t
  | _ => false
  end.

(** The redirection is installed before [start] is posted: the order the
    specification gives. *)
Definition redirect_before_start (effs : list PyWorker.Effect) : Prop :=
  exists i j,
    position is_install effs = Some i
    /\ position (is_post "start") effs = Some j
    /\ (i < j)%nat.

(** A worker whose interpreter is loaded, in the session of the sample
    run. *)
Definition sample_worker : PyWorker.State :=
  PyWorker.mkState true "https://cdn.jsdelivr.net/pyodide/v0.24.1/full/"
                   (Some (py_token sample_entropy)).

Definition sample_run_msg (code : string) : HostMsg :=
  mkHostMsg (Some "run") (Some (py_token sample_entropy)) None
            (Some "py_h6j4k2") (Some code).

(** The text of the [result] message for a value. *)
Definition value_text (v : PyWorker.PyValue) : string :=
  match v with
  | PyWorker.VNullish => ""
  | PyWorker.VOther s => s
  end.

(** Newest first. *)
Definition newer_or_equal (a b : Server.Snippet) : Prop :=
  Server.or_zero (Server.createdAt b) <= Server.or_zero (Server.createdAt a).

Definition sample_snippet : Server.Snippet :=
  Server.mkSnippet "V1StGXR8_Z" "print(1)" (Server.JStr "python")
                   (Server.JObj "{}") (Some 1730000000000).

Definition sample_store : Server.Store := [("V1StGXR8_Z", sample_snippet)].

(** The store after one step of a JavaScript run. *)
Definition js_after (r : Virtualizer.Resolved) (js : SandboxRunner.State)
           (i : Input) (w : Virtualizer.World) : Virtualizer.World :=
  fold_left (fun w e => js_adapter_world r e w) (js_events js i) w.

(** The token of the JavaScript runner [runCode] starts. *)
Definition js_token (en : Virtualizer.Entropy) : string :=
  (Virtualizer.rnd_token en ++ "." ++ Virtualizer.rnd_now en)%string.

(** The iframe's side of the sample run of a program that would behave as
    [b]: the load event, then what the iframe posts. *)
Definition sample_frames (b : Harness.Behaviour) : list Input :=
  IframeLoad
  :: map (fun m => WindowMessage (Some m))
         (Harness.on_execute (js_token sample_entropy) b).

(** [console.log(1+1)] *)
Definition console_log_two : Harness.Behaviour :=
  Harness.mkBehaviour [("log", [Harness.AJson (Some "2")])] Harness.Returns.

(** [print('x')] followed by the expression ['y'] *)
Definition print_x_then_y : PyWorker.Behaviour :=
  PyWorker.mkBehaviour [(PyWorker.Stdout, "x"); (PyWorker.Stdout, (String (ascii_of_nat 10) ""))]
                       (PyWorker.Value (PyWorker.VOther "y")).

(** The type, the text and the message of an event. *)
Definition summary (e : Event) : string * option string * option string :=
  (ev_type e, p_text (ev_payload e), p_message (ev_payload e)).

(** What a run has posted to its isolation context. *)
Definition posted_to_worker (run : result Virtualizer.Run) : list HostMsg :=
  match run with
  | Returned (Virtualizer.Python p) => PythonExecutor.outbox (Virtualizer.py p)
  | _ => []
  end.

Definition posted_to_iframe (run : result Virtualizer.Run) : list ExecuteMsg :=
  match run with
  | Returned (Virtualizer.JavaScript js) => SandboxRunner.outbox js
  | _ => []
  end.

(** ** A consumer that stops the run from its callback *)



(** A run that [stop] has been called on. *)
Definition stopped (onEvent : Virtualizer.Callback)
           (r : Virtualizer.Resolved) (run : Virtualizer.Run) : Prop :=
  match run with
  | Virtualizer.JavaScript js => quiet js
  | Virtualizer.Python p => in_phase onEvent r p Disposed
  | Virtualizer.Unsupported => True
  end.




(** A consumer that calls [stop()] when it is handed a [stdout] event. *)
Definition stop_at_stdout : Virtualizer.Consumer :=
  Virtualizer.mkConsumer well_behaved (fun _ e => String.eqb (ev_type e) "stdout").

(** A message of a [console.log] call that carries the token of the
    sample run. *)
Definition log_frame (text : string) : Input :=
  WindowMessage
    (Some (mkFrameMsg true (Some (js_token sample_entropy)) (Some "log")
                      (Some "log") (Some [text]) None None)).


(** ** Posting a snippet *)

(** The fields of a POST body after the defaults of the handler's
    destructuring. *)
Definition body_code (body : option Server.Body) : Server.Json :=
  match body with
  | Some b => match Server.b_code b with Some c => c | None => Server.JStr "" end
  | None => Server.JStr ""
  end.

Definition body_language (body : option Server.Body) : Server.Json :=
  match body with
  | Some b =>
    match Server.b_language b with Some l => l | None => Server.JStr "python" end
  | None => Server.JStr "python"
  end.

Definition body_meta (body : option Server.Body) : Server.Json :=
  match body with
  | Some b => match Server.b_meta b with Some m => m | None => Server.JObj "{}" end
  | None => Server.JObj "{}"
  end.

(** The store after a POST. *)
Definition posted_store (all : Server.Store) (body : option Server.Body)
           (new_id : string) (now : Z) : Server.Store :=
  fst (Server.post_snippet all body new_id now).

(** ** Sessions of a worker *)

(** The state of a worker after the messages of the host, each handled
    to its end before the next is taken up, and everything it did
    meanwhile.  The handler is an [async] function: a message that arrives
    while an earlier one awaits the interpreter or a program is handled
    in between, and such a session is not among these. *)
Fixpoint worker_trace (rt : PyWorker.Runtime) (st : PyWorker.State)
         (msgs : list (option HostMsg)) : PyWorker.State * list PyWorker.Effect :=
  match msgs with
  | [] => (st, [])
  | m :: msgs =>
    let (st1, effs) := PyWorker.onmessage rt st m in
    let (st2, effs') := worker_trace rt st1 msgs in
    (st2, effs ++ effs')
  end.

(** An attempt to load the interpreter that succeeds. *)
Definition loads (rt : PyWorker.Runtime) (eff : PyWorker.Effect) : bool :=
  match eff with
  | PyWorker.LoadRuntime url =>
    match PyWorker.loadPyodide rt url with
    | None => true
    | Some _ => false
    end
  | _ => false
  end.

(** The executors a program can get hold of: a new one, and what the
    methods and the message handler make of it. *)
Inductive reachable {W : Type} : PythonExecutor.Executor W -> Prop :=
| reach_new options rnd now :
    reachable (PythonExecutor.new options rnd now)
| reach_onMessage ex cb :
    reachable ex -> reachable (fst (PythonExecutor.onMessage cb ex))
| reach_off ex key :
    reachable ex -> reachable (PythonExecutor.delete key ex)
| reach_run ex code rnd :
    reachable ex -> reachable (fst (PythonExecutor.run code rnd ex))
| reach_dispose ex :
    reachable ex -> reachable (PythonExecutor.dispose ex)
| reach_message ex data w x w' :
    reachable ex ->
    PythonExecutor.onmessage ex data w = (Returned x, w') ->
    reachable (fst x).

Definition is_load (eff : PyWorker.Effect) : bool :=
  match eff with
  | PyWorker.LoadRuntime _ => true
  | _ => false
  end.

Definition slashless_init : option HostMsg :=
  Some (mkHostMsg (Some "init") (Some "q8w2e4.1730000000000")
                  (Some "/pyodide") None None).

Definition sample_executor : PythonExecutor.Executor unit :=
  fst (PythonExecutor.run "print('x')" "h6j4k2"
         (PythonExecutor.new (PythonExecutor.mkOptions None)
                             "q8w2e4" "1730000000000")).

(** ** What a Python run posts and delivers *)

(** What the executor of a Python run posts to its worker: [init] when
    the worker is created, [run] once the worker is ready. *)
Definition py_init_msg (r : Virtualizer.Resolved) (en : Virtualizer.Entropy)
  : HostMsg :=
  mkHostMsg (Some "init") (Some (py_token en))
            (if JS.truthy (Virtualizer.indexURL r) then Virtualizer.indexURL r
             else None)
            None None.

Definition py_run_msg (r : Virtualizer.Resolved) (en : Virtualizer.Entropy)
  : HostMsg :=
  mkHostMsg (Some "run") (Some (py_token en)) None
            (Some ("py_" ++ Virtualizer.rnd_pyrun en)%string)
            (Some (Virtualizer.code r)).

(** The level [runCode] gives the output of a Python program. *)
Definition output_level (s : PyWorker.Stream) : string :=
  match s with
  | PyWorker.Stdout => "info"
  | PyWorker.Stderr => "warn"
  end.

(** The event of a write on [sys.stdout] or [sys.stderr]. *)
Definition output_event (r : Virtualizer.Resolved)
           (wr : PyWorker.Stream * string) : Event :=
  event r (PyWorker.stream_name (fst wr))
        (mkPayload (Some (snd wr)) (Some (output_level (fst wr)))
                   None None None).

Definition nonempty_writes (ws : list (PyWorker.Stream * string))
  : list (PyWorker.Stream * string) :=
  filter (fun wr => negb (String.eqb (snd wr) "")) ws.

(** The bytes of UTF-8 a program writes. *)
Fixpoint write_bytes (ws : list (PyWorker.Stream * string)) : Z :=
  match ws with
  | [] => 0
  | wr :: ws => JS.utf8_length (snd wr) + write_bytes ws
  end.

(** The event that reports how a Python program ended. *)
Definition completion_events (r : Virtualizer.Resolved)
           (c : PyWorker.Completion) : list Event :=
  match c with
  | PyWorker.Value v =>
    [event r "result" (mkPayload None None None None (Some (value_text v)))]
  | PyWorker.Raises err =>
    [event r "error"
           (mkPayload None None (Some (PyWorker.error_text err)) None None)]
  | PyWorker.Diverges => []
  end.

Definition unavailable : PyWorker.Runtime :=
  PyWorker.mkRuntime
    (fun _ => Some (PyWorker.mkException (Some "Failed to fetch")
                                         "TypeError: Failed to fetch"))
    None (fun _ => infinite_loop_behaviour).

(** ** What a JavaScript run posts and delivers *)

(** The iframe's side of a JavaScript run of a program that would behave
    as [b]: the load event, then what the iframe posts. *)
Definition frames (en : Virtualizer.Entropy) (b : Harness.Behaviour)
  : list Input :=
  IframeLoad
  :: map (fun m => WindowMessage (Some m))
         (Harness.on_execute (js_token en) b).

(** The event of the watchdog of a run. *)
Definition timeout_event (r : Virtualizer.Resolved) : Event :=
  event r "timeout"
        (mkPayload None None
                   (Some (SandboxRunner.timeout_message (Virtualizer.timeoutMs r)))
                   None None).

(** ** The runner on its own *)

(** A window message the runner whose token is [tok] must not listen to:
    no data, no [__runner] mark, or another token (or none). *)
Definition foreign_frame (tok : string) (data : option FrameMsg) : Prop :=
  match data with
  | None => True
  | Some m => fm_runner m = false \/ fm_token m <> Some tok
  end.

(** The turns of the host event loop after [runJavaScript] has returned. *)
Fixpoint runner_steps {W} (cb : Event -> M W unit) (st : SandboxRunner.State)
         (ins : list Input) : M W SandboxRunner.State :=
  match ins with
  | [] => ret st
  | i :: ins => st <- SandboxRunner.step cb st i ;; runner_steps cb st ins
  end.

(** What [runJavaScript], called on its own, hands to its callback. *)
Definition runner_log (code : string) (options : SandboxRunner.Options)
           (rnd1 rnd2 now : string) (ins : list Input) : list Event :=
  snd ((st <- SandboxRunner.runJavaScript recorder code options rnd1 rnd2 now ;;
        runner_steps recorder st ins) []).

(** The bytes of text carried by the [log] events. *)
Fixpoint log_bytes (es : list Event) : Z :=
  match es with
  | [] => 0
  | e :: es =>
    (if String.eqb (ev_type e) "log" then text_bytes e else 0) + log_bytes es
  end.

Definition tokenless_frame : option FrameMsg :=
  Some (mkFrameMsg true None (Some "log") (Some "log") (Some ["hello"])
                   None None).

(** The log text handed over so far is what the counter of the runner
    says, plus the truncation notice once it is given. *)
Definition runner_budget_inv (st : SandboxRunner.State) (es : list Event)
  : Prop :=
  log_bytes es
  = SandboxRunner.totalLogBytes st
    + (if SandboxRunner.truncatedNotified st then 18 else 0)
  /\ 0 <= SandboxRunner.totalLogBytes st <= SandboxRunner.maxLogBytes st.

Definition flood : list Input :=
  [IframeLoad;
   WindowMessage
     (Some (Harness.console (Some "z7m5n3.1730000000000") ("log", [Harness.AString "abcd"])));
   WindowMessage
     (Some (Harness.console (Some "z7m5n3.1730000000000") ("log", [Harness.AString "efgh"])))].

(** ** The runs an executor holds back *)

(** The calls of [run] that wait for the worker to be ready: the code and
    the random part of the run identifier of each, oldest first. *)
Fixpoint waiting_runs {W} (ls : list (nat * PythonExecutor.Listener W))
  : list (string * string) :=
  match ls with
  | [] => []
  | (_, PythonExecutor.Callback _) :: ls => waiting_runs ls
  | (_, PythonExecutor.ReadyWaiter code rnd) :: ls =>
    (code, rnd) :: waiting_runs ls
  end.

(** The identities of the listeners that wait for the worker. *)
Fixpoint waiter_keys {W} (ls : list (nat * PythonExecutor.Listener W))
  : list nat :=
  match ls with
  | [] => []
  | (_, PythonExecutor.Callback _) :: ls => waiter_keys ls
  | (key, PythonExecutor.ReadyWaiter _ _) :: ls => key :: waiter_keys ls
  end.

(** The [run] message of a call of [run]. *)
Definition run_msg (token : string) (cr : string * string) : HostMsg :=
  mkHostMsg (Some "run") (Some token) None (Some ("py_" ++ snd cr)%string)
            (Some (fst cr)).

(** The value the promise of a call of [run] is fulfilled with. *)
Definition run_id (cr : string * string) : result string :=
  Returned ("py_" ++ snd cr)%string.

Definition two_queued : PythonExecutor.Executor unit :=
  fst (PythonExecutor.run "print(2)" "b7c8d9"
         (fst (PythonExecutor.run "print(1)" "a4b5c6"
                 (PythonExecutor.new (PythonExecutor.mkOptions None)
                                     "q8w2e4" "1730000000000")))).

Definition ready_msg : option WorkerMsg :=
  Some (mkWorkerMsg (Some "ready") (Some "q8w2e4.1730000000000")
                    None None None None).



(** ** Programs over toasts *)

(** What a program does with the toasts. *)
Inductive ToastOp : Type :=
| TPush (toast : Toasts.Toast) (rnd : string)
| TRemove (id : string)
| TFire (n : nat).

Definition toast_step (st : Toasts.State) (op : ToastOp) : Toasts.State :=
  match op with
  | TPush toast rnd => fst (Toasts.push toast rnd st)
  | TRemove id => Toasts.remove id st
  | TFire n => Toasts.fire n st
  end.

(** All pending timers fire, oldest first. *)
Definition drain (st : Toasts.State) : Toasts.State :=
  fold_left (fun st _ => Toasts.fire 0 st) (Toasts.timers st) st.

(** A toast that stays until it is removed by hand. *)
Definition sticky (x : Toasts.Item) : Prop :=
  match Toasts.ttl x with Some n => n <= 0 | None => False end.

(** A toast whose id was drawn by [push]. *)
Definition plain (op : ToastOp) : Prop :=
  match op with
  | TPush toast _ => Toasts.t_id toast = None
  | _ => True
  end.

(** Every toast that is shown and is not sticky has a timer that will
    remove it. *)
Definition toast_inv (st : Toasts.State) : Prop :=
  forall x, In x (Toasts.toasts st) ->
            sticky x \/ exists d, In (Toasts.id x, d) (Toasts.timers st).

Definition saved_toast : Toasts.Toast :=
  Toasts.mkToast None (Some "success")
                 (Some "Snippet saved and link copied!") None.

Definition pinned_toast : Toasts.Toast :=
  Toasts.mkToast None (Some "error") (Some "Snippet not found") (Some 0).

(** ** Tokens and the source *)

(** A string without its white space. *)
Definition strip_spaces (s : string) : string :=
  string_of_list_ascii
    (filter (fun ch => negb (Regex.space ch)) (list_ascii_of_string s)).

(** A token that is a run of word characters, and one that is a single
    character, neither of a word nor white space. *)
Definition word_run (w : string) : Prop :=
  w <> "" /\ Forall (fun ch => Regex.word ch = true) (list_ascii_of_string w).

Definition symbol (w : string) : Prop :=
  exists ch, w = String ch ""
             /\ Regex.word ch = false /\ Regex.space ch = false.

(** The strings of a list, one after the other. *)
Definition glue (ws : list string) : string :=
  fold_right String.append "" ws.

(** The position after the longest run of characters of a class. *)
Fixpoint span_end (p : ascii -> bool) (prev : option ascii) (s : list ascii)
  : Regex.Pos :=
  match s with
  | ch :: t => if p ch then span_end p (Some ch) t else Regex.mkPos prev s
  | [] => Regex.mkPos prev s
  end.

Definition lone_quote : TokenViewer.Token :=
  TokenViewer.mkToken 0 "'" 0 1 1 0 "unknown" "error" "Unrecognized token"
                      "text-red-400" "bg-red-900".

(** ** Families of nodes *)

(** A node of the first level with the nodes pushed for it. *)
Definition Family : Type := (ParserTreeGraph.Node * list ParserTreeGraph.Node)%type.

Definition family_nodes (g : Family) : list ParserTreeGraph.Node :=
  fst g :: snd g.

(** The parent is of level 1 and lists its children by id, in the order
    of the nodes; the children are leaves of level 2, in the column of the
    parent and below it. *)
Definition family_ok (g : Family) : Prop :=
  ParserTreeGraph.level (fst g) = 1 /\
  ParserTreeGraph.children (fst g) = map ParserTreeGraph.id (snd g) /\
  Forall (fun n =>
            ParserTreeGraph.level n = 2 /\
            ParserTreeGraph.children n = [] /\
            fst (ParserTreeGraph.position n)
            = fst (ParserTreeGraph.position (fst g)) /\
            snd (ParserTreeGraph.position (fst g))
            < snd (ParserTreeGraph.position n))
         (snd g).

(** The cell of the grid of four columns for the [k]-th node. *)
Definition cell (k : nat) : Z * Z :=
  (100 + (Z.of_nat k mod 4) * 200, 150 + (Z.of_nat k / 4) * 120).

Definition forest_inv (st : ParserTreeGraph.State) (fs : list Family) : Prop :=
  ParserTreeGraph.nodes st = flat_map family_nodes fs /\
  ParserTreeGraph.root_children st
  = map (fun g => ParserTreeGraph.id (fst g)) fs /\
  ParserTreeGraph.idx st = List.length fs /\
  Forall family_ok fs /\
  (forall k g, nth_error fs k = Some g ->
               ParserTreeGraph.position (fst g) = cell k).

Definition prefixes : list string := ["fn"; "var"; "ret"; "call"; "expr"].

(** The ids of the nodes of level 1 made so far: each carries the index
    of its own line, below [i]. *)
Definition keys_inv (st : ParserTreeGraph.State) (i : nat) : Prop :=
  exists keys : list (string * nat),
    ParserTreeGraph.root_children st
    = map (fun key => ParserTreeGraph.id1 (fst key) (snd key)) keys /\
    Forall (fun key => In (fst key) prefixes /\ (snd key < i)%nat) keys /\
    NoDup (map snd keys).

(** ** A run watched by the terminal *)

(** What happens to the terminal during a run. *)
Inductive TerminalOp : Type :=
| Deliver (evt : Event) (now : string)    (* the callback is called *)
| RunCodeReturns
| Clear
| StopJs (now : string).

Definition terminal_step (language : string) (st : TerminalOutput.State)
           (op : TerminalOp) : TerminalOutput.State :=
  match op with
  | Deliver evt now => TerminalOutput.onEvent language now evt st
  | RunCodeReturns => TerminalOutput.returned st
  | Clear => TerminalOutput.clearTerminal st
  | StopJs now => TerminalOutput.stopJs now st
  end.

(** The terminal after a run of the effect in which [ops] happen. *)
Definition terminal_after (language : string) (now : string)
           (ops : list TerminalOp) : TerminalOutput.State :=
  fold_left (terminal_step language) ops
            (TerminalOutput.launch now TerminalOutput.initial).

(** The deliveries of the events of a stream; the [n]-th is stamped with
    [clock n]. *)
Fixpoint deliveries_at (clock : nat -> string) (n : nat) (es : list Event)
  : list TerminalOp :=
  match es with
  | [] => []
  | e :: es => Deliver e (clock n) :: deliveries_at clock (S n) es
  end.

Definition is_delivery (op : TerminalOp) : bool :=
  match op with
  | Deliver _ _ => true
  | _ => false
  end.

(** The options [TerminalOutput] gives [runCode]. *)
Definition terminal_options (language code : string) : option Virtualizer.Options :=
  Some (Virtualizer.mkOptions (Some language) (Some code) (Some 5000) None None).

(** The callback of the terminal never throws. *)
Definition terminal_callback : Virtualizer.Callback := fun _ _ => false.

(** The ids grow along the list. *)
Definition ids_increase (ls : list TerminalOutput.Line) : Prop :=
  StronglySorted Z.lt (map TerminalOutput.id ls).

(** The ids of [lines] are 1, 2, 3 ... *)
Definition numbered (ls : list TerminalOutput.Line) : Prop :=
  map TerminalOutput.id ls = map (fun k => Z.of_nat k + 1) (seq 0 (List.length ls)).


(** * Properties *)

(** ** The monad *)
Section MonadFacts.
Context {W : Type}.

Lemma bind_returned {A B} (m : M W A) (k : A -> M W B) w a w' :
  m w = (Returned a, w') -> bind m k w = k a w'.
Proof. intros H. unfold bind. now rewrite H. Qed.

Lemma total_ret {A} (a : A) : total (W:=W) (ret a).
Proof. intros w. now exists a. Qed.

Lemma total_try_catch (m : M W unit) : total (try_catch m).
Proof. intros w. now exists tt. Qed.

Lemma total_bind {A B} (m : M W A) (k : A -> M W B) :
  total m -> (forall a, total (k a)) -> total (bind m k).
Proof.
  intros Hm Hk w. unfold bind.
  destruct (Hm w) as [a Ha]. destruct (m w) as [x w']. simpl in Ha. subst x.
  apply Hk.
Qed.

Lemma total_when (c : bool) (m : M W unit) : total m -> total (when c m).
Proof. intros H. destruct c; simpl; [exact H | apply total_ret]. Qed.

Lemma total_if {A} (c : bool) (m1 m2 : M W A) :
  total m1 -> total m2 -> total (if c then m1 else m2).
Proof. now destruct c. Qed.

End MonadFacts.

(** ** Nothing throws *)
Section JsTotal.
Context {W : Type}.
Variable onEvent : Event -> M W unit.

Lemma total_js_emit rid ty p : total (SandboxRunner.emit onEvent rid ty p).
Proof. apply total_try_catch. Qed.

Lemma total_handleMsg st data : total (SandboxRunner.handleMsg onEvent st data).
Proof.
  unfold SandboxRunner.handleMsg. destruct data as [data|]; [|apply total_ret].
  repeat first [ apply total_js_emit | apply total_ret | apply total_if
               | apply total_bind | intro ].
Qed.

Lemma total_js_step st i : total (SandboxRunner.step onEvent st i).
Proof.
  destruct i; simpl; try apply total_ret.
  - apply total_if; [apply total_handleMsg | apply total_ret].
  - destruct (SandboxRunner.timer st); [|apply total_ret].
    unfold SandboxRunner.on_timer.
    repeat first [ apply total_js_emit | apply total_ret | apply total_if
                 | apply total_bind | intro ].
Qed.

Lemma total_runJavaScript code options r1 r2 now :
  total (SandboxRunner.runJavaScript onEvent code options r1 r2 now).
Proof.
  unfold SandboxRunner.runJavaScript.
  apply total_bind; [apply total_js_emit | intro; apply total_ret].
Qed.

End JsTotal.

Section PyTotal.
Context {W : Type}.

Lemma dispatch_spec msg (ls : list (nat * PythonExecutor.Listener W)) :
  forall ex woken w,
    exists x, PythonExecutor.dispatch msg ls ex woken w
              = (Returned x, invoke_all msg ls w).
Proof.
  induction ls as [|[key l] ls IH]; intros ex woken w; simpl.
  - now eexists.
  - destruct l as [cb|code rnd].
    + unfold bind, try_catch. simpl. apply IH.
    + destruct (JS.strict_eq (wm_type msg) "ready"); apply IH.
Qed.

Lemma total_dispatch msg (ls : list (nat * PythonExecutor.Listener W)) ex woken :
  total (PythonExecutor.dispatch msg ls ex woken).
Proof.
  intros w. destruct (dispatch_spec msg ls ex woken w) as [x Hx].
  exists x. now rewrite Hx.
Qed.

Lemma total_onmessage (ex : PythonExecutor.Executor W) data :
  total (PythonExecutor.onmessage ex data).
Proof.
  unfold PythonExecutor.onmessage.
  apply total_if; [apply total_ret|].
  apply total_bind; [apply total_dispatch | intro; apply total_ret].
Qed.

End PyTotal.

Section RunCodeTotal.
Variable onEvent : Virtualizer.Callback.
Variable r : Virtualizer.Resolved.

Lemma total_emit ty p : total (Virtualizer.emit onEvent r ty p).
Proof. apply total_try_catch. Qed.

Lemma total_py_finally p : total (Virtualizer.py_finally onEvent r p).
Proof.
  unfold Virtualizer.py_finally.
  repeat first [ apply total_emit | apply total_ret | apply total_if
               | apply total_bind | intro ].
Qed.

Lemma total_step run i : total (Virtualizer.step onEvent r run i).
Proof.
  destruct run as [js|p|]; simpl.
  - apply total_bind; [apply total_js_step | intro; apply total_ret].
  - destruct i; try apply total_ret.
    + destruct (Virtualizer.timer p); [|apply total_ret].
      unfold Virtualizer.py_on_timer.
      repeat first [ apply total_emit | apply total_ret | apply total_if
                   | apply total_bind | intro ].
    + apply total_bind; [|intro; apply total_ret].
      unfold Virtualizer.py_message.
      apply total_bind; [apply total_onmessage|]. intros x.
      destruct (snd x); [apply total_ret | apply total_py_finally].
  - apply total_ret.
Qed.

Lemma total_steps ins : forall run, total (Virtualizer.steps onEvent r run ins).
Proof.
  induction ins as [|i ins IH]; intros run; simpl.
  - apply total_ret.
  - apply total_bind; [apply total_step | exact IH].
Qed.

Lemma total_runCode_body en : total (Virtualizer.runCode_body onEvent r en).
Proof.
  unfold Virtualizer.runCode_body.
  apply total_bind; [apply total_emit|]. intros _.
  apply total_if.
  - apply total_bind; [apply total_runJavaScript | intro; apply total_ret].
  - apply total_if.
    + destruct (PythonExecutor.onMessage _ _) as [ex off].
      destruct (PythonExecutor.run _ _ _) as [ex' [res|]].
      * apply total_bind; [apply total_py_finally | intro; apply total_ret].
      * apply total_ret.
    + repeat first [ apply total_emit | apply total_ret | apply total_bind
                   | intro ].
Qed.

End RunCodeTotal.

Lemma runCode_returns options onEvent en ins :
  exists run, fst (Virtualizer.runCode options onEvent en ins) = Returned run.
Proof.
  unfold Virtualizer.runCode.
  apply (total_bind (W:=Virtualizer.World)).
  - apply total_runCode_body.
  - intros run. apply total_steps.
Qed.

(** ** The callback's outcome is never looked at *)
Section CallbackIrrelevant.
Variable onEvent : Virtualizer.Callback.
Variable r : Virtualizer.Resolved.

Lemma emit_callback :
  Virtualizer.emit onEvent r = Virtualizer.emit well_behaved r.
Proof.
  extensionality ty. extensionality p. extensionality w. reflexivity.
Qed.

Lemma budgetedEmit_callback :
  Virtualizer.budgetedEmit onEvent r = Virtualizer.budgetedEmit well_behaved r.
Proof.
  unfold Virtualizer.budgetedEmit. now rewrite emit_callback.
Qed.

Lemma js_adapter_callback :
  Virtualizer.js_adapter onEvent r = Virtualizer.js_adapter well_behaved r.
Proof.
  unfold Virtualizer.js_adapter.
  now rewrite emit_callback, budgetedEmit_callback.
Qed.

Lemma py_adapter_callback :
  Virtualizer.py_adapter onEvent r = Virtualizer.py_adapter well_behaved r.
Proof.
  unfold Virtualizer.py_adapter.
  now rewrite emit_callback, budgetedEmit_callback.
Qed.

Lemma step_callback :
  Virtualizer.step onEvent r = Virtualizer.step well_behaved r.
Proof.
  unfold Virtualizer.step, Virtualizer.py_message, Virtualizer.py_on_timer,
    Virtualizer.py_finally.
  now rewrite emit_callback, js_adapter_callback.
Qed.

Lemma steps_callback ins :
  forall run,
    Virtualizer.steps onEvent r run ins = Virtualizer.steps well_behaved r run ins.
Proof.
  induction ins as [|i ins IH]; intros run; simpl; [reflexivity|].
  rewrite step_callback. apply f_equal. extensionality run'. apply IH.
Qed.

Lemma runCode_body_callback en :
  Virtualizer.runCode_body onEvent r en
  = Virtualizer.runCode_body well_behaved r en.
Proof.
  unfold Virtualizer.runCode_body, Virtualizer.py_finally.
  now rewrite emit_callback, js_adapter_callback, py_adapter_callback.
Qed.

End CallbackIrrelevant.

Lemma runCode_callback options onEvent en ins :
  Virtualizer.runCode options onEvent en ins
  = Virtualizer.runCode options well_behaved en ins.
Proof.
  unfold Virtualizer.runCode.
  rewrite runCode_body_callback.
  apply (f_equal (fun k => bind _ k Virtualizer.initial)).
  extensionality run. apply steps_callback.
Qed.

(** ** The store after an event is handed to the consumer *)
Section WorldFacts.
Variable onEvent : Virtualizer.Callback.
Variable r : Virtualizer.Resolved.

Lemma emit_eq ty p w :
  Virtualizer.emit onEvent r ty p w = (Returned tt, push (event r ty p) w).
Proof. reflexivity. Qed.

Lemma budgetedEmit_eq ty text level w :
  Virtualizer.budgetedEmit onEvent r ty text level w
  = (Returned tt, budgeted r ty text level w).
Proof.
  unfold Virtualizer.budgetedEmit, budgeted.
  destruct (_ <=? _); [reflexivity|].
  destruct (negb _); reflexivity.
Qed.

Lemma js_adapter_eq evt w :
  Virtualizer.js_adapter onEvent r evt w = (Returned tt, js_adapter_world r evt w).
Proof.
  unfold Virtualizer.js_adapter, js_adapter_world, when, bind, ret.
  repeat match goal with
         | |- context [String.eqb ?a ?b] => destruct (String.eqb a b)
         end;
    repeat first [ rewrite emit_eq | rewrite budgetedEmit_eq ]; reflexivity.
Qed.

Lemma py_adapter_eq msg w :
  Virtualizer.py_adapter onEvent r msg w = (Returned tt, py_adapter_world r msg w).
Proof.
  unfold Virtualizer.py_adapter, py_adapter_world, when, bind, ret.
  repeat match goal with
         | |- context [JS.strict_eq ?a ?b] => destruct (JS.strict_eq a b)
         end;
    repeat first [ rewrite emit_eq | rewrite budgetedEmit_eq ]; reflexivity.
Qed.

End WorldFacts.

(** ** One step of the JavaScript runner *)
Ltac js_unfold :=
  unfold js_events, js_next, SandboxRunner.step, SandboxRunner.handleMsg,
    SandboxRunner.on_timer, SandboxRunner.emit, SandboxRunner.stop,
    SandboxRunner.execute, recorder, deliver, bind, ret, try_catch in *.

Ltac js_split :=
  repeat match goal with
         | |- context [match ?x with WindowMessage _ => _ | _ => _ end] =>
           destruct x
         | |- context [match ?x with Some _ => _ | None => _ end] =>
           destruct x eqn:?
         | |- context [if ?c then _ else _] => destruct c eqn:?
         end.

Lemma js_step_spec {W} (cb : Event -> M W unit) js i w :
  SandboxRunner.step cb js i w
  = (Returned (js_next js i), deliver cb (js_events js i) w).
Proof.
  js_unfold. js_split; reflexivity.
Qed.

(** A step hands at most one event to the callback; after an [error], a
    [done] or a [timeout] the runner is quiet. *)
Lemma js_step_shape js i :
  js_events js i = []
  \/ (exists e, js_events js i = [e]
                /\ ev_runId e = SandboxRunner.runId js
                /\ (ev_type e = "log"
                    \/ (ev_type e = "start" /\ is_start_input i = true)))
  \/ (exists e, js_events js i = [e]
                /\ ev_runId e = SandboxRunner.runId js
                /\ (ev_type e = "error" \/ ev_type e = "done"
                    \/ ev_type e = "timeout")
                /\ quiet (js_next js i)).
Proof.
  js_unfold. unfold is_start_input. js_split; cbn;
    first [ now left
          | right; left; eexists; repeat split; auto; fail
          | right; right; eexists; repeat split; auto; fail ].
Qed.

(** ** One step of a JavaScript run *)
Section JsRun.
Variable onEvent : Virtualizer.Callback.
Variable r : Virtualizer.Resolved.

Lemma js_run_step js i w :
  Virtualizer.step onEvent r (Virtualizer.JavaScript js) i w
  = (Returned (Virtualizer.JavaScript (js_next js i)),
     deliver (Virtualizer.js_adapter onEvent r) (js_events js i) w).
Proof.
  simpl. unfold bind. now rewrite js_step_spec.
Qed.

End JsRun.

(** ** One step of a Python run *)
Section PyRun.
Variable onEvent : Virtualizer.Callback.
Variable r : Virtualizer.Resolved.

Lemma py_run_step p ph i w :
  in_phase onEvent r p ph ->
  exists p' ph' w',
    Virtualizer.step onEvent r (Virtualizer.Python p) i w
    = (Returned (Virtualizer.Python p'), w')
    /\ in_phase onEvent r p' ph'
    /\ PythonExecutor.token (Virtualizer.py p')
       = PythonExecutor.token (Virtualizer.py p)
    /\ Virtualizer.off p' = Virtualizer.off p
    /\ py_turn r (PythonExecutor.token (Virtualizer.py p)) ph i w ph' w'.
Proof.
  intros Hph.
  destruct i as [data| | |data|].
  - (* a window message *)
    exists p, ph, w. repeat split; auto.
    apply turn_ignored; intros; discriminate.
  - exists p, ph, w. repeat split; auto.
    apply turn_ignored; intros; discriminate.
  - (* the timer *)
    destruct ph; simpl in Hph.
    + destruct Hph as (Hl & Hf & Ht & Hw).
      simpl. rewrite Ht. unfold Virtualizer.py_on_timer. simpl. rewrite Hf. simpl.
      unfold bind. rewrite emit_eq. simpl.
      eexists _, Disposed, _. split; [reflexivity|].
      repeat split. apply turn_timeout.
    + destruct Hph as (Hl & Hf & Ht & Hw).
      simpl. rewrite Ht.
      exists p, Submitted, w. repeat split; auto.
      apply turn_ignored; intros; discriminate.
    + destruct Hph as (Hl & Ht & Hw).
      simpl. rewrite Ht.
      exists p, Disposed, w. repeat split; auto.
      apply turn_ignored; intros; discriminate.
  - (* a worker message *)
    simpl. unfold Virtualizer.py_message, PythonExecutor.onmessage.
    fold (data_of data).
    destruct (host_accepts (PythonExecutor.token (Virtualizer.py p)) (data_of data))
      eqn:Hacc; unfold host_accepts in Hacc.
    2:{ apply negb_false_iff in Hacc. unfold bind. rewrite Hacc. simpl.
        exists p, ph, w. destruct p; repeat split; auto.
        apply turn_ignored; try discriminate.
        intros _ d [= <-]. unfold host_accepts. now rewrite Hacc. }
    apply negb_true_iff in Hacc. unfold bind at 1. rewrite Hacc.
    destruct ph; simpl in Hph.
    + destruct Hph as ((key & code & rnd & Hl & Hk) & Hf & Ht & Hw).
      destruct (JS.strict_eq (wm_type (data_of data)) "ready") eqn:Hr.
      * unfold bind. simpl. rewrite Hl. simpl. unfold bind, try_catch.
        rewrite py_adapter_eq. simpl. rewrite Hr. simpl.
        unfold PythonExecutor.resume. simpl. rewrite Hw. simpl.
        unfold Virtualizer.py_finally. simpl. rewrite Hf. simpl.
        eexists _, Submitted, _. split; [reflexivity|].
        simpl. rewrite Hl. simpl. rewrite Nat.eqb_refl.
        apply Nat.eqb_neq in Hk. rewrite Nat.eqb_sym in Hk. rewrite Hk. simpl.
        repeat split; auto.
        unfold py_adapter_world. rewrite Hr.
        apply turn_ready; [|exact Hr].
        unfold host_accepts. now rewrite Hacc.
      * unfold bind. simpl. rewrite Hl. simpl. unfold bind, try_catch.
        rewrite py_adapter_eq. simpl. rewrite Hr. simpl.
        eexists _, Waiting, _. split; [reflexivity|].
        simpl. repeat split; auto.
        -- exists key, code, rnd. now split.
        -- apply turn_message; try discriminate; auto.
           unfold host_accepts. now rewrite Hacc.
    + destruct Hph as (Hl & Hf & Ht & Hw).
      unfold bind.
      destruct (JS.strict_eq (wm_type (data_of data)) "ready") eqn:Hr;
        simpl; rewrite Hl; simpl; unfold bind, try_catch;
        rewrite py_adapter_eq; simpl;
        (eexists _, Submitted, _; split; [reflexivity|]);
        simpl; repeat split; auto;
        (apply turn_message; try discriminate; auto;
         unfold host_accepts; now rewrite Hacc).
    + destruct Hph as (Hl & Ht & Hw).
      unfold bind.
      destruct (JS.strict_eq (wm_type (data_of data)) "ready") eqn:Hr;
        simpl; rewrite Hl; simpl;
        (eexists _, Disposed, _; split; [reflexivity|]);
        simpl; repeat split; auto;
        (apply turn_ignored; try discriminate; intros; congruence).
  - (* stop *)
    simpl. eexists _, Disposed, w. split; [reflexivity|].
    simpl. repeat split. apply turn_stop.
Qed.

End PyRun.

(** ** Whole runs *)
Section Runs.
Variable onEvent : Virtualizer.Callback.
Variable r : Virtualizer.Resolved.

Lemma js_steps ins : forall js w,
  Virtualizer.steps onEvent r (Virtualizer.JavaScript js) ins w
  = (Returned (Virtualizer.JavaScript (fst (js_trace r js ins w))),
     snd (js_trace r js ins w)).
Proof.
  induction ins as [|i ins IH]; intros js w; [reflexivity|].
  cbn [Virtualizer.steps js_trace].
  rewrite (bind_returned _ _ _ _ _ (js_run_step onEvent r js i w)).
  rewrite IH. unfold deliver.
  replace (fun (w0 : Virtualizer.World) (e : Event) =>
             snd (Virtualizer.js_adapter onEvent r e w0))
    with (fun w0 e => js_adapter_world r e w0).
  - reflexivity.
  - extensionality w0. extensionality e. now rewrite js_adapter_eq.
Qed.

Lemma py_steps ins : forall p ph w,
  in_phase onEvent r p ph ->
  exists p' ph' w',
    Virtualizer.steps onEvent r (Virtualizer.Python p) ins w
    = (Returned (Virtualizer.Python p'), w')
    /\ in_phase onEvent r p' ph'
    /\ py_turns r (PythonExecutor.token (Virtualizer.py p)) ph ins w ph' w'.
Proof.
  induction ins as [|i ins IH]; intros p ph w Hph.
  - exists p, ph, w. repeat split; auto. constructor.
  - destruct (py_run_step onEvent r p ph i w Hph)
      as (p1 & ph1 & w1 & Hstep & Hph1 & Htok & _ & Hturn).
    destruct (IH p1 ph1 w1 Hph1) as (p2 & ph2 & w2 & Hsteps & Hph2 & Hturns).
    exists p2, ph2, w2. split; [|split; [exact Hph2|]].
    + cbn [Virtualizer.steps].
      rewrite (bind_returned _ _ _ _ _ Hstep). exact Hsteps.
    + rewrite Htok in Hturns. econstructor; eassumption.
Qed.

Lemma unsupported_steps ins : forall w,
  Virtualizer.steps onEvent r Virtualizer.Unsupported ins w
  = (Returned Virtualizer.Unsupported, w).
Proof.
  induction ins as [|i ins IH]; intros w; [reflexivity|].
  cbn [Virtualizer.steps]. unfold bind. simpl. apply IH.
Qed.

End Runs.

(** [runCode], by language. *)
Lemma runCode_javascript options onEvent en ins :
  let r := Virtualizer.resolve options en in
  Virtualizer.is_javascript (Virtualizer.language r) = true ->
  let start :=
    push (event r "init" no_payload)
         (push (event r "init" no_payload) Virtualizer.initial) in
  Virtualizer.runCode options onEvent en ins
  = (Returned (Virtualizer.JavaScript (fst (js_trace r (js_start r en) ins start))),
     snd (js_trace r (js_start r en) ins start)).
Proof.
  intros r Hjs start. unfold Virtualizer.runCode. fold r.
  unfold Virtualizer.runCode_body. rewrite Hjs.
  unfold bind at 1. unfold bind at 1. rewrite emit_eq.
  unfold bind at 1. unfold SandboxRunner.runJavaScript.
  unfold bind at 1. unfold SandboxRunner.emit, try_catch.
  rewrite js_adapter_eq. cbn [snd ret].
  apply js_steps.
Qed.

Lemma runCode_python options onEvent en ins :
  let r := Virtualizer.resolve options en in
  Virtualizer.is_javascript (Virtualizer.language r) = false ->
  Virtualizer.is_python (Virtualizer.language r) = true ->
  exists p ph w,
    Virtualizer.runCode options onEvent en ins
    = (Returned (Virtualizer.Python p), w)
    /\ in_phase onEvent r p ph
    /\ py_turns r (py_token en) Waiting ins
                (push (event r "init" no_payload) Virtualizer.initial) ph w.
Proof.
  intros r Hjs Hpy. unfold Virtualizer.runCode. fold r.
  unfold Virtualizer.runCode_body. rewrite Hjs, Hpy.
  unfold bind at 1. unfold bind at 1. rewrite emit_eq.
  cbn -[Virtualizer.steps Virtualizer.py_adapter].
  match goal with
  | |- context [Virtualizer.steps _ _ (Virtualizer.Python ?p0) _ ?w0] =>
    destruct (py_steps onEvent r ins p0 Waiting w0)
      as (p & ph & w & Hsteps & Hph & Hturns)
  end.
  - cbn. repeat split; auto.
    exists 1%nat, (Virtualizer.code r), (Virtualizer.rnd_pyrun en).
    split; [reflexivity | discriminate].
  - exists p, ph, w. split; [exact Hsteps|]. split; [exact Hph|exact Hturns].
Qed.

Lemma runCode_unsupported options onEvent en ins :
  let r := Virtualizer.resolve options en in
  Virtualizer.is_javascript (Virtualizer.language r) = false ->
  Virtualizer.is_python (Virtualizer.language r) = false ->
  Virtualizer.runCode options onEvent en ins
  = (Returned Virtualizer.Unsupported,
     Virtualizer.mkWorld
       [event r "init" no_payload; unsupported_error r;
        event r "done" no_payload] 0 false).
Proof.
  intros r Hjs Hpy. unfold Virtualizer.runCode. fold r.
  unfold Virtualizer.runCode_body. rewrite Hjs, Hpy.
  unfold bind. repeat rewrite emit_eq. cbn [ret].
  rewrite unsupported_steps. reflexivity.
Qed.

(** ** Runs in two parts *)
Section Split.
Variable onEvent : Virtualizer.Callback.
Variable r : Virtualizer.Resolved.

Lemma steps_app a : forall b run w,
  Virtualizer.steps onEvent r run (a ++ b) w
  = match Virtualizer.steps onEvent r run a w with
    | (Returned run1, w1) => Virtualizer.steps onEvent r run1 b w1
    | (Thrown, w1) => (Thrown, w1)
    end.
Proof.
  induction a as [|i a IH]; intros b run w; [reflexivity|].
  cbn [app Virtualizer.steps]. unfold bind.
  destruct (Virtualizer.step onEvent r run i w) as [[run1|] w1];
    [apply IH | reflexivity].
Qed.

End Split.

Lemma runCode_app options onEvent en a b :
  Virtualizer.runCode options onEvent en (a ++ b)
  = match Virtualizer.runCode options onEvent en a with
    | (Returned run, w) =>
      Virtualizer.steps onEvent (Virtualizer.resolve options en) run b w
    | (Thrown, w) => (Thrown, w)
    end.
Proof.
  unfold Virtualizer.runCode, bind.
  destruct (Virtualizer.runCode_body _ _ _ _) as [[run|] w]; [|reflexivity].
  apply steps_app.
Qed.

(** ** After [stop] *)

Lemma js_quiet_step js i :
  quiet js -> js_events js i = [] /\ quiet (js_next js i).
Proof.
  intros [Hl Ht]. unfold quiet.
  js_unfold. rewrite Hl, Ht. destruct i; cbn; auto.
  destruct (SandboxRunner.iframe js); cbn; auto.
Qed.



Lemma py_disposed_turn r tok i w ph' w' :
  py_turn r tok Disposed i w ph' w' -> ph' = Disposed /\ w' = w.
Proof.
  inversion 1; subst; auto. congruence.
Qed.





(** ** What the adapters add to the store *)
Section Adapters.
Variable r : Virtualizer.Resolved.

Lemma budgeted_cases ty text level w :
  let s := JS.or_else text "" in
  (Virtualizer.totalLogBytes w + JS.utf8_length s <= Virtualizer.maxLogBytes r
   /\ budgeted r ty text level w
      = Virtualizer.mkWorld
          (Virtualizer.delivered w
           ++ [event r ty (mkPayload (Some s) (Some level) None None None)])
          (Virtualizer.totalLogBytes w + JS.utf8_length s)
          (Virtualizer.truncatedNotified w))
  \/ (Virtualizer.maxLogBytes r < Virtualizer.totalLogBytes w + JS.utf8_length s
      /\ Virtualizer.truncatedNotified w = false
      /\ budgeted r ty text level w
         = Virtualizer.mkWorld (Virtualizer.delivered w ++ [truncation_warning r])
                               (Virtualizer.totalLogBytes w) true)
  \/ (Virtualizer.maxLogBytes r < Virtualizer.totalLogBytes w + JS.utf8_length s
      /\ Virtualizer.truncatedNotified w = true
      /\ budgeted r ty text level w = w).
Proof.
  intros s. unfold budgeted. fold s.
  destruct (Z.leb_spec (Virtualizer.totalLogBytes w + JS.utf8_length s)
                       (Virtualizer.maxLogBytes r)) as [H|H].
  - left. now split.
  - right. destruct (Virtualizer.truncatedNotified w); [right | left]; auto.
Qed.

Lemma py_adapter_world_cases msg w :
  py_adapter_world r msg w = w
  \/ (wm_type msg = Some "start"
      /\ py_adapter_world r msg w = push (event r "start" no_payload) w)
  \/ (wm_type msg = Some "stdout"
      /\ py_adapter_world r msg w = budgeted r "stdout" (wm_text msg) "info" w)
  \/ (wm_type msg = Some "stderr"
      /\ py_adapter_world r msg w = budgeted r "stderr" (wm_text msg) "warn" w)
  \/ (wm_type msg = Some "result"
      /\ py_adapter_world r msg w
         = push (event r "result" (mkPayload None None None None (wm_value msg))) w)
  \/ (wm_type msg = Some "error"
      /\ py_adapter_world r msg w
         = push (event r "error"
                       (mkPayload None None (wm_message msg) None None)) w).
Proof.
  unfold py_adapter_world. destruct (wm_type msg) as [t|]; [|now left].
  cbn [JS.strict_eq].
  destruct (String.eqb_spec t "ready") as [->|_]; [now left|].
  destruct (String.eqb_spec t "start") as [->|_]; [right; left; now split|].
  destruct (String.eqb_spec t "stdout") as [->|_];
    [right; right; left; now split|].
  destruct (String.eqb_spec t "stderr") as [->|_];
    [right; right; right; left; now split|].
  destruct (String.eqb_spec t "result") as [->|_];
    [right; right; right; right; left; now split|].
  destruct (String.eqb_spec t "error") as [->|_];
    [right; right; right; right; right; now split|].
  now left.
Qed.

Lemma js_adapter_world_log e w :
  ev_type e = "log" ->
  js_adapter_world r e w
  = push (event r "log"
                (mkPayload (p_text (ev_payload e))
                           (Some (JS.or_else (p_level (ev_payload e)) "log"))
                           None None None))
         (budgeted r "stdout" (p_text (ev_payload e))
               (JS.or_else (p_level (ev_payload e)) "log") w).
Proof. intros H. unfold js_adapter_world. now rewrite H. Qed.

Lemma js_adapter_world_start e w :
  ev_type e = "start" ->
  js_adapter_world r e w = push (event r "start" no_payload) w.
Proof. intros H. unfold js_adapter_world. now rewrite H. Qed.

Lemma js_adapter_world_error e w :
  ev_type e = "error" ->
  js_adapter_world r e w
  = push (event r "error"
                (mkPayload None None (p_message (ev_payload e))
                           (p_stack (ev_payload e)) None)) w.
Proof. intros H. unfold js_adapter_world. now rewrite H. Qed.

Lemma js_adapter_world_done e w :
  ev_type e = "done" ->
  js_adapter_world r e w = push (event r "done" no_payload) w.
Proof. intros H. unfold js_adapter_world. now rewrite H. Qed.

Lemma js_adapter_world_timeout e w :
  ev_type e = "timeout" ->
  js_adapter_world r e w
  = push (event r "timeout"
                (mkPayload None None (p_message (ev_payload e)) None None)) w.
Proof. intros H. unfold js_adapter_world. now rewrite H. Qed.

(** The events one step of a JavaScript run adds. *)
Lemma js_turn js i w :
  let w' := fold_left (fun w e => js_adapter_world r e w) (js_events js i) w in
  w' = w
  \/ (exists text level,
         w' = push (event r "log" (mkPayload text (Some level) None None None))
                   (budgeted r "stdout" text level w))
  \/ (is_start_input i = true /\ w' = push (event r "start" no_payload) w)
  \/ (exists e, terminal e = true /\ w' = push e w /\ quiet (js_next js i)).
Proof.
  intros w'. subst w'.
  destruct (js_step_shape js i)
    as [-> | [(e & -> & _ & [H|[H Hi]]) | (e & -> & _ & H & Hq)]];
    cbn [fold_left].
  - now left.
  - right; left. rewrite (js_adapter_world_log _ _ H). eauto.
  - right; right; left. now rewrite (js_adapter_world_start _ _ H).
  - right; right; right. destruct H as [H|[H|H]].
    + rewrite (js_adapter_world_error _ _ H). eexists. split; [|split; [reflexivity | exact Hq]]. reflexivity.
    + rewrite (js_adapter_world_done _ _ H). eexists. split; [|split; [reflexivity | exact Hq]]. reflexivity.
    + rewrite (js_adapter_world_timeout _ _ H). eexists. split; [|split; [reflexivity | exact Hq]]. reflexivity.
Qed.

End Adapters.

(** ** Counting and measuring events *)

Lemma out_bytes_app a b : out_bytes (a ++ b) = out_bytes a + out_bytes b.
Proof. induction a as [|e a IH]; simpl; [reflexivity | lia]. Qed.

Lemma count_type_app t a b :
  count_type t (a ++ b) = (count_type t a + count_type t b)%nat.
Proof. unfold count_type. now rewrite filter_app, length_app. Qed.

Lemma count_terminal_app a b :
  count_terminal (a ++ b) = (count_terminal a + count_terminal b)%nat.
Proof. unfold count_terminal. now rewrite filter_app, length_app. Qed.

Lemma delivered_push e w :
  Virtualizer.delivered (push e w) = Virtualizer.delivered w ++ [e].
Proof. reflexivity. Qed.

Lemma count_type_one t e :
  count_type t [e] = if has_type t e then 1%nat else 0%nat.
Proof. unfold count_type. simpl. now destruct (has_type t e). Qed.

Lemma grows_refl P w : grows P w w.
Proof. exists []. now rewrite app_nil_r. Qed.

Lemma grows_trans P w1 w2 w3 : grows P w1 w2 -> grows P w2 w3 -> grows P w1 w3.
Proof.
  intros (a & Ha & Pa) (b & Hb & Pb). exists (a ++ b).
  rewrite Hb, Ha, app_assoc. split; [reflexivity | now apply Forall_app].
Qed.

Lemma grows_push (P : Event -> Prop) e w : P e -> grows P w (push e w).
Proof. intros H. exists [e]. split; [reflexivity | now constructor]. Qed.

Lemma grows_budgeted (P : Event -> Prop) r ty text level w :
  (forall s, P (event r ty (mkPayload (Some s) (Some level) None None None))) ->
  P (truncation_warning r) ->
  grows P w (budgeted r ty text level w).
Proof.
  intros H1 H2.
  destruct (budgeted_cases r ty text level w) as [[_ ->]|[(_ & _ & ->)|(_ & _ & ->)]].
  - eexists. split; [reflexivity|]. constructor; auto.
  - eexists. split; [reflexivity|]. constructor; auto.
  - apply grows_refl.
Qed.

Lemma noterm_grows w w' :
  noterm (Virtualizer.delivered w) ->
  grows (fun e => terminal e = false) w w' ->
  noterm (Virtualizer.delivered w').
Proof.
  intros H (es & -> & Hes). now apply Forall_app.
Qed.

Lemma count_type_grows t w w' :
  grows (fun e => has_type t e = false) w w' ->
  count_type t (Virtualizer.delivered w') = count_type t (Virtualizer.delivered w).
Proof.
  intros (es & -> & Hes). rewrite count_type_app.
  assert (count_type t es = 0%nat) as ->; [|lia].
  unfold count_type. induction Hes as [|e es He _ IH]; [reflexivity|].
  simpl. now rewrite He.
Qed.

(** ** Invariants of a JavaScript run *)
Section JsInvariants.
Variable r : Virtualizer.Resolved.

Lemma js_trace_invariant (I : SandboxRunner.State -> Virtualizer.World -> Prop) :
  (forall js i w, I js w -> I (js_next js i) (js_after r js i w)) ->
  forall ins js w,
    I js w -> I (fst (js_trace r js ins w)) (snd (js_trace r js ins w)).
Proof.
  intros Hstep. induction ins as [|i ins IH]; intros js w H; [exact H|].
  cbn [js_trace]. apply IH. now apply Hstep.
Qed.



Lemma js_term_step js i w :
  js_term_inv js w -> js_term_inv (js_next js i) (js_after r js i w).
Proof.
  intros [Hn | (Hq & pre & e & Hd & Hpre & He)].
  - destruct (js_turn r js i w)
      as [Hw | [(text & level & Hw) | [(_ & Hw) | (e & He & Hw & Hq)]]];
      fold (js_after r js i w) in Hw; rewrite Hw.
    + now left.
    + left. eapply noterm_grows; [exact Hn|].
      eapply grows_trans; [apply grows_budgeted | apply grows_push]; reflexivity.
    + left. eapply noterm_grows; [exact Hn|]. now apply grows_push.
    + right. split; [exact Hq|]. exists (Virtualizer.delivered w), e.
      now repeat split.
  - destruct (js_quiet_step js i Hq) as [Hev Hq'].
    unfold js_after. rewrite Hev. cbn [fold_left].
    right. split; [exact Hq'|]. exists pre, e. now repeat split.
Qed.

Lemma js_term_inv_closes js w :
  js_term_inv js w ->
  (count_terminal (Virtualizer.delivered w) <= 1)%nat
  /\ terminal_closes (Virtualizer.delivered w).
Proof.
  assert (forall es, noterm es -> count_terminal es = 0%nat) as Hzero.
  { intros es H. unfold count_terminal.
    induction H as [|e es He _ IH]; [reflexivity|]. simpl. now rewrite He. }
  assert (forall es pre e post,
             noterm es -> es = pre ++ e :: post -> terminal e = true -> False)
    as Hno.
  { intros es pre e post H -> He.
    apply Forall_app in H. destruct H as [_ H]. inversion H; congruence. }
  intros [Hn | (_ & pre & e & -> & Hpre & He)].
  - split; [rewrite (Hzero _ Hn); lia|].
    intros pre e post Heq He. exfalso. eapply Hno; eauto.
  - split.
    + rewrite count_terminal_app, (Hzero _ Hpre).
      unfold count_terminal. simpl. rewrite He. simpl. lia.
    + intros pre' e' post Heq He'.
      destruct post as [|x post] using rev_ind; [reflexivity|].
      exfalso. clear IHpost.
      rewrite app_comm_cons, app_assoc in Heq.
      apply app_inj_tail in Heq. destruct Heq as [Heq _].
      eapply Hno; eauto.
Qed.

Lemma budget_push e w :
  is_std e = false -> budget_ok r w -> budget_ok r (push e w).
Proof.
  intros He [H1 H2]. split; [|exact H2].
  cbn. rewrite out_bytes_app. simpl. rewrite He. cbn in *. lia.
Qed.

Lemma budget_budgeted ty text level w :
  ty = "stdout" \/ ty = "stderr" ->
  budget_ok r w -> budget_ok r (budgeted r ty text level w).
Proof.
  intros Hty [H1 H2].
  destruct (budgeted_cases r ty text level w)
    as [[Hle ->]|[(_ & _ & ->)|(_ & _ & ->)]].
  - split; [|exact Hle]. cbn. rewrite out_bytes_app. cbn.
    assert (is_std (event r ty (mkPayload (Some (JS.or_else text ""))
                                          (Some level) None None None)) = true)
      as ->.
    { destruct Hty as [-> | ->]; reflexivity. }
    unfold text_bytes. cbn. lia.
  - split; [|exact H2]. cbn. rewrite out_bytes_app. cbn. lia.
  - now split.
Qed.

Lemma js_budget_step js i w :
  budget_ok r w -> budget_ok r (js_after r js i w).
Proof.
  intros H.
  destruct (js_turn r js i w)
    as [Hw | [(text & level & Hw) | [(_ & Hw) | (e & He & Hw & _)]]];
    fold (js_after r js i w) in Hw; rewrite Hw.
  - exact H.
  - apply budget_push; [reflexivity|]. apply budget_budgeted; auto.
  - now apply budget_push.
  - apply budget_push; [|exact H].
    unfold terminal in He. unfold is_std.
    destruct (String.eqb_spec (ev_type e) "done") as [->|_]; [reflexivity|].
    destruct (String.eqb_spec (ev_type e) "error") as [->|_]; [reflexivity|].
    destruct (String.eqb_spec (ev_type e) "timeout") as [->|_]; [reflexivity|].
    discriminate.
Qed.





End JsInvariants.

(** ** Invariants of a Python run *)
Section PyInvariants.
Variable r : Virtualizer.Resolved.
Variable tok : string.

Lemma py_turns_invariant (I : Phase -> Virtualizer.World -> Prop) :
  (forall ph i w ph' w', py_turn r tok ph i w ph' w' -> I ph w -> I ph' w') ->
  forall ins ph w ph' w',
    py_turns r tok ph ins w ph' w' -> I ph w -> I ph' w'.
Proof.
  intros Hstep ins ph w ph' w' H. induction H; intros HI; [exact HI|].
  apply IHpy_turns. eapply Hstep; eauto.
Qed.

Lemma py_adapter_grows (P : Event -> Prop) msg w :
  (forall ty p,
      In ty ["start"; "stdout"; "stderr"; "log"; "result"; "error"] ->
      P (event r ty p)) ->
  grows P w (py_adapter_world r msg w).
Proof.
  intros HP.
  destruct (py_adapter_world_cases r msg w)
    as [-> | [[_ ->] | [[_ ->] | [[_ ->] | [[_ ->] | [_ ->]]]]]].
  - apply grows_refl.
  - apply grows_push, HP. simpl; tauto.
  - apply grows_budgeted; [intros s|]; apply HP; simpl; tauto.
  - apply grows_budgeted; [intros s|]; apply HP; simpl; tauto.
  - apply grows_push, HP. simpl; tauto.
  - apply grows_push, HP. simpl; tauto.
Qed.






(** Once the program is submitted, no [timeout] is ever delivered. *)
Lemma py_adapter_timeout msg w :
  count_type "timeout" (Virtualizer.delivered (py_adapter_world r msg w))
  = count_type "timeout" (Virtualizer.delivered w).
Proof.
  apply count_type_grows. apply py_adapter_grows.
  intros ty p Hin. unfold has_type. cbn.
  simpl in Hin; intuition (subst; reflexivity).
Qed.

Lemma py_submitted_turn i w ph' w' :
  py_turn r tok Submitted i w ph' w' ->
  ph' <> Waiting
  /\ count_type "timeout" (Virtualizer.delivered w')
     = count_type "timeout" (Virtualizer.delivered w).
Proof.
  inversion 1; subst; split; try discriminate; try reflexivity.
  apply py_adapter_timeout.
Qed.

Lemma py_no_timeout_turns ins : forall ph w ph' w',
  ph <> Waiting ->
  py_turns r tok ph ins w ph' w' ->
  count_type "timeout" (Virtualizer.delivered w')
  = count_type "timeout" (Virtualizer.delivered w).
Proof.
  induction ins as [|i ins IH]; intros ph w ph' w' Hph H; inversion H; subst.
  - reflexivity.
  - match goal with
    | Ht : py_turn _ _ _ _ _ ?ph1 ?w1, Hts : py_turns _ _ ?ph1 _ ?w1 _ _ |- _ =>
      rewrite (IH ph1 w1 ph' w'); [| |exact Hts];
        [|];
        destruct ph; try congruence
    end.
    all: match goal with
         | Ht : py_turn _ _ Submitted _ _ _ _ |- _ =>
           apply py_submitted_turn in Ht; tauto
         | Ht : py_turn _ _ Disposed _ _ _ _ |- _ =>
           apply py_disposed_turn in Ht; destruct Ht; subst;
             first [reflexivity | discriminate]
         end.
Qed.

Lemma py_budget_turn ph i w ph' w' :
  py_turn r tok ph i w ph' w' -> budget_ok r w -> budget_ok r w'.
Proof.
  inversion 1; subst; intros HI; auto;
    try (apply budget_push; [reflexivity | exact HI]).
  destruct (py_adapter_world_cases r (data_of data) w)
    as [-> | [[_ ->] | [[_ ->] | [[_ ->] | [[_ ->] | [_ ->]]]]]]; auto;
    try (apply budget_push; [reflexivity | exact HI]);
    apply budget_budgeted; auto.
Qed.

Lemma py_log_push e w :
  has_type "log" e = false -> py_log_inv w -> py_log_inv (push e w).
Proof.
  unfold py_log_inv. intros He H.
  rewrite delivered_push, count_type_app, count_type_one, He. cbn. lia.
Qed.

Lemma py_log_budgeted ty text level w :
  ty <> "log" -> py_log_inv w -> py_log_inv (budgeted r ty text level w).
Proof.
  unfold py_log_inv. intros Hty H.
  destruct (budgeted_cases r ty text level w)
    as [[_ ->]|[(_ & Hn & ->)|(_ & _ & ->)]];
    cbn [Virtualizer.delivered Virtualizer.truncatedNotified].
  - rewrite count_type_app, count_type_one. unfold has_type. cbn.
    apply String.eqb_neq in Hty. rewrite Hty. lia.
  - rewrite count_type_app, count_type_one. rewrite Hn in H. cbn. lia.
  - exact H.
Qed.

Lemma py_log_turn ph i w ph' w' :
  py_turn r tok ph i w ph' w' -> py_log_inv w -> py_log_inv w'.
Proof.
  inversion 1; subst; intros HI; auto;
    try (apply py_log_push; [reflexivity | exact HI]).
  destruct (py_adapter_world_cases r (data_of data) w)
    as [-> | [[_ ->] | [[_ ->] | [[_ ->] | [[_ ->] | [_ ->]]]]]]; auto;
    try (apply py_log_push; [reflexivity | exact HI]);
    apply py_log_budgeted; auto; discriminate.
Qed.



End PyInvariants.

(** ** The configuration of the JavaScript runner *)
Lemma js_config_step r js i :
  js_config_inv r js -> js_config_inv r (js_next js i).
Proof.
  intros (H1 & H2 & H3). unfold js_config_inv.
  js_unfold. destruct i; js_split; cbn; auto.
Qed.

Lemma js_config_trace r ins : forall js w,
  js_config_inv r js -> js_config_inv r (fst (js_trace r js ins w)).
Proof.
  induction ins as [|i ins IH]; intros js w H; [exact H|].
  cbn [js_trace]. apply IH. now apply js_config_step.
Qed.

Lemma js_config_start r en : js_config_inv r (js_start r en).
Proof. unfold js_config_inv, js_start. cbn. auto. Qed.

(** ** What the contexts post *)
Lemma script_does_not_compile : Harness.compiles Harness.script = false.
Proof. vm_compute. reflexivity. Qed.

Lemma harness_posts_nothing tok b : Harness.on_execute tok b = [].
Proof. unfold Harness.on_execute. now rewrite script_does_not_compile. Qed.

Lemma frames_load en b : frames en b = [IframeLoad].
Proof. unfold frames. now rewrite harness_posts_nothing. Qed.

Lemma worker_one_start rt st msg :
  posts_of_type "start" (PyWorker.run_accepted rt st msg) = 1%nat.
Proof.
  unfold posts_of_type, PyWorker.run_accepted.
  cbn [app filter wm_type].
  replace (JS.strict_eq (Some "start") "start") with true by reflexivity.
  cbn [List.length]. f_equal.
  destruct (PyWorker.redirect rt); [reflexivity|].
  cbn [filter]. rewrite filter_app, length_app.
  match goal with
  | |- (List.length (filter ?f (flat_map ?g ?ws)) + _)%nat = _ =>
    assert (filter f (flat_map g ws) = []) as ->
  end.
  { induction (PyWorker.writes _) as [|[s t] ws IH]; [reflexivity|].
    cbn [flat_map]. rewrite filter_app, IH, app_nil_r.
    unfold PyWorker.write. cbn [snd fst].
    destruct (String.eqb t ""); [reflexivity|]. now destruct s. }
  destruct (PyWorker.completion _); reflexivity.
Qed.

(** ** The stream of a run *)

Lemma stream_javascript options onEvent en ins :
  let r := Virtualizer.resolve options en in
  Virtualizer.is_javascript (Virtualizer.language r) = true ->
  Virtualizer.stream options onEvent en ins
  = Virtualizer.delivered
      (snd (js_trace r (js_start r en) ins
                     (push (event r "init" no_payload)
                           (push (event r "init" no_payload)
                                 Virtualizer.initial)))).
Proof.
  intros r H. unfold Virtualizer.stream.
  now rewrite (runCode_javascript options onEvent en ins H).
Qed.



Lemma stream_javascript_terminal options onEvent en ins :
  let r := Virtualizer.resolve options en in
  Virtualizer.is_javascript (Virtualizer.language r) = true ->
  (count_terminal (Virtualizer.stream options onEvent en ins) <= 1)%nat
  /\ terminal_closes (Virtualizer.stream options onEvent en ins).
Proof.
  intros r Hjs. rewrite (stream_javascript options onEvent en ins Hjs). fold r.
  eapply js_term_inv_closes.
  apply (js_trace_invariant r js_term_inv).
  - intros js i w. apply js_term_step.
  - left. cbn. repeat constructor.
Qed.


(** ** A consumer that calls [stop] from its callback *)




Section Reentrant.
Variable c : Virtualizer.Consumer.
Variable r : Virtualizer.Resolved.





Lemma stop_called_nil before : Virtualizer.stop_called c before [] = false.
Proof. reflexivity. Qed.






End Reentrant.

(** ** Whole runs with a consumer that may call [stop] *)















Example stop_at_stdout_stream :
  map summary
      (Virtualizer.stream_with (options_for "javascript" "console.log(1+1)")
                               stop_at_stdout sample_entropy
                               [IframeLoad; log_frame "2"; log_frame "3";
                                TimerFires])
  = [("init", None, None); ("init", None, None);
     ("stdout", Some "2", None); ("log", Some "2", None)].
Proof. vm_compute. reflexivity. Qed.

(** ** A run that nobody stops ends *)






Section Live.
Variable r : Virtualizer.Resolved.



Variable tok : string.



End Live.





(** Sample runs, event by event.  The iframe posts nothing, so a
    JavaScript run ends with the [timeout] of its watchdog, or with
    nothing when it is stopped first. *)
Example javascript_console_log_stream :
  map summary
      (Virtualizer.stream (options_for "javascript" "console.log(1+1)")
                          well_behaved sample_entropy
                          (sample_frames console_log_two ++ [TimerFires]))
  = [("init", None, None); ("init", None, None);
     ("timeout", None, Some "Execution timed out after 5000ms")].
Proof. vm_compute. reflexivity. Qed.

Example javascript_stopped_stream :
  map summary
      (Virtualizer.stream (options_for "javascript" "console.log(1+1)")
                          well_behaved sample_entropy
                          (sample_frames console_log_two ++ [Stop; TimerFires]))
  = [("init", None, None); ("init", None, None)].
Proof. vm_compute. reflexivity. Qed.

(** The sample sessions answer what the host really posts: the [init] and
    [run] messages of the executor, the [execute] message of the runner. *)
Example sample_session_closes :
  posted_to_worker
    (fst (Virtualizer.runCode (options_for "python" "print('x')") well_behaved
                              sample_entropy
                              (sample_session print_x_then_y "print('x')")))
  = sample_host_msgs "print('x')"
  /\ posted_to_iframe
       (fst (Virtualizer.runCode (options_for "javascript" "console.log(1+1)")
                                 well_behaved sample_entropy
                                 (sample_frames console_log_two)))
     = [mkExecuteMsg "console.log(1+1)" (js_token sample_entropy)].
Proof. split; vm_compute; reflexivity. Qed.

Example python_print_stream :
  map summary
      (Virtualizer.stream (options_for "python" "print('x')") well_behaved
                          sample_entropy
                          (sample_session print_x_then_y "print('x')"))
  = [("init", None, None); ("done", None, None); ("start", None, None);
     ("stdout", Some "x", None);
     ("stdout", Some (String (ascii_of_nat 10) ""), None);
     ("result", None, None)].
Proof. reflexivity. Qed.


(** C6.  When the language is none of javascript, js, typescript, ts,
    python, py, the stream is [init], an [error] whose message is
    "Unsupported language: " followed by the language, then [done], whatever
    happens afterwards; [runCode] creates no iframe and no worker; and the
    [stop] it returns, like any other input, changes nothing. *)
Theorem unsupported_language_stream :
  forall (options : option Virtualizer.Options)
         (onEvent : Virtualizer.Callback) (en : Virtualizer.Entropy)
         (ins : list Input),
    let r := Virtualizer.resolve options en in
    Virtualizer.is_javascript (Virtualizer.language r) = false ->
    Virtualizer.is_python (Virtualizer.language r) = false ->
    Virtualizer.stream options onEvent en ins
    = [event r "init" no_payload; unsupported_error r;
       event r "done" no_payload]
    /\ exists run,
        fst (Virtualizer.runCode options onEvent en ins) = Returned run
        /\ contexts_created run = 0%nat
        /\ forall w, Virtualizer.step onEvent r run Stop w = (Returned run, w).
Proof.
  intros options onEvent en ins r Hjs Hpy. unfold Virtualizer.stream.
  rewrite (runCode_unsupported options onEvent en ins Hjs Hpy).
  split; [reflexivity|].
  exists Virtualizer.Unsupported. now repeat split.
Qed.

Lemma unsupported_language_stream_witness :
  Virtualizer.stream (options_for "ruby" "puts 1") well_behaved sample_entropy
                     [Stop; TimerFires]
  = [mkEvent "init" "ruby_k3v9x1" (Some "ruby") no_payload;
     mkEvent "error" "ruby_k3v9x1" (Some "ruby")
             (mkPayload None None (Some "Unsupported language: ruby") None None);
     mkEvent "done" "ruby_k3v9x1" (Some "ruby") no_payload]
  /\ exists run,
      fst (Virtualizer.runCode (options_for "ruby" "puts 1") well_behaved
                               sample_entropy [Stop; TimerFires])
      = Returned run
      /\ contexts_created run = 0%nat
      /\ forall w,
          Virtualizer.step well_behaved
            (Virtualizer.resolve (options_for "ruby" "puts 1") sample_entropy)
            run Stop w
          = (Returned run, w).
Proof.
  apply (unsupported_language_stream (options_for "ruby" "puts 1") well_behaved
                                     sample_entropy [Stop; TimerFires]);
    reflexivity.
Defined.

(** ** The budget of a run *)
Lemma stream_budget options onEvent en ins :
  let r := Virtualizer.resolve options en in
  0 <= Virtualizer.maxLogBytes r ->
  out_bytes (Virtualizer.stream options onEvent en ins)
  <= Virtualizer.maxLogBytes r.
Proof.
  intros r Hmax.
  assert (forall w, budget_ok r w ->
                    out_bytes (Virtualizer.delivered w)
                    <= Virtualizer.maxLogBytes r) as Hok.
  { intros w [H1 H2]. lia. }
  destruct (Virtualizer.is_javascript (Virtualizer.language r)) eqn:Hjs.
  - rewrite (stream_javascript options onEvent en ins Hjs). fold r.
    apply Hok.
    apply (js_trace_invariant r (fun _ w => budget_ok r w)).
    + intros js i w. apply js_budget_step.
    + split; [reflexivity | exact Hmax].
  - destruct (Virtualizer.is_python (Virtualizer.language r)) eqn:Hpy.
    + destruct (runCode_python options onEvent en ins Hjs Hpy)
        as (p & ph & w & Hrun & _ & Hturns).
      unfold Virtualizer.stream. rewrite Hrun. cbn [snd].
      apply Hok.
      eapply (py_turns_invariant _ _ (fun _ w => budget_ok r w));
        [|exact Hturns|].
      * intros. eapply py_budget_turn; eauto.
      * split; [reflexivity | exact Hmax].
    + unfold Virtualizer.stream.
      rewrite (runCode_unsupported options onEvent en ins Hjs Hpy).
      cbn. exact Hmax.
Qed.

(** ** The timer of a run *)
Lemma pending_timer_delay options onEvent en ins run d :
  fst (Virtualizer.runCode options onEvent en ins) = Returned run ->
  pending_timer run = Some d ->
  d = Virtualizer.timeoutMs (Virtualizer.resolve options en).
Proof.
  set (r := Virtualizer.resolve options en).
  destruct (Virtualizer.is_javascript (Virtualizer.language r)) eqn:Hjs.
  - rewrite (runCode_javascript options onEvent en ins Hjs). fold r.
    cbn [fst]. intros [= <-]. cbn [pending_timer].
    match goal with
    | |- context [js_trace r ?js ins ?w] =>
      destruct (js_config_trace r ins js w (js_config_start r en))
        as (_ & _ & [Ht|Ht])
    end; rewrite Ht; [discriminate | intros [= <-]; reflexivity].
  - destruct (Virtualizer.is_python (Virtualizer.language r)) eqn:Hpy.
    + destruct (runCode_python options onEvent en ins Hjs Hpy)
        as (p & ph & w & Hrun & Hph & _).
      rewrite Hrun. cbn [fst]. intros [= <-]. cbn [pending_timer].
      destruct ph; cbn [in_phase] in Hph.
      * destruct Hph as (_ & _ & Ht & _). rewrite Ht.
        intros [= <-]; reflexivity.
      * destruct Hph as (_ & _ & Ht & _). rewrite Ht. discriminate.
      * destruct Hph as (_ & Ht & _). rewrite Ht. discriminate.
    + rewrite (runCode_unsupported options onEvent en ins Hjs Hpy).
      cbn [fst]. intros [= <-]. discriminate.
Qed.

Lemma pending_timer_armed options onEvent en run :
  fst (Virtualizer.runCode options onEvent en []) = Returned run ->
  run <> Virtualizer.Unsupported ->
  pending_timer run
  = Some (Virtualizer.timeoutMs (Virtualizer.resolve options en)).
Proof.
  set (r := Virtualizer.resolve options en).
  destruct (Virtualizer.is_javascript (Virtualizer.language r)) eqn:Hjs.
  - rewrite (runCode_javascript options onEvent en [] Hjs). fold r.
    cbn [fst js_trace]. intros [= <-] _. reflexivity.
  - destruct (Virtualizer.is_python (Virtualizer.language r)) eqn:Hpy.
    + destruct (runCode_python options onEvent en [] Hjs Hpy)
        as (p & ph & w & Hrun & Hph & Hturns).
      rewrite Hrun. cbn [fst]. intros [= <-] _. cbn [pending_timer].
      inversion Hturns; subst. cbn [in_phase] in Hph. tauto.
    + rewrite (runCode_unsupported options onEvent en [] Hjs Hpy).
      cbn [fst]. intros [= <-] H. congruence.
Qed.

Lemma javascript_budget options onEvent en ins js :
  fst (Virtualizer.runCode options onEvent en ins)
  = Returned (Virtualizer.JavaScript js) ->
  SandboxRunner.maxLogBytes js
  = Virtualizer.maxLogBytes (Virtualizer.resolve options en).
Proof.
  set (r := Virtualizer.resolve options en).
  destruct (Virtualizer.is_javascript (Virtualizer.language r)) eqn:Hjs.
  - rewrite (runCode_javascript options onEvent en ins Hjs). fold r.
    cbn [fst]. intros [= <-].
    match goal with
    | |- context [js_trace r ?js ins ?w] =>
      destruct (js_config_trace r ins js w (js_config_start r en))
        as (_ & H & _)
    end.
    exact H.
  - destruct (Virtualizer.is_python (Virtualizer.language r)) eqn:Hpy.
    + destruct (runCode_python options onEvent en ins Hjs Hpy)
        as (p & ph & w & Hrun & _).
      rewrite Hrun. discriminate.
    + rewrite (runCode_unsupported options onEvent en ins Hjs Hpy).
      discriminate.
Qed.

Lemma resolve_timeout options en :
  unspecified Virtualizer.o_timeoutMs options ->
  Virtualizer.timeoutMs (Virtualizer.resolve options en) = 5000.
Proof.
  destruct options as [o|]; cbn; [intros ->|]; reflexivity.
Qed.

Lemma resolve_budget options en :
  unspecified Virtualizer.o_maxLogBytes options ->
  Virtualizer.maxLogBytes (Virtualizer.resolve options en) = 65536.
Proof.
  destruct options as [o|]; cbn; [intros ->|]; reflexivity.
Qed.

(** C9.  When [timeoutMs] is left out the run uses 5000 milliseconds: that
    is what [runCode] resolves, the delay of the timer pending when
    [runCode] returns, and the delay of any timer pending later.  When
    [maxLogBytes] is left out the budget is 65536 bytes: that is what
    [runCode] resolves and hands to the JavaScript runner, and the text of
    the [stdout] and [stderr] events of the run never adds up to more. *)
Theorem default_timeout_and_budget :
  forall (options : option Virtualizer.Options)
         (onEvent : Virtualizer.Callback) (en : Virtualizer.Entropy)
         (ins : list Input),
    (unspecified Virtualizer.o_timeoutMs options ->
     Virtualizer.timeoutMs (Virtualizer.resolve options en) = 5000
     /\ (forall run,
            fst (Virtualizer.runCode options onEvent en []) = Returned run ->
            run <> Virtualizer.Unsupported ->
            pending_timer run = Some 5000)
     /\ (forall run d,
            fst (Virtualizer.runCode options onEvent en ins) = Returned run ->
            pending_timer run = Some d -> d = 5000))
    /\ (unspecified Virtualizer.o_maxLogBytes options ->
        Virtualizer.maxLogBytes (Virtualizer.resolve options en) = 65536
        /\ out_bytes (Virtualizer.stream options onEvent en ins) <= 65536
        /\ (forall js,
               fst (Virtualizer.runCode options onEvent en ins)
               = Returned (Virtualizer.JavaScript js) ->
               SandboxRunner.maxLogBytes js = 65536)).
Proof.
  intros options onEvent en ins. split.
  - intros H. pose proof (resolve_timeout options en H) as Ht.
    split; [exact Ht|]. split.
    + intros run Hrun Hne. rewrite <- Ht.
      now apply (pending_timer_armed options onEvent en).
    + intros run d Hrun Hd. rewrite <- Ht.
      now apply (pending_timer_delay options onEvent en ins run).
  - intros H. pose proof (resolve_budget options en H) as Hb.
    split; [exact Hb|]. split.
    + rewrite <- Hb. apply stream_budget. rewrite Hb. lia.
    + intros js Hrun. rewrite <- Hb.
      now apply (javascript_budget options onEvent en ins).
Qed.

Lemma default_timeout_and_budget_witness :
  (Virtualizer.timeoutMs
     (Virtualizer.resolve (options_for "python" "print(1)") sample_entropy)
   = 5000
   /\ (forall run,
          fst (Virtualizer.runCode (options_for "python" "print(1)")
                                   well_behaved sample_entropy [])
          = Returned run ->
          run <> Virtualizer.Unsupported ->
          pending_timer run = Some 5000)
   /\ (forall run d,
          fst (Virtualizer.runCode (options_for "python" "print(1)")
                                   well_behaved sample_entropy [TimerFires])
          = Returned run ->
          pending_timer run = Some d -> d = 5000))
  /\ (Virtualizer.maxLogBytes
        (Virtualizer.resolve (options_for "python" "print(1)") sample_entropy)
      = 65536
      /\ out_bytes (Virtualizer.stream (options_for "python" "print(1)")
                                       well_behaved sample_entropy [TimerFires])
         <= 65536
      /\ (forall js,
             fst (Virtualizer.runCode (options_for "python" "print(1)")
                                      well_behaved sample_entropy [TimerFires])
             = Returned (Virtualizer.JavaScript js) ->
             SandboxRunner.maxLogBytes js = 65536)).
Proof.
  split;
    apply (default_timeout_and_budget (options_for "python" "print(1)")
                                      well_behaved sample_entropy [TimerFires]);
    reflexivity.
Defined.

(** ** The life cycle does not depend on the budget *)

Lemma lifecycle_app a b : lifecycle (a ++ b) = lifecycle a ++ lifecycle b.
Proof. apply filter_app. Qed.

Lemma lifecycle_push e w :
  lifecycle (Virtualizer.delivered (push e w))
  = lifecycle (Virtualizer.delivered w) ++ lifecycle [e].
Proof. now rewrite delivered_push, lifecycle_app. Qed.

Lemma lifecycle_budgeted r ty text level w :
  ty = "stdout" \/ ty = "stderr" ->
  lifecycle (Virtualizer.delivered (budgeted r ty text level w))
  = lifecycle (Virtualizer.delivered w).
Proof.
  intros Hty.
  destruct (budgeted_cases r ty text level w)
    as [[_ ->]|[(_ & _ & ->)|(_ & _ & ->)]];
    cbn [Virtualizer.delivered]; [| |reflexivity];
    rewrite lifecycle_app.
  - destruct Hty as [-> | ->]; cbn; now rewrite app_nil_r.
  - cbn. now rewrite app_nil_r.
Qed.

(** What an adapter adds to the life cycle does not depend on the store. *)
Lemma js_adapter_lifecycle r e w :
  lifecycle (Virtualizer.delivered (js_adapter_world r e w))
  = lifecycle (Virtualizer.delivered w) ++ js_forward r e.
Proof.
  unfold js_forward, js_adapter_world.
  repeat match goal with
         | |- context [String.eqb (ev_type e) ?s] =>
           destruct (String.eqb (ev_type e) s)
         end;
    cbn [on];
    repeat first [ rewrite lifecycle_push
                 | rewrite lifecycle_budgeted by auto ];
    cbn [Virtualizer.delivered Virtualizer.initial lifecycle filter app];
    rewrite <- ?app_assoc, ?app_nil_r; reflexivity.
Qed.

Lemma py_adapter_lifecycle r msg w :
  lifecycle (Virtualizer.delivered (py_adapter_world r msg w))
  = lifecycle (Virtualizer.delivered w) ++ py_forward r msg.
Proof.
  unfold py_forward, py_adapter_world.
  repeat match goal with
         | |- context [JS.strict_eq (wm_type msg) ?s] =>
           destruct (JS.strict_eq (wm_type msg) s)
         end;
    cbn [on];
    repeat first [ rewrite lifecycle_push
                 | rewrite lifecycle_budgeted by auto ];
    cbn [Virtualizer.delivered Virtualizer.initial lifecycle filter app];
    rewrite <- ?app_assoc, ?app_nil_r; reflexivity.
Qed.

Lemma same_call_event r r' ty p : same_call r r' -> event r' ty p = event r ty p.
Proof. intros (H1 & H2 & _). unfold event. now rewrite H1, H2. Qed.

Lemma js_forward_same r r' e : same_call r r' -> js_forward r' e = js_forward r e.
Proof.
  intros H. unfold js_forward, js_adapter_world.
  repeat match goal with
         | |- context [String.eqb (ev_type e) ?s] =>
           destruct (String.eqb (ev_type e) s)
         end;
    cbn [on];
    repeat first [ rewrite lifecycle_push
                 | rewrite lifecycle_budgeted by auto ];
    rewrite ?(same_call_event r r' _ _ H); reflexivity.
Qed.

Lemma py_forward_same r r' msg :
  same_call r r' -> py_forward r' msg = py_forward r msg.
Proof.
  intros H. unfold py_forward, py_adapter_world.
  repeat match goal with
         | |- context [JS.strict_eq (wm_type msg) ?s] =>
           destruct (JS.strict_eq (wm_type msg) s)
         end;
    cbn [on];
    repeat first [ rewrite lifecycle_push
                 | rewrite lifecycle_budgeted by auto ];
    rewrite ?(same_call_event r r' _ _ H); reflexivity.
Qed.

Lemma js_forward_log r rid l p : js_forward r (mkEvent "log" rid l p) = [].
Proof.
  unfold js_forward. rewrite js_adapter_world_log by reflexivity.
  rewrite lifecycle_push, lifecycle_budgeted by auto. reflexivity.
Qed.

(** One step of two JavaScript runners that differ in the budget. *)
Lemma js_same_control_step r js js' i :
  same_control js js' ->
  same_control (js_next js i) (js_next js' i)
  /\ flat_map (js_forward r) (js_events js' i)
     = flat_map (js_forward r) (js_events js i).
Proof.
  intros (H1 & H2 & H3 & H4 & H5 & H6 & H7 & H8 & H9).
  unfold same_control.
  js_unfold. rewrite H6, H7, H8. destruct i; cbn [fst snd].
  - destruct (SandboxRunner.listening js) eqn:E1;
      [|cbn; repeat split; congruence].
    destruct data as [data|]; [|cbn; repeat split; congruence].
    rewrite H2, H5.
    destruct (negb (fm_runner data)
              || negb (JS.strict_eq (fm_token data) (SandboxRunner.token js)));
      [cbn; repeat split; congruence|].
    destruct (SandboxRunner.finished js) eqn:E2;
      [cbn; repeat split; congruence|].
    destruct (JS.strict_eq (fm_type data) "log").
    + repeat match goal with
             | |- context [if ?c then _ else _] => destruct c eqn:?
             end; cbn -[js_forward]; rewrite ?js_forward_log;
        repeat split; congruence.
    + repeat match goal with
             | |- context [if ?c then _ else _] => destruct c eqn:?
             end; cbn -[js_forward]; rewrite ?H1; repeat split; congruence.
  - rewrite ?H3, ?H2.
    destruct (SandboxRunner.iframe js) eqn:E; cbn; rewrite ?H9;
      repeat split; congruence.
  - destruct (SandboxRunner.timer js) eqn:E; [|cbn; repeat split; congruence].
    cbn -[js_forward]. rewrite H5.
    destruct (SandboxRunner.finished js) eqn:E2; cbn -[js_forward];
      rewrite ?H1, ?H4; repeat split; congruence.
  - cbn; repeat split; congruence.
  - cbn; repeat split; congruence.
Qed.

Lemma js_fold_lifecycle r es : forall w,
  lifecycle (Virtualizer.delivered
               (fold_left (fun w e => js_adapter_world r e w) es w))
  = lifecycle (Virtualizer.delivered w) ++ flat_map (js_forward r) es.
Proof.
  induction es as [|e es IH]; intros w; cbn [fold_left flat_map].
  - now rewrite app_nil_r.
  - now rewrite IH, js_adapter_lifecycle, app_assoc.
Qed.

Lemma js_trace_lifecycle r r' ins : forall js js' w w',
  same_call r r' ->
  same_control js js' ->
  lifecycle (Virtualizer.delivered w') = lifecycle (Virtualizer.delivered w) ->
  lifecycle (Virtualizer.delivered (snd (js_trace r' js' ins w')))
  = lifecycle (Virtualizer.delivered (snd (js_trace r js ins w))).
Proof.
  induction ins as [|i ins IH]; intros js js' w w' Hr Hc Hw; [exact Hw|].
  cbn [js_trace].
  destruct (js_same_control_step r js js' i Hc) as [Hc' He].
  apply IH; [exact Hr | exact Hc' |].
  rewrite !js_fold_lifecycle, Hw. f_equal.
  rewrite <- He. apply flat_map_ext. intros e. now apply js_forward_same.
Qed.

Lemma py_turn_same r r' tok ph i w w' ph1 w1 ph1' w1' :
  same_call r r' ->
  py_turn r tok ph i w ph1 w1 ->
  py_turn r' tok ph i w' ph1' w1' ->
  lifecycle (Virtualizer.delivered w') = lifecycle (Virtualizer.delivered w) ->
  ph1' = ph1
  /\ lifecycle (Virtualizer.delivered w1')
     = lifecycle (Virtualizer.delivered w1).
Proof.
  intros Hr H1 H2 Hw.
  inversion H1; subst; inversion H2; subst;
    repeat match goal with
           | H : ?a = ?a -> _ |- _ => specialize (H eq_refl)
           | H : ?ph <> Disposed -> _, H' : ?ph <> Disposed |- _ =>
             specialize (H H')
           | H : Waiting <> Disposed -> _ |- _ =>
             specialize (H ltac:(discriminate))
           | H : forall d, WorkerMessage ?x = WorkerMessage d -> _ |- _ =>
             specialize (H x eq_refl)
           end;
    try congruence; try (split; [reflexivity | assumption]).
  - split; [reflexivity|].
    rewrite !py_adapter_lifecycle, Hw. f_equal. now apply py_forward_same.
  - split; [reflexivity|].
    rewrite !lifecycle_push, Hw. f_equal.
    now rewrite (same_call_event r r' _ _ Hr).
  - split; [reflexivity|].
    rewrite !lifecycle_push, Hw. f_equal.
    rewrite (same_call_event r r' _ _ Hr).
    destruct Hr as (_ & _ & -> & _). reflexivity.
Qed.

Lemma py_turns_same r r' tok ins : forall ph w w' ph1 w1 ph1' w1',
  same_call r r' ->
  py_turns r tok ph ins w ph1 w1 ->
  py_turns r' tok ph ins w' ph1' w1' ->
  lifecycle (Virtualizer.delivered w') = lifecycle (Virtualizer.delivered w) ->
  lifecycle (Virtualizer.delivered w1') = lifecycle (Virtualizer.delivered w1).
Proof.
  induction ins as [|i ins IH]; intros ph w w' ph1 w1 ph1' w1' Hr H1 H2 Hw;
    inversion H1; subst; inversion H2; subst; [exact Hw|].
  match goal with
  | Ha : py_turn r _ _ _ _ ?pa ?wa, Hb : py_turn r' _ _ _ _ ?pb ?wb |- _ =>
    destruct (py_turn_same _ _ _ _ _ _ _ _ _ _ _ Hr Ha Hb Hw) as [-> Hw']
  end.
  eapply IH; eauto.
Qed.

Lemma with_budget_same_call b options en :
  same_call (Virtualizer.resolve options en)
            (Virtualizer.resolve (with_budget b options) en).
Proof. destruct options as [o|]; cbn; now repeat split. Qed.

Lemma with_budget_language b options en :
  Virtualizer.language (Virtualizer.resolve (with_budget b options) en)
  = Virtualizer.language (Virtualizer.resolve options en).
Proof. now destruct options. Qed.

Lemma stream_lifecycle_budget b options onEvent en ins :
  lifecycle (Virtualizer.stream (with_budget b options) onEvent en ins)
  = lifecycle (Virtualizer.stream options onEvent en ins).
Proof.
  set (r := Virtualizer.resolve options en).
  set (r' := Virtualizer.resolve (with_budget b options) en).
  pose proof (with_budget_same_call b options en) as Hr. fold r r' in Hr.
  pose proof (with_budget_language b options en) as Hl. fold r r' in Hl.
  destruct (Virtualizer.is_javascript (Virtualizer.language r)) eqn:Hjs.
  - rewrite (stream_javascript options onEvent en ins Hjs).
    rewrite (stream_javascript (with_budget b options) onEvent en ins);
      [|fold r'; now rewrite Hl].
    fold r r'. clearbody r r'. apply js_trace_lifecycle; [exact Hr| |].
    + destruct Hr as (_ & _ & Ht & Hc). unfold same_control, js_start. cbn.
      rewrite Ht, Hc. now repeat split.
    + cbn. now rewrite !(same_call_event r r' _ _ Hr).
  - destruct (Virtualizer.is_python (Virtualizer.language r)) eqn:Hpy.
    + destruct (runCode_python options onEvent en ins Hjs Hpy)
        as (p & ph & w & Hrun & _ & Hturns).
      destruct (runCode_python (with_budget b options) onEvent en ins)
        as (p' & ph' & w' & Hrun' & _ & Hturns');
        [fold r'; now rewrite Hl | fold r'; now rewrite Hl |].
      unfold Virtualizer.stream. rewrite Hrun, Hrun'. cbn [snd].
      fold r in Hturns. fold r' in Hturns'. clearbody r r'.
      eapply py_turns_same; [exact Hr | exact Hturns | exact Hturns' |].
      cbn. now rewrite !(same_call_event r r' _ _ Hr).
    + unfold Virtualizer.stream.
      rewrite (runCode_unsupported options onEvent en ins Hjs Hpy).
      rewrite (runCode_unsupported (with_budget b options) onEvent en ins);
        [|fold r'; now rewrite Hl | fold r'; now rewrite Hl].
      fold r r'. clearbody r r'. cbn [snd Virtualizer.delivered].
      unfold unsupported_error. rewrite !(same_call_event r r' _ _ Hr).
      now rewrite Hl.
Qed.

Lemma stream_python_logs options onEvent en ins :
  let r := Virtualizer.resolve options en in
  Virtualizer.is_javascript (Virtualizer.language r) = false ->
  (count_type "log" (Virtualizer.stream options onEvent en ins) <= 1)%nat.
Proof.
  intros r Hjs.
  destruct (Virtualizer.is_python (Virtualizer.language r)) eqn:Hpy.
  - destruct (runCode_python options onEvent en ins Hjs Hpy)
      as (p & ph & w & Hrun & _ & Hturns).
    unfold Virtualizer.stream. rewrite Hrun. cbn [snd].
    assert (py_log_inv w) as Hinv.
    { eapply (py_turns_invariant _ _ (fun _ w => py_log_inv w));
        [|exact Hturns|reflexivity].
      intros. eapply py_log_turn; eauto. }
    unfold py_log_inv in Hinv. rewrite Hinv.
    destruct (Virtualizer.truncatedNotified w); lia.
  - unfold Virtualizer.stream.
    rewrite (runCode_unsupported options onEvent en ins Hjs Hpy).
    cbn. lia.
Qed.

Lemma budgetedEmit_delivers onEvent r ty text level w :
  Virtualizer.delivered
    (snd (Virtualizer.budgetedEmit onEvent r ty text level w))
  = Virtualizer.delivered w
    ++ (if Virtualizer.totalLogBytes w + JS.utf8_length (JS.or_else text "")
           <=? Virtualizer.maxLogBytes r
        then [event r ty (mkPayload (Some (JS.or_else text "")) (Some level)
                                    None None None)]
        else if Virtualizer.truncatedNotified w then []
             else [truncation_warning r]).
Proof.
  rewrite budgetedEmit_eq. cbn [snd]. unfold budgeted.
  destruct (_ <=? _); [reflexivity|].
  destruct (Virtualizer.truncatedNotified w); cbn; [now rewrite app_nil_r|].
  reflexivity.
Qed.

(** C3, as the code has it.  With a budget that is not negative, the text
    of the [stdout] and [stderr] events of a run never adds up to more than
    [maxLogBytes] bytes.  [budgetedEmit] forwards an output that fits in
    what is left of the budget, also after a truncation; it does not forward
    one that does not fit, and gives the truncation warning the first time
    that happens; a run that is not a JavaScript run holds at most one such
    warning.  The budget does not touch the life cycle: the events other
    than [stdout], [stderr] and [log] are the same under any budget. *)
Theorem output_budget :
  forall (options : option Virtualizer.Options)
         (onEvent : Virtualizer.Callback) (en : Virtualizer.Entropy)
         (ins : list Input),
    let r := Virtualizer.resolve options en in
    let es := Virtualizer.stream options onEvent en ins in
    (0 <= Virtualizer.maxLogBytes r -> out_bytes es <= Virtualizer.maxLogBytes r)
    /\ (forall ty text level w,
           Virtualizer.delivered
             (snd (Virtualizer.budgetedEmit onEvent r ty text level w))
           = Virtualizer.delivered w
             ++ (if Virtualizer.totalLogBytes w
                    + JS.utf8_length (JS.or_else text "")
                    <=? Virtualizer.maxLogBytes r
                 then [event r ty (mkPayload (Some (JS.or_else text ""))
                                             (Some level) None None None)]
                 else if Virtualizer.truncatedNotified w then []
                      else [truncation_warning r]))
    /\ (Virtualizer.is_javascript (Virtualizer.language r) = false ->
        (count_type "log" es <= 1)%nat)
    /\ (forall b,
           lifecycle (Virtualizer.stream (with_budget b options) onEvent en ins)
           = lifecycle es).
Proof.
  intros options onEvent en ins r es.
  split; [apply stream_budget|].
  split; [intros; apply budgetedEmit_delivers|].
  split; [apply stream_python_logs|].
  intros b. apply stream_lifecycle_budget.
Qed.

Lemma output_budget_witness :
  out_bytes (Virtualizer.stream (small_budget three_writes) well_behaved
                                sample_entropy
                                (sample_session three_writes_behaviour
                                                three_writes))
  <= 5
  /\ (count_type "log"
        (Virtualizer.stream (small_budget three_writes) well_behaved
                            sample_entropy
                            (sample_session three_writes_behaviour three_writes))
      <= 1)%nat.
Proof.
  split;
    apply (output_budget (small_budget three_writes) well_behaved
                         sample_entropy
                         (sample_session three_writes_behaviour three_writes));
    [cbn; lia | reflexivity].
Defined.

(** The claim C3 as the specification words it fails: with a budget of 5
    bytes, a Python program that writes "abcd", "xyz" and "z" has "abcd"
    forwarded, "xyz" answered by the truncation warning, and "z" forwarded
    after the warning. *)
Lemma output_resumes_after_truncation :
  ~ silent_after_truncation
      (Virtualizer.resolve (small_budget three_writes) sample_entropy)
      (Virtualizer.stream (small_budget three_writes) well_behaved
                          sample_entropy
                          (sample_session three_writes_behaviour three_writes)).
Proof.
  intros H.
  set (r := Virtualizer.resolve (small_budget three_writes) sample_entropy) in *.
  specialize
    (H [event r "init" no_payload; event r "done" no_payload;
        event r "start" no_payload;
        event r "stdout" (mkPayload (Some "abcd") (Some "info") None None None)]
       [event r "stdout" (mkPayload (Some "z") (Some "info") None None None);
        event r "result" (mkPayload None None None None (Some ""))]
       eq_refl).
  inversion H as [|e es He _]. discriminate He.
Qed.

(** ** The host-side timer of a Python run *)
Lemma py_submitted_stays r tok ins : forall w ph' w',
  ~ In Stop ins ->
  py_turns r tok Submitted ins w ph' w' -> ph' = Submitted.
Proof.
  induction ins as [|i ins IH]; intros w ph' w' Hns H; inversion H; subst;
    [reflexivity|].
  assert (ph1 = Submitted) as ->.
  { match goal with
    | Ht : py_turn _ _ Submitted _ _ _ _ |- _ => inversion Ht; subst; auto
    end.
    exfalso. apply Hns. now left. }
  eapply IH; [|eassumption]. intros Hin. apply Hns. now right.
Qed.

(** C2, what the code does instead.  In a Python run, once the [ready]
    message of the worker has been accepted the promise of [run] is settled:
    [done] is delivered and the host-side timer is cleared.  From then on no
    [timeout] is ever delivered, whatever the program does and however long
    it runs, and unless [stop] is called the executor keeps its worker. *)
Theorem python_timer_cleared_on_submission :
  forall (options : option Virtualizer.Options)
         (onEvent : Virtualizer.Callback) (en : Virtualizer.Entropy)
         (data : option WorkerMsg) (ins : list Input),
    let r := Virtualizer.resolve options en in
    Virtualizer.is_javascript (Virtualizer.language r) = false ->
    Virtualizer.is_python (Virtualizer.language r) = true ->
    host_accepts (py_token en) (data_of data) = true ->
    JS.strict_eq (wm_type (data_of data)) "ready" = true ->
    count_type "timeout"
               (Virtualizer.stream options onEvent en (WorkerMessage data :: ins))
    = 0%nat
    /\ (~ In Stop ins ->
        exists p,
          fst (Virtualizer.runCode options onEvent en (WorkerMessage data :: ins))
          = Returned (Virtualizer.Python p)
          /\ pending_timer (Virtualizer.Python p) = None
          /\ PythonExecutor.worker (Virtualizer.py p) = true).
Proof.
  intros options onEvent en data ins r Hjs Hpy Hacc Hready.
  destruct (runCode_python options onEvent en (WorkerMessage data :: ins) Hjs Hpy)
    as (p & ph & w & Hrun & Hph & Hturns).
  unfold Virtualizer.stream. rewrite Hrun. cbn [fst snd]. fold r in Hturns, Hph.
  inversion Hturns as [|? ? ? ph1 w1 ? ? ? Hturn Hrest]; subst.
  assert (ph1 = Submitted
          /\ w1 = push (event r "done" no_payload)
                       (push (event r "init" no_payload) Virtualizer.initial))
    as [-> ->].
  { inversion Hturn; subst; auto.
    - match goal with
      | H : Waiting = Waiting -> _ |- _ => specialize (H eq_refl); congruence
      end.
    - match goal with
      | H : Waiting <> Disposed -> _ |- _ =>
        specialize (H ltac:(discriminate) data eq_refl); congruence
      end. }
  split.
  - rewrite (py_no_timeout_turns r _ ins Submitted _ ph w
                                  ltac:(discriminate) Hrest).
    reflexivity.
  - intros Hns.
    rewrite (py_submitted_stays r _ ins _ _ _ Hns Hrest) in Hph.
    cbn [in_phase] in Hph. destruct Hph as (_ & _ & Ht & Hw).
    exists p. now repeat split.
Qed.

Lemma python_timer_cleared_on_submission_witness :
  count_type "timeout"
    (Virtualizer.stream (options_for "python" infinite_loop) well_behaved
                        sample_entropy
                        (sample_session infinite_loop_behaviour infinite_loop
                         ++ [TimerFires]))
  = 0%nat
  /\ (~ In Stop [WorkerMessage
                   (Some (mkWorkerMsg (Some "start")
                                      (Some (py_token sample_entropy))
                                      (Some "py_h6j4k2") None None None));
                 TimerFires] ->
      exists p,
        fst (Virtualizer.runCode (options_for "python" infinite_loop)
                                 well_behaved sample_entropy
                                 (sample_session infinite_loop_behaviour
                                                 infinite_loop
                                  ++ [TimerFires]))
        = Returned (Virtualizer.Python p)
        /\ pending_timer (Virtualizer.Python p) = None
        /\ PythonExecutor.worker (Virtualizer.py p) = true).
Proof.
  apply (python_timer_cleared_on_submission
           (options_for "python" infinite_loop) well_behaved sample_entropy
           (Some (mkWorkerMsg (Some "ready") (Some (py_token sample_entropy))
                              None None None None))
           [WorkerMessage
              (Some (mkWorkerMsg (Some "start") (Some (py_token sample_entropy))
                                 (Some "py_h6j4k2") None None None));
            TimerFires]);
    reflexivity.
Defined.

(** The sample run of the infinite loop, event by event: the worker gets to
    post [ready] and [start], the consumer gets [init], [done], [start],
    and the timer, cleared with [done], has nothing to fire. *)
Example infinite_loop_stream :
  sample_session infinite_loop_behaviour infinite_loop
  = deliveries
      [mkWorkerMsg (Some "ready") (Some (py_token sample_entropy))
                   None None None None;
       mkWorkerMsg (Some "start") (Some (py_token sample_entropy))
                   (Some "py_h6j4k2") None None None]
  /\ map ev_type
         (Virtualizer.stream (options_for "python" infinite_loop) well_behaved
                             sample_entropy
                             (sample_session infinite_loop_behaviour
                                             infinite_loop
                              ++ [TimerFires]))
     = ["init"; "done"; "start"].
Proof. split; reflexivity. Qed.

(** ** The session token *)
Lemma host_drops_foreign {W} (ex : PythonExecutor.Executor W) msg w :
  JS.truthy (wm_token msg) = true ->
  wm_token msg <> Some (PythonExecutor.token ex) ->
  PythonExecutor.onmessage ex (Some msg) w = (Returned (ex, []), w).
Proof.
  intros Ht Hne. unfold PythonExecutor.onmessage. rewrite Ht.
  assert (JS.strict_eq (wm_token msg) (PythonExecutor.token ex) = false) as ->;
    [|reflexivity].
  destruct (wm_token msg) as [t|]; [|reflexivity]. cbn.
  apply String.eqb_neq. congruence.
Qed.

Lemma host_dispatches_tokenless {W} (ex : PythonExecutor.Executor W) msg w :
  JS.truthy (wm_token msg) = false ->
  snd (PythonExecutor.onmessage ex (Some msg) w)
  = invoke_all msg (PythonExecutor.listeners ex) w.
Proof.
  intros Ht. unfold PythonExecutor.onmessage. rewrite Ht. cbn [andb].
  unfold bind.
  match goal with
  | |- context [PythonExecutor.dispatch msg ?ls ?e ?k w] =>
    destruct (dispatch_spec msg ls e k w) as [x ->]
  end.
  cbn. now destruct (JS.strict_eq (wm_type msg) "ready").
Qed.

Lemma worker_drops_foreign rt st msg :
  JS.strict_eq (hm_type msg) "run" = true ->
  PyWorker.initialized st = true ->
  JS.truthy (hm_token msg) = false \/ hm_token msg <> PyWorker.currentToken st ->
  PyWorker.onmessage rt st (Some msg) = (st, []).
Proof.
  intros Hty Hinit Htok. unfold PyWorker.onmessage.
  assert (JS.strict_eq (hm_type msg) "init" = false) as ->.
  { destruct (hm_type msg) as [t|]; [|discriminate]. cbn in *.
    apply String.eqb_eq in Hty. now subst. }
  rewrite Hty. unfold PyWorker.loadPyodideIfNeeded. rewrite Hinit.
  destruct Htok as [Hf | Hne]; [now rewrite Hf|].
  destruct (JS.truthy (hm_token msg)); [|reflexivity].
  destruct (PyWorker.currentToken st) as [t|]; [|reflexivity].
  assert (JS.strict_eq (hm_token msg) t = false) as ->; [|reflexivity].
  destruct (hm_token msg) as [t'|]; [|reflexivity]. cbn.
  apply String.eqb_neq. congruence.
Qed.

Lemma py_steps_token onEvent r ins : forall p ph w p' w',
  in_phase onEvent r p ph ->
  Virtualizer.steps onEvent r (Virtualizer.Python p) ins w
  = (Returned (Virtualizer.Python p'), w') ->
  PythonExecutor.token (Virtualizer.py p')
  = PythonExecutor.token (Virtualizer.py p).
Proof.
  induction ins as [|i ins IH]; intros p ph w p' w' Hph H.
  - cbn in H. now inversion H.
  - destruct (py_run_step onEvent r p ph i w Hph)
      as (p1 & ph1 & w1 & Hstep & Hph1 & Htok & _).
    cbn [Virtualizer.steps] in H.
    rewrite (bind_returned _ _ _ _ _ Hstep) in H.
    rewrite <- Htok. eapply IH; eauto.
Qed.

Lemma step_foreign onEvent r run msg w :
  JS.truthy (wm_token msg) = true ->
  (forall p, run = Virtualizer.Python p ->
             wm_token msg <> Some (PythonExecutor.token (Virtualizer.py p))) ->
  Virtualizer.step onEvent r run (WorkerMessage (Some msg)) w
  = (Returned run, w).
Proof.
  intros Ht Hne. destruct run as [js|p|]; try reflexivity.
  cbn [Virtualizer.step]. unfold Virtualizer.py_message, bind.
  rewrite (host_drops_foreign _ _ _ Ht (Hne p eq_refl)).
  now destruct p.
Qed.

Lemma stream_skips_foreign options onEvent en a b msg :
  JS.truthy (wm_token msg) = true ->
  wm_token msg <> Some (py_token en) ->
  Virtualizer.stream options onEvent en (a ++ WorkerMessage (Some msg) :: b)
  = Virtualizer.stream options onEvent en (a ++ b).
Proof.
  intros Ht Hne. unfold Virtualizer.stream. rewrite !runCode_app.
  set (r := Virtualizer.resolve options en).
  destruct (Virtualizer.runCode options onEvent en a) as [[run|] w] eqn:Hrun;
    [|reflexivity].
  cbn [Virtualizer.steps]. rewrite (bind_returned _ _ _ run w); [reflexivity|].
  apply step_foreign; [exact Ht|].
  intros p ->.
  destruct (Virtualizer.is_javascript (Virtualizer.language r)) eqn:Hjs.
  { rewrite (runCode_javascript options onEvent en a Hjs) in Hrun.
    discriminate. }
  destruct (Virtualizer.is_python (Virtualizer.language r)) eqn:Hpy.
  2:{ rewrite (runCode_unsupported options onEvent en a Hjs Hpy) in Hrun.
      discriminate. }
  assert (PythonExecutor.token (Virtualizer.py p) = py_token en) as ->;
    [|exact Hne].
  revert Hrun. unfold Virtualizer.runCode. fold r.
  unfold Virtualizer.runCode_body. rewrite Hjs, Hpy.
  unfold bind at 1. unfold bind at 1. rewrite emit_eq.
  cbn -[Virtualizer.steps Virtualizer.py_adapter].
  intros Hsteps.
  eapply (py_steps_token onEvent r a _ Waiting) in Hsteps.
  - rewrite Hsteps. reflexivity.
  - cbn. repeat split; auto.
    exists 1%nat, (Virtualizer.code r), (Virtualizer.rnd_pyrun en).
    split; [reflexivity | discriminate].
Qed.

(** C5, as the code has it.  The host wrapper drops every message that
    carries a token other than the session token: no listener is called
    and the executor is left as it was, so that such a message changes
    nothing in the stream of a run.  A message with no token, or an empty
    one, is not dropped: every listener is called with it.  The worker,
    once its interpreter is loaded, drops every [run] message that carries
    no token or a token other than the current one: it posts nothing and
    its state is unchanged. *)
Theorem foreign_token_messages_dropped :
  (forall (W : Type) (ex : PythonExecutor.Executor W) msg w,
      JS.truthy (wm_token msg) = true ->
      wm_token msg <> Some (PythonExecutor.token ex) ->
      PythonExecutor.onmessage ex (Some msg) w = (Returned (ex, []), w))
  /\ (forall options onEvent en a b msg,
         JS.truthy (wm_token msg) = true ->
         wm_token msg <> Some (py_token en) ->
         Virtualizer.stream options onEvent en
                            (a ++ WorkerMessage (Some msg) :: b)
         = Virtualizer.stream options onEvent en (a ++ b))
  /\ (forall (W : Type) (ex : PythonExecutor.Executor W) msg w,
         JS.truthy (wm_token msg) = false ->
         snd (PythonExecutor.onmessage ex (Some msg) w)
         = invoke_all msg (PythonExecutor.listeners ex) w)
  /\ (forall rt st msg,
         JS.strict_eq (hm_type msg) "run" = true ->
         PyWorker.initialized st = true ->
         JS.truthy (hm_token msg) = false
         \/ hm_token msg <> PyWorker.currentToken st ->
         PyWorker.onmessage rt st (Some msg) = (st, [])).
Proof.
  split; [intros; now apply host_drops_foreign|].
  split; [intros; now apply stream_skips_foreign|].
  split; [intros; now apply host_dispatches_tokenless|].
  intros; now apply worker_drops_foreign.
Qed.

Lemma foreign_token_messages_dropped_witness :
  Virtualizer.stream (options_for "python" three_writes) well_behaved
                     sample_entropy
                     ([] ++ WorkerMessage (Some foreign_stdout)
                         :: sample_session three_writes_behaviour three_writes)
  = Virtualizer.stream (options_for "python" three_writes) well_behaved
                       sample_entropy
                       ([] ++ sample_session three_writes_behaviour three_writes).
Proof.
  apply (proj1 (proj2 foreign_token_messages_dropped));
    [reflexivity | discriminate].
Defined.

(** The claim C5 as the specification words it fails for a message that
    carries no token at all: the host wrapper hands it to its listeners. *)
Lemma tokenless_message_is_not_dropped :
  ~ (forall token msg, wm_token msg <> Some token -> host_drops token msg).
Proof.
  intros H.
  specialize (H "q8w2e4.1730000000000" tokenless_stdout ltac:(discriminate)
                nat
                (fst (PythonExecutor.onMessage
                        counting
                        (PythonExecutor.new (PythonExecutor.mkOptions None)
                                            "q8w2e4" "1730000000000")))
                0%nat eq_refl).
  discriminate H.
Qed.

(** The same message in a run: it surfaces as a [stdout] event. *)
Example tokenless_message_surfaces :
  map ev_type
      (Virtualizer.stream (options_for "python" three_writes) well_behaved
                          sample_entropy
                          [WorkerMessage (Some tokenless_stdout)])
  = ["init"; "stdout"].
Proof. reflexivity. Qed.

(** ** The worker's handling of [run] *)
Lemma worker_accepts rt st msg :
  JS.strict_eq (hm_type msg) "run" = true ->
  PyWorker.initialized st = true ->
  JS.truthy (hm_token msg) = true ->
  hm_token msg = PyWorker.currentToken st ->
  PyWorker.onmessage rt st (Some msg) = (st, PyWorker.run_accepted rt st msg).
Proof.
  intros Hty Hinit Ht Heq. unfold PyWorker.onmessage.
  assert (JS.strict_eq (hm_type msg) "init" = false) as ->.
  { destruct (hm_type msg) as [t|]; [|discriminate]. cbn in *.
    apply String.eqb_eq in Hty. now subst. }
  rewrite Hty. unfold PyWorker.loadPyodideIfNeeded. rewrite Hinit, Ht.
  rewrite <- Heq. destruct (hm_token msg) as [t|]; [|discriminate].
  cbn. now rewrite String.eqb_refl.
Qed.

Lemma posts_of_type_app t a b :
  posts_of_type t (a ++ b) = (posts_of_type t a + posts_of_type t b)%nat.
Proof. unfold posts_of_type. now rewrite filter_app, length_app. Qed.

Lemma writes_post_no t st runId ws :
  t <> "stdout" -> t <> "stderr" ->
  posts_of_type t (flat_map (PyWorker.write st runId) ws) = 0%nat.
Proof.
  intros H1 H2. induction ws as [|[s x] ws IH]; [reflexivity|].
  cbn [flat_map]. rewrite posts_of_type_app, IH.
  unfold PyWorker.write. cbn [fst snd].
  destruct (String.eqb x ""); [reflexivity|].
  unfold posts_of_type.
  destruct s; cbn -[String.eqb];
    match goal with
    | |- context [String.eqb ?a ?b] =>
      destruct (String.eqb_spec a b); [congruence | reflexivity]
    end.
Qed.

(** C7, as the code has it.  For every [run] message it accepts, the worker
    exposes the bridge, posts [start], then installs the redirection of
    [sys.stdout] and [sys.stderr] and evaluates the code, posting every
    non-empty write as it goes; when the evaluation ends it posts one
    message more: [result] with the text of the final value (the empty
    string for a null or undefined value), or [error] with the message of
    the exception.  So [start] is posted once, and exactly one [result] or
    [error] follows it unless the evaluation never ends, in which case none
    does. *)
Theorem worker_run_protocol :
  forall (rt : PyWorker.Runtime) (st : PyWorker.State) (msg : HostMsg),
    JS.strict_eq (hm_type msg) "run" = true ->
    PyWorker.initialized st = true ->
    JS.truthy (hm_token msg) = true ->
    hm_token msg = PyWorker.currentToken st ->
    PyWorker.redirect rt = None ->
    let runId := if JS.truthy (hm_runId msg) then hm_runId msg else None in
    let code := JS.or_else (hm_code msg) "" in
    let b := PyWorker.runPythonAsync rt code in
    let reply type value message :=
      PyWorker.Post (mkWorkerMsg (Some type) (PyWorker.currentToken st) runId
                                 None value message) in
    let effs := snd (PyWorker.onmessage rt st (Some msg)) in
    fst (PyWorker.onmessage rt st (Some msg)) = st
    /\ effs
       = [PyWorker.SetBridge; reply "start" None None;
          PyWorker.InstallRedirect; PyWorker.Evaluate code]
         ++ flat_map (PyWorker.write st runId) (PyWorker.writes b)
         ++ match PyWorker.completion b with
            | PyWorker.Value v => [reply "result" (Some (value_text v)) None]
            | PyWorker.Raises err =>
              [reply "error" None (Some (PyWorker.error_text err))]
            | PyWorker.Diverges => []
            end
    /\ posts_of_type "start" effs = 1%nat
    /\ (posts_of_type "result" effs + posts_of_type "error" effs)%nat
       = match PyWorker.completion b with
         | PyWorker.Diverges => 0%nat
         | _ => 1%nat
         end
    /\ (forall err m,
           PyWorker.completion b = PyWorker.Raises err ->
           PyWorker.exn_message err = Some m -> m <> "" ->
           PyWorker.error_text err = m).
Proof.
  intros rt st msg Hty Hinit Ht Heq Hred runId code b reply effs.
  subst effs. rewrite (worker_accepts rt st msg Hty Hinit Ht Heq).
  cbn [fst snd]. split; [reflexivity|].
  assert (PyWorker.run_accepted rt st msg
          = [PyWorker.SetBridge; reply "start" None None;
             PyWorker.InstallRedirect; PyWorker.Evaluate code]
            ++ flat_map (PyWorker.write st runId) (PyWorker.writes b)
            ++ match PyWorker.completion b with
               | PyWorker.Value v => [reply "result" (Some (value_text v)) None]
               | PyWorker.Raises err =>
                 [reply "error" None (Some (PyWorker.error_text err))]
               | PyWorker.Diverges => []
               end) as Heffs.
  { unfold PyWorker.run_accepted. rewrite Hred. reflexivity. }
  split; [exact Heffs|].
  split; [apply worker_one_start|].
  split.
  - rewrite Heffs, !posts_of_type_app.
    rewrite !writes_post_no by discriminate.
    destruct (PyWorker.completion b); reflexivity.
  - intros err m _ Hm Hne. unfold PyWorker.error_text. rewrite Hm. cbn.
    apply String.eqb_neq in Hne. now rewrite Hne.
Qed.

Lemma worker_run_protocol_witness :
  posts_of_type "start"
    (snd (PyWorker.onmessage (pyodide three_writes_behaviour) sample_worker
                             (Some (sample_run_msg three_writes))))
  = 1%nat
  /\ (posts_of_type "result"
        (snd (PyWorker.onmessage (pyodide three_writes_behaviour) sample_worker
                                 (Some (sample_run_msg three_writes))))
      + posts_of_type "error"
          (snd (PyWorker.onmessage (pyodide three_writes_behaviour)
                                   sample_worker
                                   (Some (sample_run_msg three_writes)))))%nat
     = 1%nat.
Proof.
  split;
    apply (worker_run_protocol (pyodide three_writes_behaviour) sample_worker
                               (sample_run_msg three_writes));
    reflexivity.
Defined.

(** The claim C7 as the specification words it fails twice: the worker
    posts [start] before it installs the redirection, not after; and when
    the evaluation never ends no [result] and no [error] follows [start]. *)
Lemma start_is_posted_before_redirection :
  ~ redirect_before_start
      (snd (PyWorker.onmessage (pyodide three_writes_behaviour) sample_worker
                               (Some (sample_run_msg three_writes))))
  /\ (posts_of_type "result"
        (snd (PyWorker.onmessage (pyodide infinite_loop_behaviour)
                                 sample_worker
                                 (Some (sample_run_msg infinite_loop))))
      + posts_of_type "error"
          (snd (PyWorker.onmessage (pyodide infinite_loop_behaviour)
                                   sample_worker
                                   (Some (sample_run_msg infinite_loop)))))%nat
     = 0%nat.
Proof.
  split; [|reflexivity].
  intros (i & j & Hi & Hj & Hlt).
  vm_compute in Hi, Hj. inversion Hi; inversion Hj; subst. lia.
Qed.

(** ** The snippet service *)

Lemma insert_perm (x : Server.Snippet) sorted :
  Permutation (Server.insert Server.newest_first x sorted) (x :: sorted).
Proof.
  induction sorted as [|y sorted IH]; cbn; [reflexivity|].
  destruct (_ <? 0); [reflexivity|].
  rewrite IH. apply perm_swap.
Qed.

Lemma insert_sorted (x : Server.Snippet) sorted :
  StronglySorted newer_or_equal sorted ->
  StronglySorted newer_or_equal (Server.insert Server.newest_first x sorted).
Proof.
  induction 1 as [|y sorted Hs IH Hy]; cbn.
  - repeat constructor.
  - destruct (Z.ltb_spec (Server.newest_first x y) 0) as [Hlt|Hge];
      unfold Server.newest_first in *.
    + constructor; [now constructor|].
      constructor; [unfold newer_or_equal; lia|].
      eapply Forall_impl; [|exact Hy].
      unfold newer_or_equal. intros z Hz. lia.
    + constructor; [exact IH|].
      eapply Permutation_Forall; [symmetry; apply insert_perm|].
      constructor; [unfold newer_or_equal; lia | exact Hy].
Qed.

Lemma sort_spec (xs : list Server.Snippet) :
  forall acc,
    StronglySorted newer_or_equal acc ->
    StronglySorted newer_or_equal
      (fold_left (fun sorted x => Server.insert Server.newest_first x sorted)
                 xs acc)
    /\ Permutation
         (fold_left (fun sorted x => Server.insert Server.newest_first x sorted)
                    xs acc)
         (xs ++ acc).
Proof.
  induction xs as [|x xs IH]; intros acc Hacc; cbn [fold_left app].
  - now split.
  - destruct (IH _ (insert_sorted x acc Hacc)) as [Hs Hp].
    split; [exact Hs|].
    rewrite Hp. rewrite insert_perm. symmetry. apply Permutation_middle.
Qed.

Lemma in_firstn {A} n (xs : list A) x : In x (firstn n xs) -> In x xs.
Proof.
  intros H. rewrite <- (firstn_skipn n xs). apply in_or_app. now left.
Qed.

Lemma firstn_sorted (R : Server.Snippet -> Server.Snippet -> Prop) n :
  forall xs, StronglySorted R xs -> StronglySorted R (firstn n xs).
Proof.
  induction n as [|n IH]; intros xs H; [constructor|].
  destruct H as [|x xs Hs Hx]; cbn; [constructor|].
  constructor; [now apply IH|].
  rewrite Forall_forall in *. intros y Hy. apply Hx.
  eapply in_firstn; eauto.
Qed.

(** GET /api/snippets answers with at most 100 snippets of the store,
    newest first. *)
Lemma list_snippets_newest_first all :
  exists snippets,
    Server.list_snippets all = Server.mkResponse 200 (Server.CList snippets)
    /\ StronglySorted newer_or_equal snippets
    /\ (List.length snippets <= 100)%nat
    /\ (forall s, In s snippets -> In s (Server.values all))
    /\ (List.length (Server.values all) <= 100 ->
        Permutation snippets (Server.values all))%nat.
Proof.
  unfold Server.list_snippets. eexists. split; [reflexivity|].
  destruct (sort_spec (Server.values all) [] ltac:(constructor)) as [Hs Hp].
  fold (Server.sort Server.newest_first (Server.values all)) in Hs, Hp.
  rewrite app_nil_r in Hp.
  split; [now apply firstn_sorted|].
  split; [apply firstn_le_length|].
  split.
  - intros s Hin. eapply Permutation_in; [exact Hp|].
    eapply in_firstn; eauto.
  - intros Hlen. rewrite firstn_all2; [exact Hp|].
    now rewrite (Permutation_length Hp).
Qed.

(** POST /api/snippets refuses a code that is not a string or is longer
    than 200000 code units, and stores nothing. *)
Lemma post_snippet_rejects all body new_id now :
  let code :=
    match body with
    | Some b => match Server.b_code b with Some c => c | None => Server.JStr "" end
    | None => Server.JStr ""
    end in
  (forall s, code = Server.JStr s -> 200000 < JS.length s) ->
  Server.post_snippet all body new_id now
  = (all, Server.mkResponse 400 (Server.CError "Invalid code")).
Proof.
  intros code H. unfold Server.post_snippet.
  assert (match Server.b_code
                  match body with
                  | Some b => b
                  | None => Server.mkBody None None None
                  end
          with
          | Some c => c
          | None => Server.JStr ""
          end = code) as ->.
  { unfold code. now destruct body. }
  destruct code as [| | |s| |]; try reflexivity.
  specialize (H s eq_refl).
  destruct (Z.gtb_spec (JS.length s) 200000); [reflexivity | lia].
Qed.

Lemma own_define all k v :
  Server.own (Server.define all k v) k = Some v.
Proof.
  induction all as [|[k1 v1] all IH]; cbn.
  - now rewrite String.eqb_refl.
  - destruct (String.eqb_spec k1 k) as [->|Hne].
    + cbn. now rewrite String.eqb_refl.
    + destruct (Server.precedes k1 k); cbn.
      * apply String.eqb_neq in Hne. now rewrite Hne.
      * now rewrite String.eqb_refl.
Qed.

(** Otherwise it answers with the generated id, under which the snippet is
    stored. *)
Lemma post_snippet_accepts all body new_id now s :
  match body with
  | Some b => match Server.b_code b with Some c => c | None => Server.JStr "" end
  | None => Server.JStr ""
  end = Server.JStr s ->
  JS.length s <= 200000 ->
  snd (Server.post_snippet all body new_id now)
  = Server.mkResponse 200 (Server.CId new_id)
  /\ (new_id <> "__proto__" ->
      exists snip,
        Server.own (fst (Server.post_snippet all body new_id now)) new_id
        = Some snip
        /\ Server.id snip = new_id /\ Server.code snip = s
        /\ Server.createdAt snip = Some now).
Proof.
  intros Hcode Hlen. unfold Server.post_snippet.
  assert (match Server.b_code
                  match body with
                  | Some b => b
                  | None => Server.mkBody None None None
                  end
          with
          | Some c => c
          | None => Server.JStr ""
          end = Server.JStr s) as ->.
  { rewrite <- Hcode. now destruct body. }
  destruct (Z.gtb_spec (JS.length s) 200000); [lia|].
  cbn [fst snd]. split; [reflexivity|].
  intros Hne. unfold Server.set.
  apply String.eqb_neq in Hne. rewrite Hne. cbn [andb].
  eexists. split; [apply own_define|]. now repeat split.
Qed.

(** GET /api/snippets/:id answers 404 for an id that is neither stored nor
    a name of [Object.prototype]. *)
Lemma get_snippet_absent all id :
  Server.own all id = None ->
  Server.inherited id = false ->
  Server.get_snippet all id
  = Server.mkResponse 404 (Server.CError "Not found").
Proof.
  intros Hown Hinh. unfold Server.get_snippet, Server.get.
  now rewrite Hown, Hinh.
Qed.

(** C8, where the code departs from it.  For an id under which no snippet
    is stored but which names a member of [Object.prototype], [all[id]] is
    that member, which is truthy: GET /api/snippets/:id answers 200, not
    404. *)
Theorem get_snippet_inherited_name :
  forall (all : Server.Store) (id : string),
    Server.own all id = None ->
    Server.inherited id = true ->
    Server.status (Server.get_snippet all id) = 200
    /\ Server.content (Server.get_snippet all id) = Server.CInherited id.
Proof.
  intros all id Hown Hinh. unfold Server.get_snippet, Server.get.
  now rewrite Hown, Hinh.
Qed.

Lemma get_snippet_inherited_name_witness :
  Server.status (Server.get_snippet sample_store "constructor") = 200
  /\ Server.content (Server.get_snippet sample_store "constructor")
     = Server.CInherited "constructor".
Proof.
  apply (get_snippet_inherited_name sample_store "constructor"); reflexivity.
Defined.

(** ** Exceptions of callbacks *)

(** C10.  An exception thrown by the consumer's [onEvent] callback, or by a
    listener registered on the Python executor, never leaves the runner or
    the executors, and costs the run no event: [runCode] and every later
    handler return normally whatever the callback does; the callback is
    called with exactly the events a callback that never throws is called
    with; [runJavaScript] and each of its steps return, for any callback,
    the state and hand over the events that do not depend on what the
    callback does; the dispatch of the Python executor returns and calls
    every listener, each on the store its predecessor left, for any
    listeners. *)
Theorem callback_exceptions_contained :
  forall (options : option Virtualizer.Options)
         (onEvent : Virtualizer.Callback) (en : Virtualizer.Entropy)
         (ins : list Input),
    (exists run,
        fst (Virtualizer.runCode options onEvent en ins) = Returned run)
    /\ Virtualizer.stream options onEvent en ins
       = Virtualizer.stream options well_behaved en ins
    /\ (forall (W : Type) (cb : Event -> M W unit) code opts r1 r2 now,
           total (SandboxRunner.runJavaScript cb code opts r1 r2 now))
    /\ (forall (W : Type) (cb : Event -> M W unit) js i w,
           SandboxRunner.step cb js i w
           = (Returned (js_next js i), deliver cb (js_events js i) w))
    /\ (forall (W : Type) (ex : PythonExecutor.Executor W) data,
           total (PythonExecutor.onmessage ex data))
    /\ (forall (W : Type) msg (ex : PythonExecutor.Executor W) woken w,
           exists x,
             PythonExecutor.dispatch msg (PythonExecutor.listeners ex) ex woken w
             = (Returned x, invoke_all msg (PythonExecutor.listeners ex) w)).
Proof.
  intros options onEvent en ins.
  split; [|split; [|split; [|split; [|split]]]].
  - apply runCode_returns.
  - unfold Virtualizer.stream. now rewrite runCode_callback.
  - intros W cb code opts r1 r2 now. apply total_runJavaScript.
  - intros W cb js i w. apply js_step_spec.
  - intros W ex data. apply total_onmessage.
  - intros W msg ex woken w. apply dispatch_spec.
Qed.

(** ** What is stored can be read back *)

Lemma post_snippet_stores all body new_id now s :
  body_code body = Server.JStr s ->
  JS.length s <= 200000 ->
  Server.post_snippet all body new_id now
  = (Server.set all new_id
                (Server.mkSnippet new_id s (body_language body) (body_meta body)
                                  (Some now)),
     Server.mkResponse 200 (Server.CId new_id)).
Proof.
  intros Hcode Hlen. unfold Server.post_snippet.
  unfold body_code, body_language, body_meta in *.
  destruct body as [b|]; cbn in *.
  - rewrite Hcode. destruct (Z.gtb_spec (JS.length s) 200000); [lia|reflexivity].
  - injection Hcode as <-. reflexivity.
Qed.

Lemma ten_characters_not_proto k :
  JS.length k = 10 -> String.eqb k "__proto__" = false.
Proof.
  intros H. apply String.eqb_neq. intros ->. discriminate H.
Qed.

Lemma own_define_other all k v k' :
  k' <> k -> Server.own (Server.define all k v) k' = Server.own all k'.
Proof.
  intros Hne. induction all as [|[k1 v1] all IH]; cbn.
  - destruct (String.eqb_spec k k'); [congruence|reflexivity].
  - destruct (String.eqb_spec k1 k) as [->|Hk1].
    + cbn. destruct (String.eqb_spec k k'); [congruence|reflexivity].
    + destruct (Server.precedes k1 k); cbn.
      * destruct (String.eqb k1 k'); [reflexivity|exact IH].
      * destruct (String.eqb_spec k k'); [congruence|reflexivity].
Qed.

Lemma own_set_other all k v k' :
  k' <> k -> Server.own (Server.set all k v) k' = Server.own all k'.
Proof.
  intros Hne. unfold Server.set.
  destruct (_ && _); [reflexivity|now apply own_define_other].
Qed.

Lemma values_define all k v s :
  In s (Server.values (Server.define all k v)) ->
  s = v \/ In s (Server.values all).
Proof.
  unfold Server.values.
  induction all as [|[k1 v1] all IH]; cbn.
  - intros [<-|[]]. now left.
  - destruct (String.eqb k1 k); cbn.
    + intros [<-|H]; auto.
    + destruct (Server.precedes k1 k); cbn.
      * intros [<-|H]; auto. destruct (IH H); auto.
      * intros [<-|[<-|H]]; auto.
Qed.

Lemma define_holds all k v : In v (Server.values (Server.define all k v)).
Proof.
  unfold Server.values.
  induction all as [|[k1 v1] all IH]; cbn; [now left|].
  destruct (String.eqb k1 k); cbn; [now left|].
  destruct (Server.precedes k1 k); cbn; [now right | now left].
Qed.

(** X1.  A snippet that [POST /api/snippets] accepts can be read back.
    When the [code] of the body, after the defaults, is a string of at most
    200000 characters and the id drawn has ten characters, [GET
    /api/snippets/:id] with that id answers 200 with the snippet just
    stored: the id, the code, the [language] and the [meta] of the body
    (python and an empty object when left out) and the time of the POST. *)
Theorem post_then_get_snippet :
  forall (all : Server.Store) (body : option Server.Body) (new_id : string)
         (now : Z) (s : string),
    body_code body = Server.JStr s ->
    JS.length s <= 200000 ->
    JS.length new_id = 10 ->
    Server.get_snippet (posted_store all body new_id now) new_id
    = Server.mkResponse 200
        (Server.CSnippet
           (Server.mkSnippet new_id s (body_language body) (body_meta body)
                             (Some now))).
Proof.
  intros all body new_id now s Hcode Hlen Hid. unfold posted_store.
  rewrite (post_snippet_stores all body new_id now s Hcode Hlen). cbn [fst].
  unfold Server.set. rewrite (ten_characters_not_proto _ Hid). cbn [andb].
  unfold Server.get_snippet, Server.get. now rewrite own_define.
Qed.

Lemma post_then_get_snippet_witness :
  Server.get_snippet
    (posted_store sample_store
       (Some (Server.mkBody (Some (Server.JStr "print(2)")) None None))
       "a1B2c3D4e5" 1730000000001)
    "a1B2c3D4e5"
  = Server.mkResponse 200
      (Server.CSnippet
         (Server.mkSnippet "a1B2c3D4e5" "print(2)" (Server.JStr "python")
                           (Server.JObj "{}") (Some 1730000000001))).
Proof.
  apply (post_then_get_snippet sample_store
           (Some (Server.mkBody (Some (Server.JStr "print(2)")) None None))
           "a1B2c3D4e5" 1730000000001 "print(2)");
    [reflexivity | vm_compute; discriminate | reflexivity].
Defined.

(** X2.  A POST, accepted or not, changes what [GET
    /api/snippets/:id] answers for no id but the one drawn for it. *)
Theorem post_keeps_other_snippets :
  forall (all : Server.Store) (body : option Server.Body) (new_id : string)
         (now : Z) (id : string),
    id <> new_id ->
    Server.get_snippet (posted_store all body new_id now) id
    = Server.get_snippet all id.
Proof.
  intros all body new_id now id Hne.
  unfold Server.get_snippet, Server.get.
  enough (Server.own (posted_store all body new_id now) id = Server.own all id)
    as -> by reflexivity.
  unfold posted_store, Server.post_snippet.
  destruct (match Server.b_code _ with Some c => c | None => _ end);
    try reflexivity.
  destruct (_ >? _); [reflexivity|]. cbn [fst].
  now apply own_set_other.
Qed.

Lemma post_keeps_other_snippets_witness :
  Server.get_snippet
    (posted_store sample_store
       (Some (Server.mkBody (Some (Server.JStr "print(2)")) None None))
       "a1B2c3D4e5" 1730000000001)
    "V1StGXR8_Z"
  = Server.get_snippet sample_store "V1StGXR8_Z".
Proof.
  apply (post_keeps_other_snippets sample_store
           (Some (Server.mkBody (Some (Server.JStr "print(2)")) None None))
           "a1B2c3D4e5" 1730000000001 "V1StGXR8_Z").
  discriminate.
Defined.

Lemma sorted_head (xs : list Server.Snippet) :
  forall n rest,
    Server.sort Server.newest_first xs = n :: rest ->
    forall s, In s xs -> newer_or_equal n s.
Proof.
  intros n rest Hsort s Hin.
  destruct (sort_spec xs [] ltac:(constructor)) as [Hs Hp].
  fold (Server.sort Server.newest_first xs) in Hs, Hp.
  rewrite app_nil_r in Hp. rewrite Hsort in Hs, Hp.
  apply (Permutation_in _ (Permutation_sym Hp)) in Hin.
  inversion Hs as [|? ? _ Hall]; subst.
  destruct Hin as [<-|Hin].
  - unfold newer_or_equal. lia.
  - rewrite Forall_forall in Hall. now apply Hall.
Qed.

(** X3.  When every snippet of the store is older than an
    accepted POST ([createdAt], or 0 when it has none, is below the time of
    the POST), the list [GET /api/snippets] answers starts with the snippet
    just stored. *)
Theorem newest_snippet_is_listed_first :
  forall (all : Server.Store) (body : option Server.Body) (new_id : string)
         (now : Z) (s : string),
    body_code body = Server.JStr s ->
    JS.length s <= 200000 ->
    JS.length new_id = 10 ->
    (forall old, In old (Server.values all) ->
                 Server.or_zero (Server.createdAt old) < now) ->
    exists rest,
      Server.list_snippets (posted_store all body new_id now)
      = Server.mkResponse 200
          (Server.CList
             (Server.mkSnippet new_id s (body_language body) (body_meta body)
                               (Some now) :: rest)).
Proof.
  intros all body new_id now s Hcode Hlen Hid Hold. unfold posted_store.
  rewrite (post_snippet_stores all body new_id now s Hcode Hlen). cbn [fst].
  unfold Server.set. rewrite (ten_characters_not_proto _ Hid). cbn [andb].
  set (snip := Server.mkSnippet _ _ _ _ _).
  set (all' := Server.define all new_id snip).
  unfold Server.list_snippets.
  destruct (Server.sort Server.newest_first (Server.values all'))
    as [|n rest] eqn:Hsort.
  - destruct (sort_spec (Server.values all') [] ltac:(constructor)) as [_ Hp].
    fold (Server.sort Server.newest_first (Server.values all')) in Hp.
    rewrite app_nil_r, Hsort in Hp.
    apply Permutation_nil in Hp.
    pose proof (define_holds all new_id snip) as Hin.
    fold all' in Hin. rewrite Hp in Hin. destruct Hin.
  - exists (firstn 99 rest). cbn [firstn]. do 3 f_equal.
    assert (In n (Server.values all')) as Hn.
    { destruct (sort_spec (Server.values all') [] ltac:(constructor)) as [_ Hp].
      fold (Server.sort Server.newest_first (Server.values all')) in Hp.
      rewrite app_nil_r, Hsort in Hp.
      eapply Permutation_in; [exact Hp|now left]. }
    destruct (values_define _ _ _ _ Hn) as [->|Hin]; [reflexivity|].
    pose proof (sorted_head _ _ _ Hsort snip (define_holds all new_id snip)) as H.
    specialize (Hold n Hin). unfold newer_or_equal in H. cbn in H. lia.
Qed.

Lemma newest_snippet_is_listed_first_witness :
  exists rest,
    Server.list_snippets
      (posted_store sample_store
         (Some (Server.mkBody (Some (Server.JStr "print(2)")) None None))
         "a1B2c3D4e5" 1730000000001)
    = Server.mkResponse 200
        (Server.CList
           (Server.mkSnippet "a1B2c3D4e5" "print(2)" (Server.JStr "python")
                             (Server.JObj "{}") (Some 1730000000001) :: rest)).
Proof.
  apply (newest_snippet_is_listed_first sample_store
           (Some (Server.mkBody (Some (Server.JStr "print(2)")) None None))
           "a1B2c3D4e5" 1730000000001 "print(2)");
    [reflexivity | vm_compute; discriminate | reflexivity |].
  intros old [<-|[]]. vm_compute. reflexivity.
Defined.

(** ** The worker and its interpreter *)

Lemma ends_with_slash_app u : PyWorker.ends_with_slash (u ++ "/") = true.
Proof.
  unfold PyWorker.ends_with_slash.
  assert (forall v, list_ascii_of_string (u ++ v)
                    = (list_ascii_of_string u ++ list_ascii_of_string v)%list)
    as ->.
  { intros v. induction u as [|c u IH]; cbn; [reflexivity|now rewrite IH]. }
  cbn. rewrite rev_app_distr. reflexivity.
Qed.

Lemma run_accepted_no_load rt st msg :
  filter is_load (PyWorker.run_accepted rt st msg) = [].
Proof.
  unfold PyWorker.run_accepted. cbn [app filter is_load].
  destruct (PyWorker.redirect rt); [reflexivity|].
  cbn [filter is_load]. rewrite filter_app.
  assert (filter is_load
            (flat_map (PyWorker.write st
                         (if JS.truthy (hm_runId msg) then hm_runId msg else None))
                      (PyWorker.writes
                         (PyWorker.runPythonAsync rt (JS.or_else (hm_code msg) ""))))
          = []) as ->.
  { induction (PyWorker.writes _) as [|wr ws IH]; [reflexivity|].
    cbn [flat_map]. rewrite filter_app, IH, app_nil_r.
    unfold PyWorker.write. now destruct (String.eqb (snd wr) ""). }
  now destruct (PyWorker.completion _).
Qed.

(** The attempts to load the interpreter in one step of the worker: none
    once it is loaded; otherwise at most one, from the base URL the step
    leaves, and the interpreter is loaded afterwards if it succeeds. *)
Lemma worker_step_load rt st data :
  let st' := fst (PyWorker.onmessage rt st data) in
  let attempts := filter is_load (snd (PyWorker.onmessage rt st data)) in
  (PyWorker.initialized st = true ->
   PyWorker.initialized st' = true /\ attempts = [])
  /\ (PyWorker.initialized st = false ->
      (attempts = [] /\ PyWorker.initialized st' = false)
      \/ (attempts = [PyWorker.LoadRuntime (PyWorker.indexURL st')]
          /\ PyWorker.initialized st'
             = loads rt (PyWorker.LoadRuntime (PyWorker.indexURL st')))).
Proof.
  unfold PyWorker.onmessage.
  destruct data as [msg|]; [|cbn; split; [auto|left; auto]].
  destruct (JS.strict_eq (hm_type msg) "init").
  - unfold PyWorker.loadPyodideIfNeeded.
    cbn [PyWorker.initialized PyWorker.indexURL].
    destruct (PyWorker.initialized st); cbn.
    + split; [auto|discriminate].
    + split; [discriminate|]. intros _. right.
      destruct (PyWorker.loadPyodide rt _) eqn:Hload; cbn; rewrite Hload; auto.
  - destruct (JS.strict_eq (hm_type msg) "run");
      [|cbn; split; [auto|left; auto]].
    unfold PyWorker.loadPyodideIfNeeded.
    destruct (PyWorker.initialized st) eqn:Hinit.
    + split; [|discriminate]. intros _.
      destruct (_ || _); cbn [fst snd app]; [auto|].
      split; [exact Hinit|apply run_accepted_no_load].
    + split; [discriminate|]. intros _. right.
      destruct (PyWorker.loadPyodide rt (PyWorker.indexURL st)) eqn:Hload.
      * cbn. rewrite Hload. auto.
      * cbn [PyWorker.currentToken].
        destruct (_ || _); cbn [fst snd app filter is_load PyWorker.indexURL
                                 PyWorker.initialized loads];
          rewrite Hload; [auto|].
        now rewrite run_accepted_no_load.
Qed.

Lemma worker_step_url rt st data :
  PyWorker.ends_with_slash (PyWorker.indexURL st) = true ->
  PyWorker.ends_with_slash
    (PyWorker.indexURL (fst (PyWorker.onmessage rt st data))) = true.
Proof.
  intros Hst. unfold PyWorker.onmessage.
  destruct data as [msg|]; [|exact Hst].
  destruct (JS.strict_eq (hm_type msg) "init").
  - set (url := match hm_indexURL msg with Some _ => _ | None => _ end).
    assert (PyWorker.ends_with_slash url = true) as Hurl.
    { unfold url. destruct (hm_indexURL msg) as [u|]; [|exact Hst].
      destruct (String.eqb u ""); [exact Hst|].
      destruct (PyWorker.ends_with_slash u) eqn:Hu; [exact Hu|].
      apply ends_with_slash_app. }
    unfold PyWorker.loadPyodideIfNeeded.
    cbn [PyWorker.initialized PyWorker.indexURL].
    destruct (PyWorker.initialized st); [exact Hurl|].
    now destruct (PyWorker.loadPyodide rt url).
  - destruct (JS.strict_eq (hm_type msg) "run"); [|exact Hst].
    unfold PyWorker.loadPyodideIfNeeded.
    destruct (PyWorker.initialized st).
    + now destruct (_ || _).
    + destruct (PyWorker.loadPyodide rt (PyWorker.indexURL st)); [exact Hst|].
      cbn [PyWorker.currentToken]. now destruct (_ || _).
Qed.

Lemma in_filter_load url effs :
  In (PyWorker.LoadRuntime url) effs ->
  In (PyWorker.LoadRuntime url) (filter is_load effs).
Proof. intros H. apply filter_In. now split. Qed.

(** X4.  Whatever messages a worker receives from its start on,
    every base URL it loads the interpreter from ends with a slash. *)
Theorem pyodide_base_url_ends_with_slash :
  forall (rt : PyWorker.Runtime) (msgs : list (option HostMsg)) (url : string),
    In (PyWorker.LoadRuntime url)
       (snd (worker_trace rt PyWorker.initial msgs)) ->
    PyWorker.ends_with_slash url = true.
Proof.
  intros rt msgs url.
  assert (PyWorker.ends_with_slash (PyWorker.indexURL PyWorker.initial) = true)
    as Hst by reflexivity.
  revert Hst. generalize PyWorker.initial as st.
  induction msgs as [|m msgs IH]; intros st Hst Hin; [destruct Hin|].
  cbn [worker_trace] in Hin.
  pose proof (worker_step_url rt st m Hst) as Hurl.
  pose proof (worker_step_load rt st m) as Hload. cbn zeta in Hload.
  destruct (PyWorker.onmessage rt st m) as [st1 effs].
  specialize (IH st1).
  destruct (worker_trace rt st1 msgs) as [st2 effs']. cbn [fst snd] in *.
  apply in_app_or in Hin. destruct Hin as [Hin|Hin]; [|now apply IH].
  apply in_filter_load in Hin.
  destruct Hload as [Hl1 Hl2].
  destruct (PyWorker.initialized st).
  - destruct (Hl1 eq_refl) as [_ H]. rewrite H in Hin. destruct Hin.
  - destruct (Hl2 eq_refl) as [[H _]|[H _]]; rewrite H in Hin.
    + destruct Hin.
    + destruct Hin as [[= <-]|[]]. exact Hurl.
Qed.

Lemma pyodide_base_url_ends_with_slash_witness :
  PyWorker.ends_with_slash "/pyodide/" = true.
Proof.
  apply (pyodide_base_url_ends_with_slash
           (pyodide infinite_loop_behaviour) [slashless_init] "/pyodide/").
  cbn. now left.
Defined.

(** X5.  A handler of the worker that finds the interpreter loaded does
    not load it again and leaves it loaded.  So, from a worker whose
    interpreter is loaded on, whatever messages are handled, no load is
    attempted and the interpreter stays loaded.  (Messages that arrive
    while the first load is still awaited are each handled with the
    interpreter not yet loaded; nothing is said of them here.) *)
Theorem loaded_interpreter_is_kept :
  forall (rt : PyWorker.Runtime) (st : PyWorker.State),
    PyWorker.initialized st = true ->
    (forall data,
        filter is_load (snd (PyWorker.onmessage rt st data)) = []
        /\ PyWorker.initialized (fst (PyWorker.onmessage rt st data)) = true)
    /\ forall msgs,
        filter is_load (snd (worker_trace rt st msgs)) = []
        /\ PyWorker.initialized (fst (worker_trace rt st msgs)) = true.
Proof.
  intros rt st Hst.
  assert (forall st data,
             PyWorker.initialized st = true ->
             filter is_load (snd (PyWorker.onmessage rt st data)) = []
             /\ PyWorker.initialized (fst (PyWorker.onmessage rt st data))
                = true) as Hone.
  { intros st0 data H0.
    pose proof (worker_step_load rt st0 data) as Hload. cbn zeta in Hload.
    destruct Hload as [Hl _]. destruct (Hl H0) as [Hi Ha]. now split. }
  split; [intros data; now apply Hone|].
  intros msgs. revert st Hst.
  induction msgs as [|m msgs IH]; intros st Hst; [now split|].
  cbn [worker_trace].
  destruct (Hone st m Hst) as [Ha Hi].
  destruct (PyWorker.onmessage rt st m) as [st1 effs]. cbn [fst snd] in *.
  destruct (IH st1 Hi) as [Ha' Hi'].
  destruct (worker_trace rt st1 msgs) as [st2 effs']. cbn [fst snd] in *.
  rewrite filter_app, Ha, Ha'. now split.
Qed.

Lemma loaded_interpreter_is_kept_witness :
  filter is_load
         (snd (worker_trace (pyodide print_x_then_y) sample_worker
                            [slashless_init;
                             Some (sample_run_msg "print('x')")])) = []
  /\ PyWorker.initialized
       (fst (worker_trace (pyodide print_x_then_y) sample_worker
                          [slashless_init;
                           Some (sample_run_msg "print('x')")])) = true.
Proof.
  apply (loaded_interpreter_is_kept (pyodide print_x_then_y) sample_worker).
  reflexivity.
Defined.

(** ** The session token, from the executor to the worker and back *)

Lemma dispatch_keeps {W} msg (ls : list (nat * PythonExecutor.Listener W)) :
  forall ex woken w x w',
    PythonExecutor.dispatch msg ls ex woken w = (Returned x, w') ->
    PythonExecutor.token (fst x) = PythonExecutor.token ex
    /\ PythonExecutor.outbox (fst x) = PythonExecutor.outbox ex
    /\ PythonExecutor.worker (fst x) = PythonExecutor.worker ex.
Proof.
  induction ls as [|[key l] ls IH]; intros ex woken w x w' H.
  - cbn in H. injection H as <- _. auto.
  - destruct l as [cb|code rnd]; cbn [PythonExecutor.dispatch] in H.
    + unfold bind, try_catch in H. cbn in H. eapply IH; exact H.
    + destruct (JS.strict_eq (wm_type msg) "ready").
      * apply IH in H. exact H.
      * eapply IH; exact H.
Qed.

Lemma resume_all_posts {W} woken : forall (ex : PythonExecutor.Executor W),
  PythonExecutor.token (fst (PythonExecutor.resume_all woken ex))
  = PythonExecutor.token ex
  /\ exists runs,
      PythonExecutor.outbox (fst (PythonExecutor.resume_all woken ex))
      = PythonExecutor.outbox ex ++ runs
      /\ Forall (fun m => hm_token m = Some (PythonExecutor.token ex)) runs.
Proof.
  induction woken as [|[code rnd] woken IH]; intros ex.
  - cbn. split; [reflexivity|]. exists []. now rewrite app_nil_r.
  - cbn [PythonExecutor.resume_all]. unfold PythonExecutor.resume.
    destruct (PythonExecutor.worker ex).
    + match goal with
      | |- context [PythonExecutor.resume_all woken ?e] =>
        destruct (IH e) as (Htok & runs & Hout & Hruns);
          destruct (PythonExecutor.resume_all woken e) as [ex2 rs]
      end.
      cbn [fst] in *. split; [exact Htok|].
      eexists (_ :: runs). cbn [PythonExecutor.outbox PythonExecutor.postMessage] in Hout.
      rewrite Hout, <- app_assoc. split; [reflexivity|].
      constructor; [reflexivity|exact Hruns].
    + destruct (IH ex) as (Htok & runs & Hout & Hruns).
      destruct (PythonExecutor.resume_all woken ex) as [ex2 rs].
      cbn [fst] in *. split; [exact Htok|]. now exists runs.
Qed.

Lemma token_not_empty (rnd now : string) : (rnd ++ "." ++ now)%string <> "".
Proof. destruct rnd; discriminate. Qed.

Lemma reachable_outbox {W} (ex : PythonExecutor.Executor W) :
  reachable ex ->
  PythonExecutor.token ex <> ""
  /\ Forall (fun m => hm_token m = Some (PythonExecutor.token ex))
            (PythonExecutor.outbox ex).
Proof.
  induction 1 as [options rnd now|ex cb _ [IHt IHo]|ex key _ [IHt IHo]
                  |ex code rnd _ [IHt IHo]|ex _ [IHt IHo]
                  |ex data w x w' _ [IHt IHo] Hmsg].
  - split; [apply token_not_empty|constructor].
  - now split.
  - now split.
  - unfold PythonExecutor.run, PythonExecutor.ensureWorker.
    destruct (PythonExecutor.worker ex) eqn:Hw.
    + destruct (PythonExecutor.ready ex); cbn [negb].
      * unfold PythonExecutor.resume. rewrite Hw. cbn.
        split; [exact IHt|]. apply Forall_app. split; [exact IHo|].
        now repeat constructor.
      * now split.
    + destruct (PythonExecutor.ready ex); cbn.
      * split; [exact IHt|]. rewrite <- app_assoc.
        apply Forall_app. split; [exact IHo|]. now repeat constructor.
      * split; [exact IHt|]. apply Forall_app. split; [exact IHo|].
        now repeat constructor.
  - now split.
  - unfold PythonExecutor.onmessage in Hmsg.
    destruct (_ && _); [injection Hmsg as <- _; now split|].
    unfold bind in Hmsg.
    match type of Hmsg with
    | context [PythonExecutor.dispatch ?m ?ls ?e ?k w] =>
      destruct (PythonExecutor.dispatch m ls e k w) as [[y|] w1] eqn:Hd;
        [|discriminate];
        destruct (dispatch_keeps _ _ _ _ _ _ _ Hd) as (Htok & Hout & _);
        assert (PythonExecutor.token e = PythonExecutor.token ex) as Hte
            by (now destruct (JS.strict_eq (wm_type _) "ready"));
        assert (PythonExecutor.outbox e = PythonExecutor.outbox ex) as Hoe
            by (now destruct (JS.strict_eq (wm_type _) "ready"))
    end.
    cbn in Hmsg. injection Hmsg as <- _.
    destruct (resume_all_posts (snd y) (fst y)) as (Htok2 & runs & Hout2 & Hruns).
    rewrite Htok2, Hout2, Htok, Hout, Hte, Hoe.
    split; [exact IHt|]. apply Forall_app. split; [exact IHo|].
    rewrite Htok, Hte in Hruns. exact Hruns.
Qed.

(** Every message the worker posts carries the token it holds once the
    message of the host is handled. *)
Lemma worker_echoes_token rt st data :
  Forall (fun wm =>
            wm_token wm
            = PyWorker.currentToken (fst (PyWorker.onmessage rt st data)))
         (posted (snd (PyWorker.onmessage rt st data))).
Proof.
  assert (forall st0 msg,
             Forall (fun wm => wm_token wm = PyWorker.currentToken st0)
                    (posted (PyWorker.run_accepted rt st0 msg))) as Hrun.
  { intros st0 msg. unfold PyWorker.run_accepted. cbn [app posted flat_map].
    constructor; [reflexivity|].
    destruct (PyWorker.redirect rt); [now repeat constructor|].
    cbn [flat_map app]. unfold posted. rewrite flat_map_app.
    apply Forall_app. split.
    - induction (PyWorker.writes _) as [|wr ws IH]; [constructor|].
      cbn [flat_map]. rewrite flat_map_app. apply Forall_app. split; [|exact IH].
      unfold PyWorker.write.
      destruct (String.eqb (snd wr) ""); now repeat constructor.
    - destruct (PyWorker.completion _); now repeat constructor. }
  unfold PyWorker.onmessage.
  destruct data as [msg|]; [|constructor].
  destruct (JS.strict_eq (hm_type msg) "init").
  - unfold PyWorker.loadPyodideIfNeeded. cbn [PyWorker.initialized].
    destruct (PyWorker.initialized st); [now repeat constructor|].
    destruct (PyWorker.loadPyodide rt _); now repeat constructor.
  - destruct (JS.strict_eq (hm_type msg) "run"); [|constructor].
    unfold PyWorker.loadPyodideIfNeeded.
    destruct (PyWorker.initialized st).
    + destruct (_ || _); cbn [fst snd app]; [constructor|apply Hrun].
    + destruct (PyWorker.loadPyodide rt _); [now repeat constructor|].
      cbn [PyWorker.currentToken].
      destruct (_ || _); cbn [fst snd app posted flat_map];
        [constructor|].
      apply (Hrun (PyWorker.mkState true (PyWorker.indexURL st)
                                    (PyWorker.currentToken st))).
Qed.

Lemma worker_token_step rt st msg tok :
  tok <> "" ->
  hm_token msg = Some tok ->
  PyWorker.currentToken st = None \/ PyWorker.currentToken st = Some tok ->
  PyWorker.currentToken (fst (PyWorker.onmessage rt st (Some msg))) = None
  \/ PyWorker.currentToken (fst (PyWorker.onmessage rt st (Some msg)))
     = Some tok.
Proof.
  intros Hne Htok Hst. unfold PyWorker.onmessage.
  destruct (JS.strict_eq (hm_type msg) "init").
  - rewrite Htok. unfold PyWorker.loadPyodideIfNeeded.
    cbn [PyWorker.initialized].
    destruct (PyWorker.initialized st); cbn;
      [|destruct (PyWorker.loadPyodide rt _); cbn];
      destruct (String.eqb tok ""); cbn; auto.
  - destruct (JS.strict_eq (hm_type msg) "run"); [|exact Hst].
    unfold PyWorker.loadPyodideIfNeeded.
    destruct (PyWorker.initialized st).
    + now destruct (_ || _).
    + destruct (PyWorker.loadPyodide rt _); [exact Hst|].
      cbn [PyWorker.currentToken]. now destruct (_ || _).
Qed.

Lemma accepts_own_token tok wm :
  wm_token wm = None \/ wm_token wm = Some tok -> host_accepts tok wm = true.
Proof.
  unfold host_accepts. intros [->| ->]; [reflexivity|].
  cbn. rewrite String.eqb_refl. now destruct (String.eqb tok "").
Qed.

Lemma worker_session_accepted rt tok msgs : forall st,
  tok <> "" ->
  Forall (fun m => hm_token m = Some tok) msgs ->
  PyWorker.currentToken st = None \/ PyWorker.currentToken st = Some tok ->
  Forall (fun wm => host_accepts tok wm = true) (worker_session rt st msgs).
Proof.
  induction msgs as [|m msgs IH]; intros st Hne Hmsgs Hst; [constructor|].
  inversion Hmsgs as [|? ? Hm Hrest]; subst.
  cbn [worker_session].
  pose proof (worker_echoes_token rt st (Some m)) as Hecho.
  pose proof (worker_token_step rt st m tok Hne Hm Hst) as Hnext.
  destruct (PyWorker.onmessage rt st (Some m)) as [st1 effs].
  cbn [fst snd] in *.
  apply Forall_app. split; [|now apply IH].
  eapply Forall_impl; [|exact Hecho].
  intros wm Hwm. apply accepts_own_token. rewrite Hwm. exact Hnext.
Qed.

(** X7.  Executor and worker agree on the token.  Whatever
    messages from the outbox of an executor a new worker receives, in any
    order and number, every message the worker posts back passes the token
    check of that executor. *)
Theorem worker_replies_are_accepted :
  forall (W : Type) (ex : PythonExecutor.Executor W) (rt : PyWorker.Runtime)
         (msgs : list HostMsg),
    reachable ex ->
    (forall m, In m msgs -> In m (PythonExecutor.outbox ex)) ->
    Forall (fun wm => host_accepts (PythonExecutor.token ex) wm = true)
           (worker_session rt PyWorker.initial msgs).
Proof.
  intros W ex rt msgs Hreach Hsub.
  destruct (reachable_outbox ex Hreach) as [Hne Hout].
  apply worker_session_accepted; [exact Hne| |now left].
  rewrite Forall_forall in *. intros m Hin. apply Hout, Hsub, Hin.
Qed.

Lemma worker_replies_are_accepted_witness :
  Forall (fun wm => host_accepts "q8w2e4.1730000000000" wm = true)
         (worker_session (pyodide print_x_then_y) PyWorker.initial
                         (PythonExecutor.outbox sample_executor)).
Proof.
  apply (worker_replies_are_accepted unit sample_executor
           (pyodide print_x_then_y) (PythonExecutor.outbox sample_executor)).
  - apply reach_run, reach_new.
  - auto.
Defined.

(** X6.  The worker evaluates a program only while it handles a
    [run] message whose token is a string that is not empty and is the
    current token, the one of the last [init]; the program is the [code] of
    that message, the empty program when it has none. *)
Theorem code_evaluated_only_for_current_token :
  forall (rt : PyWorker.Runtime) (st : PyWorker.State) (data : option HostMsg)
         (code : string),
    In (PyWorker.Evaluate code) (snd (PyWorker.onmessage rt st data)) ->
    exists msg tok,
      data = Some msg
      /\ hm_type msg = Some "run"
      /\ hm_token msg = Some tok /\ tok <> ""
      /\ PyWorker.currentToken st = Some tok
      /\ code = JS.or_else (hm_code msg) "".
Proof.
  intros rt st data code Hin.
  assert (forall st0 msg,
             In (PyWorker.Evaluate code) (PyWorker.run_accepted rt st0 msg) ->
             code = JS.or_else (hm_code msg) "") as Hrun.
  { intros st0 msg H. unfold PyWorker.run_accepted in H. cbn [app] in H.
    destruct H as [H|[H|H]]; try discriminate H.
    destruct (PyWorker.redirect rt).
    { destruct H as [H|[]]. discriminate H. }
    destruct H as [H|[H|H]]; try discriminate H.
    { now injection H as <-. }
    apply in_app_or in H. destruct H as [H|H].
    - apply in_flat_map in H. destruct H as (wr & _ & H).
      unfold PyWorker.write in H.
      destruct (String.eqb (snd wr) ""); [destruct H|].
      destruct H as [H|[]]. discriminate H.
    - destruct (PyWorker.completion _);
        try (destruct H as [H|[]]; discriminate H). destruct H. }
  unfold PyWorker.onmessage in Hin.
  destruct data as [msg|]; [|destruct Hin].
  destruct (JS.strict_eq (hm_type msg) "init") eqn:Hinit.
  { exfalso. unfold PyWorker.loadPyodideIfNeeded in Hin.
    cbn [PyWorker.initialized] in Hin.
    destruct (PyWorker.initialized st); cbn in Hin.
    - destruct Hin as [H|[]]. discriminate H.
    - destruct (PyWorker.loadPyodide rt _); cbn in Hin;
        destruct Hin as [H|[H|[]]]; discriminate H. }
  destruct (JS.strict_eq (hm_type msg) "run") eqn:Htype; [|destruct Hin].
  assert (hm_type msg = Some "run") as Hty.
  { destruct (hm_type msg) as [t|]; [|discriminate]. cbn in Htype.
    apply String.eqb_eq in Htype. now subst. }
  assert (forall st1 effs,
             PyWorker.currentToken st1 = PyWorker.currentToken st ->
             ~ In (PyWorker.Evaluate code) effs ->
             In (PyWorker.Evaluate code)
                (snd (if negb (JS.truthy (hm_token msg))
                         || negb match PyWorker.currentToken st1 with
                                 | Some t => JS.strict_eq (hm_token msg) t
                                 | None => false
                                 end
                      then (st1, effs)
                      else (st1, effs ++ PyWorker.run_accepted rt st1 msg))) ->
             exists msg0 tok,
               Some msg = Some msg0 /\ hm_type msg0 = Some "run"
               /\ hm_token msg0 = Some tok /\ tok <> ""
               /\ PyWorker.currentToken st = Some tok
               /\ code = JS.or_else (hm_code msg0) "") as Hbranch.
  { intros st1 effs Hcur Hno H. rewrite Hcur in H.
    destruct (hm_token msg) as [tok|] eqn:Htok; [|cbn in H; contradiction].
    destruct (PyWorker.currentToken st) as [t|] eqn:Hct;
      [|rewrite orb_true_r in H; cbn in H; contradiction].
    cbn [JS.truthy JS.strict_eq] in H.
    destruct (String.eqb_spec tok "") as [->|Hne]; [cbn in H; contradiction|].
    destruct (String.eqb_spec tok t) as [->|Hdiff]; [|cbn in H; contradiction].
    cbn in H. apply in_app_or in H. destruct H as [H|H]; [contradiction|].
    exists msg, t. repeat split; auto. eapply Hrun; exact H. }
  unfold PyWorker.loadPyodideIfNeeded in Hin.
  destruct (PyWorker.initialized st).
  - eapply (Hbranch st []); [reflexivity|intros []|exact Hin].
  - destruct (PyWorker.loadPyodide rt (PyWorker.indexURL st)).
    + cbn in Hin. destruct Hin as [H|[H|[]]]; discriminate H.
    + eapply (Hbranch (PyWorker.mkState true (PyWorker.indexURL st)
                                        (PyWorker.currentToken st))
                      [PyWorker.LoadRuntime (PyWorker.indexURL st)]);
        [reflexivity| |exact Hin].
      intros [H|[]]. discriminate H.
Qed.

Lemma code_evaluated_only_for_current_token_witness :
  exists msg tok,
    Some (sample_run_msg "print('x')") = Some msg
    /\ hm_type msg = Some "run"
    /\ hm_token msg = Some tok /\ tok <> ""
    /\ PyWorker.currentToken sample_worker = Some tok
    /\ "print('x')" = JS.or_else (hm_code msg) "".
Proof.
  apply (code_evaluated_only_for_current_token
           (pyodide print_x_then_y) sample_worker
           (Some (sample_run_msg "print('x')")) "print('x')").
  cbn. auto.
Defined.

(** ** A Python run from end to end *)

Lemma python_is_not_javascript l :
  Virtualizer.is_python l = true -> Virtualizer.is_javascript l = false.
Proof.
  unfold Virtualizer.is_python, Virtualizer.is_javascript. intros H.
  apply orb_true_iff in H.
  destruct H as [H|H]; apply String.eqb_eq in H; subst; reflexivity.
Qed.

Lemma runCode_python_ready options onEvent en data ins :
  let r := Virtualizer.resolve options en in
  Virtualizer.is_python (Virtualizer.language r) = true ->
  host_accepts (py_token en) (data_of data) = true ->
  JS.strict_eq (wm_type (data_of data)) "ready" = true ->
  exists p,
    Virtualizer.runCode options onEvent en (WorkerMessage data :: ins)
    = Virtualizer.steps onEvent r (Virtualizer.Python p) ins
        (push (event r "done" no_payload)
              (push (event r "init" no_payload) Virtualizer.initial))
    /\ in_phase onEvent r p Submitted
    /\ PythonExecutor.ready (Virtualizer.py p) = true
    /\ PythonExecutor.token (Virtualizer.py p) = py_token en
    /\ PythonExecutor.outbox (Virtualizer.py p)
       = [py_init_msg r en; py_run_msg r en].
Proof.
  intros r Hpy Hacc Hready.
  pose proof (python_is_not_javascript _ Hpy) as Hjs.
  unfold Virtualizer.runCode. fold r. clearbody r.
  unfold Virtualizer.runCode_body. rewrite Hjs, Hpy.
  unfold bind at 1. unfold bind at 1. rewrite emit_eq.
  cbn -[Virtualizer.steps Virtualizer.py_adapter].
  cbn [Virtualizer.steps]. unfold bind at 1.
  cbn [Virtualizer.step]. unfold bind at 1.
  unfold Virtualizer.py_message, PythonExecutor.onmessage.
  fold (data_of data).
  unfold host_accepts in Hacc. apply negb_true_iff in Hacc.
  cbn [Virtualizer.py PythonExecutor.token PythonExecutor.add].
  unfold py_token in Hacc. cbn [append] in Hacc. unfold bind at 1.
  rewrite Hacc, Hready.
  cbn [PythonExecutor.listeners PythonExecutor.set_ready PythonExecutor.add
       PythonExecutor.dispatch app PythonExecutor.fresh].
  unfold bind at 1. unfold bind at 1. unfold try_catch at 1.
  rewrite py_adapter_eq. cbn [snd]. rewrite Hready.
  cbn -[Virtualizer.steps Virtualizer.py_adapter py_adapter_world].
  assert (forall w, py_adapter_world r (data_of data) w = w) as ->.
  { intros w. unfold py_adapter_world. now rewrite Hready. }
  eexists. split; [reflexivity|].
  cbn. repeat split.
  unfold py_init_msg, py_run_msg, py_token. cbn.
  now destruct (JS.truthy (Virtualizer.indexURL r)) eqn:Hu; rewrite ?Hu.
Qed.

(** A submitted Python run hands every message the host wrapper accepts
    to the adapter, and changes in nothing else. *)
Lemma py_submitted_steps onEvent r p msgs : forall w,
  in_phase onEvent r p Submitted ->
  PythonExecutor.ready (Virtualizer.py p) = true ->
  Forall (fun m => host_accepts (PythonExecutor.token (Virtualizer.py p)) m
                   = true) msgs ->
  Virtualizer.steps onEvent r (Virtualizer.Python p) (deliveries msgs) w
  = (Returned (Virtualizer.Python p),
     fold_left (fun w m => py_adapter_world r m w) msgs w).
Proof.
  intros w Hph Hr Hall. revert w.
  induction Hall as [|m msgs Hm _ IH]; intros w; [reflexivity|].
  cbn [deliveries map Virtualizer.steps fold_left].
  fold (deliveries msgs).
  assert (Virtualizer.step onEvent r (Virtualizer.Python p)
                           (WorkerMessage (Some m)) w
          = (Returned (Virtualizer.Python p), py_adapter_world r m w)) as Hstep.
  { cbn [Virtualizer.step]. unfold Virtualizer.py_message.
    unfold PythonExecutor.onmessage.
    unfold host_accepts in Hm. apply negb_true_iff in Hm.
    unfold bind at 1. unfold bind at 1. rewrite Hm.
    destruct Hph as (Hl & Hf & Ht & Hw).
    assert (forall c : bool, (if c then PythonExecutor.set_ready true (Virtualizer.py p)
                       else Virtualizer.py p) = Virtualizer.py p) as ->.
    { intros [|]; [|reflexivity]. destruct p as [ex o f t].
      destruct ex. cbn in *. now subst. }
    rewrite Hl. cbn [PythonExecutor.dispatch].
    unfold bind at 1. unfold bind at 1. unfold try_catch.
    rewrite py_adapter_eq. cbn. now destruct p. }
  rewrite (bind_returned _ _ _ _ _ Hstep). apply IH.
Qed.

Lemma utf8_length_nonneg s : 0 <= JS.utf8_length s.
Proof.
  induction s as [|c s IH]; cbn [JS.utf8_length]; [lia|].
  destruct (_ <? _)%N; lia.
Qed.

Lemma write_bytes_nonneg ws : 0 <= write_bytes ws.
Proof.
  induction ws as [|wr ws IH]; cbn [write_bytes]; [lia|].
  pose proof (utf8_length_nonneg (snd wr)). lia.
Qed.

Lemma py_token_truthy en : JS.truthy (Some (py_token en)) = true.
Proof.
  unfold py_token. cbn. now destruct (Virtualizer.rnd_inner en).
Qed.

Lemma strict_eq_refl s : JS.strict_eq (Some s) s = true.
Proof. cbn. apply String.eqb_refl. Qed.

Lemma or_else_empty s : JS.or_else (Some s) "" = s.
Proof. cbn. now destruct (String.eqb_spec s "") as [->|]. Qed.

(** The worker's side of a Python run on a Pyodide that loads: [ready],
    then [start], the writes and the completion of the program. *)
Lemma python_worker_session r en rt :
  (forall url, PyWorker.loadPyodide rt url = None) ->
  PyWorker.redirect rt = None ->
  let b := PyWorker.runPythonAsync rt (Virtualizer.code r) in
  let tok := Some (py_token en) in
  let runId := Some ("py_" ++ Virtualizer.rnd_pyrun en)%string in
  worker_session rt PyWorker.initial [py_init_msg r en; py_run_msg r en]
  = mkWorkerMsg (Some "ready") tok None None None None
    :: mkWorkerMsg (Some "start") tok runId None None None
    :: map (fun wr => mkWorkerMsg (Some (PyWorker.stream_name (fst wr))) tok
                                  runId (Some (snd wr)) None None)
           (nonempty_writes (PyWorker.writes b))
    ++ match PyWorker.completion b with
       | PyWorker.Value v =>
         [mkWorkerMsg (Some "result") tok runId None (Some (value_text v)) None]
       | PyWorker.Raises err =>
         [mkWorkerMsg (Some "error") tok runId None None
                      (Some (PyWorker.error_text err))]
       | PyWorker.Diverges => []
       end.
Proof.
  intros Hload Hred b tok runId.
  unfold worker_session, py_init_msg, py_run_msg.
  unfold PyWorker.onmessage at 1.
  cbn [hm_type hm_token hm_indexURL JS.strict_eq String.eqb Ascii.eqb Bool.eqb].
  rewrite py_token_truthy.
  unfold PyWorker.loadPyodideIfNeeded at 1.
  cbn [PyWorker.initialized PyWorker.initial PyWorker.indexURL
       PyWorker.currentToken].
  rewrite Hload.
  cbn [app posted flat_map PyWorker.currentToken].
  unfold PyWorker.onmessage.
  cbn [hm_type hm_token JS.strict_eq String.eqb Ascii.eqb Bool.eqb].
  unfold PyWorker.loadPyodideIfNeeded.
  cbn [PyWorker.initialized PyWorker.currentToken].
  rewrite py_token_truthy. fold (JS.strict_eq (Some (py_token en)) (py_token en)).
  rewrite strict_eq_refl.
  cbn [negb orb app].
  unfold PyWorker.run_accepted. rewrite Hred.
  cbn [hm_runId hm_code PyWorker.currentToken].
  rewrite or_else_empty. fold b.
  assert (JS.truthy (Some ("py_" ++ Virtualizer.rnd_pyrun en)%string) = true)
    as -> by reflexivity.
  cbn [app posted flat_map]. rewrite app_nil_r.
  subst tok runId. do 2 f_equal. rewrite flat_map_app. f_equal.
  - induction (PyWorker.writes b) as [|wr ws IH]; [reflexivity|].
    cbn [flat_map nonempty_writes filter]. rewrite flat_map_app, IH.
    unfold PyWorker.write at 1.
    destruct (String.eqb (snd wr) ""); reflexivity.
  - now destruct (PyWorker.completion b) as [[|v]|err|].
Qed.

(** The store after the adapter has seen the output of a program that
    fits in what is left of the budget. *)
Lemma py_outputs_within_budget r tok runId ws : forall w,
  Virtualizer.totalLogBytes w + write_bytes ws <= Virtualizer.maxLogBytes r ->
  fold_left (fun w m => py_adapter_world r m w)
            (map (fun wr => mkWorkerMsg (Some (PyWorker.stream_name (fst wr)))
                                        tok runId (Some (snd wr)) None None)
                 (nonempty_writes ws)) w
  = Virtualizer.mkWorld
      (Virtualizer.delivered w ++ map (output_event r) (nonempty_writes ws))
      (Virtualizer.totalLogBytes w + write_bytes ws)
      (Virtualizer.truncatedNotified w).
Proof.
  induction ws as [|[s t] ws IH]; intros w Hfit.
  - cbn. rewrite app_nil_r, Z.add_0_r. now destruct w.
  - cbn [nonempty_writes filter snd write_bytes] in *.
    pose proof (write_bytes_nonneg ws) as Hws.
    pose proof (utf8_length_nonneg t) as Ht.
    destruct (String.eqb_spec t "") as [->|Hne]; cbn [negb].
    + fold (nonempty_writes ws). rewrite IH by (cbn in Hfit; lia).
      reflexivity.
    + fold (nonempty_writes ws). cbn [map fold_left fst snd].
      assert (py_adapter_world r
                (mkWorkerMsg (Some (PyWorker.stream_name s)) tok runId (Some t)
                             None None) w
              = Virtualizer.mkWorld
                  (Virtualizer.delivered w ++ [output_event r (s, t)])
                  (Virtualizer.totalLogBytes w + JS.utf8_length t)
                  (Virtualizer.truncatedNotified w)) as ->.
      { assert (forall ty level,
                   budgeted r ty (Some t) level w
                   = Virtualizer.mkWorld
                       (Virtualizer.delivered w
                        ++ [event r ty (mkPayload (Some t) (Some level)
                                                  None None None)])
                       (Virtualizer.totalLogBytes w + JS.utf8_length t)
                       (Virtualizer.truncatedNotified w)) as Hb.
        { intros ty level. unfold budgeted. rewrite or_else_empty.
          destruct (Z.leb_spec (Virtualizer.totalLogBytes w + JS.utf8_length t)
                               (Virtualizer.maxLogBytes r)); [reflexivity|lia]. }
        unfold py_adapter_world, output_event, on.
        destruct s;
          cbn [wm_type wm_text fst snd PyWorker.stream_name JS.strict_eq
               String.eqb Ascii.eqb Bool.eqb output_level];
          apply Hb. }
      rewrite IH by (cbn; lia). cbn. rewrite <- app_assoc, Z.add_assoc.
      reflexivity.
Qed.

(** X10.  A Python run from end to end.  When the interpreter loads,
    the redirection of the output is installed and the program writes no
    more than [maxLogBytes] bytes, the executor posts [init], then [run],
    and the consumer receives [init], [done] (the submission of the run
    settles before the program starts), [start], one [stdout] or [stderr]
    event for each write that is not empty, in the order of the writes, and
    at the end [result] or [error], or nothing when the program does not
    end. *)
Theorem python_run_stream :
  forall (options : option Virtualizer.Options)
         (onEvent : Virtualizer.Callback) (en : Virtualizer.Entropy)
         (rt : PyWorker.Runtime),
    let r := Virtualizer.resolve options en in
    let b := PyWorker.runPythonAsync rt (Virtualizer.code r) in
    let host := [py_init_msg r en; py_run_msg r en] in
    let ins := deliveries (worker_session rt PyWorker.initial host) in
    Virtualizer.is_python (Virtualizer.language r) = true ->
    (forall url, PyWorker.loadPyodide rt url = None) ->
    PyWorker.redirect rt = None ->
    write_bytes (PyWorker.writes b) <= Virtualizer.maxLogBytes r ->
    posted_to_worker (fst (Virtualizer.runCode options onEvent en ins)) = host
    /\ Virtualizer.stream options onEvent en ins
       = event r "init" no_payload
         :: event r "done" no_payload
         :: event r "start" no_payload
         :: map (output_event r) (nonempty_writes (PyWorker.writes b))
         ++ completion_events r (PyWorker.completion b).
Proof.
  intros options onEvent en rt r b host ins Hpy Hload Hred Hfit.
  unfold Virtualizer.stream. subst ins host.
  rewrite (python_worker_session r en rt Hload Hred). fold b.
  cbn [deliveries map]. 
  match goal with
  | |- context [WorkerMessage (Some ?m) :: WorkerMessage (Some ?m1) :: map ?f ?l] =>
    change (WorkerMessage (Some m1) :: map f l) with (deliveries (m1 :: l));
      set (ready := m); set (rest := m1 :: l)
  end.
  destruct (runCode_python_ready options onEvent en (Some ready)
                                 (deliveries rest) Hpy)
    as (p & Hrun & Hph & Hr & Htok & Hout).
  { apply accepts_own_token. now right. }
  { reflexivity. }
  fold r in Hrun, Hph, Hout.
  rewrite Hrun.
  rewrite (py_submitted_steps onEvent r p rest _ Hph Hr).
  2:{ rewrite Htok. subst rest. constructor.
      - apply accepts_own_token. now right.
      - apply Forall_app. split.
        + apply Forall_forall. intros m Hin. apply in_map_iff in Hin.
          destruct Hin as (wr & <- & _). apply accepts_own_token. now right.
        + destruct (PyWorker.completion b); repeat constructor;
            apply accepts_own_token; now right. }
  cbn [fst snd posted_to_worker]. split; [exact Hout|].
  subst rest. cbn [fold_left]. rewrite fold_left_app.
  assert (forall w m,
             wm_type m = Some "start" ->
             py_adapter_world r m w = push (event r "start" no_payload) w)
    as Hstart.
  { intros w m Hm. unfold py_adapter_world, on. now rewrite Hm. }
  rewrite Hstart by reflexivity.
  rewrite py_outputs_within_budget by (cbn; exact Hfit).
  destruct (PyWorker.completion b) as [v|err|]; cbn;
    rewrite <- ?app_assoc, ?app_nil_r; reflexivity.
Qed.

Lemma python_run_stream_witness :
  let r := Virtualizer.resolve (options_for "python" "print('x')")
                               sample_entropy in
  let host := [py_init_msg r sample_entropy; py_run_msg r sample_entropy] in
  let ins :=
    deliveries (worker_session (pyodide print_x_then_y) PyWorker.initial host) in
  posted_to_worker
    (fst (Virtualizer.runCode (options_for "python" "print('x')") well_behaved
                              sample_entropy ins))
  = host
  /\ map summary
         (Virtualizer.stream (options_for "python" "print('x')") well_behaved
                             sample_entropy ins)
     = [("init", None, None); ("done", None, None); ("start", None, None);
        ("stdout", Some "x", None);
        ("stdout", Some (String (ascii_of_nat 10) ""), None);
        ("result", None, None)].
Proof.
  intros r host ins.
  destruct (python_run_stream (options_for "python" "print('x')") well_behaved
                              sample_entropy (pyodide print_x_then_y))
    as [Hposted Hstream];
    [reflexivity | reflexivity | reflexivity | vm_compute; discriminate |].
  split; [exact Hposted|].
  fold r host ins in Hstream. rewrite Hstream. reflexivity.
Defined.

(** The worker's side of a Python run on a Pyodide that cannot be
    loaded: one [error] message. *)
Lemma python_worker_session_unavailable r en rt err :
  (forall url, PyWorker.loadPyodide rt url = Some err) ->
  worker_session rt PyWorker.initial [py_init_msg r en]
  = [mkWorkerMsg (Some "error") (Some (py_token en)) None None None
                 (Some (PyWorker.error_text err))].
Proof.
  intros Hload. unfold worker_session, py_init_msg.
  unfold PyWorker.onmessage.
  cbn [hm_type hm_token hm_indexURL JS.strict_eq String.eqb Ascii.eqb Bool.eqb].
  rewrite py_token_truthy.
  unfold PyWorker.loadPyodideIfNeeded.
  cbn [PyWorker.initialized PyWorker.initial PyWorker.indexURL
       PyWorker.currentToken].
  rewrite Hload. reflexivity.
Qed.

(** X11.  When the interpreter cannot be loaded, the executor
    posts [init] and never [run], and the consumer receives [init], the
    [error] of the failed load and, when the timer fires, [timeout]: the
    run has no [start] and no [done]. *)
Theorem python_runtime_unavailable :
  forall (options : option Virtualizer.Options)
         (onEvent : Virtualizer.Callback) (en : Virtualizer.Entropy)
         (rt : PyWorker.Runtime) (err : PyWorker.Exception),
    let r := Virtualizer.resolve options en in
    let host := [py_init_msg r en] in
    let ins :=
      deliveries (worker_session rt PyWorker.initial host) ++ [TimerFires] in
    Virtualizer.is_python (Virtualizer.language r) = true ->
    (forall url, PyWorker.loadPyodide rt url = Some err) ->
    posted_to_worker (fst (Virtualizer.runCode options onEvent en ins)) = host
    /\ Virtualizer.stream options onEvent en ins
       = [event r "init" no_payload;
          event r "error"
                (mkPayload None None (Some (PyWorker.error_text err)) None None);
          event r "timeout"
                (mkPayload None None
                   (Some (SandboxRunner.timeout_message
                            (Virtualizer.timeoutMs r)))
                   None None)].
Proof.
  intros options onEvent en rt err r host ins Hpy Hload.
  pose proof (python_is_not_javascript _ Hpy) as Hjs.
  subst ins host.
  rewrite (python_worker_session_unavailable r en rt err Hload).
  unfold Virtualizer.stream, Virtualizer.runCode. fold r. clearbody r.
  unfold Virtualizer.runCode_body. rewrite Hjs, Hpy.
  unfold bind at 1. unfold bind at 1. rewrite emit_eq.
  cbn -[Virtualizer.steps Virtualizer.py_adapter].
  cbn [Virtualizer.steps]. unfold bind at 1.
  cbn [Virtualizer.step]. unfold bind at 1.
  unfold Virtualizer.py_message, PythonExecutor.onmessage.
  cbn [Virtualizer.py PythonExecutor.token PythonExecutor.add wm_token wm_type].
  unfold bind at 1.
  rewrite py_token_truthy.
  change (Virtualizer.rnd_inner en ++ String "." (Virtualizer.rnd_now en))%string
    with (py_token en).
  rewrite strict_eq_refl.
  cbn [negb andb JS.strict_eq String.eqb Ascii.eqb Bool.eqb
       PythonExecutor.listeners PythonExecutor.set_ready PythonExecutor.add
       PythonExecutor.dispatch app PythonExecutor.fresh].
  unfold bind at 1. unfold bind at 1. unfold try_catch at 1.
  rewrite py_adapter_eq. cbn [snd].
  cbn -[Virtualizer.py_adapter py_adapter_world].
  split.
  - unfold py_init_msg.
    now destruct (JS.truthy (Virtualizer.indexURL r)) eqn:Hu; rewrite ?Hu.
  - rewrite py_adapter_eq. reflexivity.
Qed.

Lemma python_runtime_unavailable_witness :
  let r := Virtualizer.resolve (options_for "python" "print('x')")
                               sample_entropy in
  let host := [py_init_msg r sample_entropy] in
  let ins :=
    deliveries (worker_session unavailable PyWorker.initial host)
    ++ [TimerFires] in
  posted_to_worker
    (fst (Virtualizer.runCode (options_for "python" "print('x')") well_behaved
                              sample_entropy ins))
  = host
  /\ map summary
         (Virtualizer.stream (options_for "python" "print('x')") well_behaved
                             sample_entropy ins)
     = [("init", None, None);
        ("error", None, Some "Failed to fetch");
        ("timeout", None, Some "Execution timed out after 5000ms")].
Proof.
  intros r host ins.
  destruct (python_runtime_unavailable
              (options_for "python" "print('x')") well_behaved sample_entropy
              unavailable
              (PyWorker.mkException (Some "Failed to fetch")
                                    "TypeError: Failed to fetch"))
    as [Hposted Hstream]; [reflexivity | reflexivity |].
  split; [exact Hposted|].
  fold r host ins in Hstream. rewrite Hstream. reflexivity.
Defined.

(** ** A JavaScript run from end to end *)

(** X12.  A JavaScript run from end to end.  The inline script of the
    iframe does not compile: the line feed that the template literal of
    [srcdoc] makes of its escape sequence cuts a string literal of the
    script.  So the iframe posts nothing, whatever the program: the runner
    posts its one [execute] message when the iframe has loaded, the
    consumer receives [init] twice (one of [runCode], one of the runner)
    and then, when the watchdog fires, [timeout]; the program is never
    started. *)
Theorem javascript_run_stream :
  forall (options : option Virtualizer.Options)
         (onEvent : Virtualizer.Callback) (en : Virtualizer.Entropy)
         (b : Harness.Behaviour),
    let r := Virtualizer.resolve options en in
    Virtualizer.is_javascript (Virtualizer.language r) = true ->
    posted_to_iframe
      (fst (Virtualizer.runCode options onEvent en (frames en b)))
    = [mkExecuteMsg (Virtualizer.code r) (js_token en)]
    /\ Virtualizer.stream options onEvent en (frames en b)
       = [event r "init" no_payload; event r "init" no_payload]
    /\ Virtualizer.stream options onEvent en (frames en b ++ [TimerFires])
       = [event r "init" no_payload; event r "init" no_payload;
          timeout_event r].
Proof.
  intros options onEvent en b r Hjs.
  unfold Virtualizer.stream. rewrite frames_load.
  rewrite !(runCode_javascript options onEvent en _ Hjs). fold r.
  clearbody r. repeat split.
Qed.

Lemma javascript_run_stream_witness :
  posted_to_iframe
    (fst (Virtualizer.runCode (options_for "javascript" "console.log(1+1)")
                              well_behaved sample_entropy
                              (frames sample_entropy console_log_two)))
  = [mkExecuteMsg "console.log(1+1)" (js_token sample_entropy)]
  /\ map summary
         (Virtualizer.stream (options_for "javascript" "console.log(1+1)")
                             well_behaved sample_entropy
                             (frames sample_entropy console_log_two
                              ++ [TimerFires]))
     = [("init", None, None); ("init", None, None);
        ("timeout", None, Some "Execution timed out after 5000ms")].
Proof.
  destruct (javascript_run_stream (options_for "javascript" "console.log(1+1)")
                                  well_behaved sample_entropy console_log_two)
    as (Hposted & _ & Hstream); [reflexivity|].
  split; [exact Hposted|]. rewrite Hstream. reflexivity.
Defined.

(** ** Messages of other windows *)

Lemma js_token_step js i :
  SandboxRunner.token (js_next js i) = SandboxRunner.token js.
Proof. js_unfold. destruct i; js_split; reflexivity. Qed.

Lemma js_foreign_step js data :
  foreign_frame (SandboxRunner.token js) data ->
  js_events js (WindowMessage data) = []
  /\ js_next js (WindowMessage data) = js.
Proof.
  intros H. js_unfold.
  destruct (SandboxRunner.listening js); [|now split].
  destruct data as [m|]; [|now split]. cbn in H.
  assert (negb (fm_runner m)
          || negb (JS.strict_eq (fm_token m) (SandboxRunner.token js)) = true)
    as ->; [|now split].
  destruct H as [->|H]; [reflexivity|].
  destruct (fm_token m) as [t|]; [|apply orb_true_r].
  cbn. destruct (String.eqb_spec t (SandboxRunner.token js)) as [->|];
    [congruence|apply orb_true_r].
Qed.

(** X13.  A window message with no data, without the mark
    [__runner], or with a token that is not the token of the runner (or
    with none) leaves a run untouched: with or without it, [runCode]
    reaches the same state and the consumer has received the same
    events. *)
Theorem foreign_window_messages_ignored :
  forall (options : option Virtualizer.Options)
         (onEvent : Virtualizer.Callback) (en : Virtualizer.Entropy)
         (a b : list Input) (data : option FrameMsg),
    foreign_frame (js_token en) data ->
    Virtualizer.runCode options onEvent en (a ++ WindowMessage data :: b)
    = Virtualizer.runCode options onEvent en (a ++ b).
Proof.
  intros options onEvent en a b data Hforeign. rewrite !runCode_app.
  set (r := Virtualizer.resolve options en).
  destruct (Virtualizer.runCode options onEvent en a) as [[run|] w] eqn:Hrun;
    [|reflexivity].
  cbn [Virtualizer.steps]. rewrite (bind_returned _ _ _ run w); [reflexivity|].
  destruct run as [js|p|]; [|reflexivity|reflexivity].
  rewrite js_run_step.
  assert (SandboxRunner.token js = js_token en) as Htok.
  { destruct (Virtualizer.is_javascript (Virtualizer.language r)) eqn:Hjs.
    - rewrite (runCode_javascript options onEvent en a Hjs) in Hrun.
      injection Hrun as <- _. fold r.
      apply (js_trace_invariant r (fun js _ => SandboxRunner.token js
                                               = js_token en)).
      + intros js0 i w0 H. now rewrite js_token_step.
      + reflexivity.
    - destruct (Virtualizer.is_python (Virtualizer.language r)) eqn:Hpy.
      + destruct (runCode_python options onEvent en a Hjs Hpy)
          as (p & ph & w1 & Hp & _).
        rewrite Hp in Hrun. discriminate.
      + rewrite (runCode_unsupported options onEvent en a Hjs Hpy) in Hrun.
        discriminate. }
  rewrite <- Htok in Hforeign.
  destruct (js_foreign_step js data Hforeign) as [-> ->]. reflexivity.
Qed.

Lemma foreign_window_messages_ignored_witness :
  Virtualizer.runCode (options_for "javascript" "console.log(1+1)")
                      well_behaved sample_entropy
                      ([IframeLoad] ++ WindowMessage tokenless_frame :: [])
  = Virtualizer.runCode (options_for "javascript" "console.log(1+1)")
                        well_behaved sample_entropy ([IframeLoad] ++ []).
Proof.
  apply (foreign_window_messages_ignored
           (options_for "javascript" "console.log(1+1)") well_behaved
           sample_entropy [IframeLoad] [] tokenless_frame).
  right. discriminate.
Defined.

(** ** The budget of the runner *)

Lemma log_bytes_app a b : log_bytes (a ++ b) = log_bytes a + log_bytes b.
Proof. induction a as [|e a IH]; cbn [app log_bytes]; lia. Qed.

Lemma runner_budget_step st i es :
  runner_budget_inv st es ->
  runner_budget_inv (js_next st i) (es ++ js_events st i)
  /\ SandboxRunner.maxLogBytes (js_next st i) = SandboxRunner.maxLogBytes st.
Proof.
  intros [Hb Hm]. unfold runner_budget_inv. rewrite log_bytes_app.
  assert (JS.utf8_length "[output truncated]" = 18) as Hnotice by reflexivity.
  destruct st as [rid tok code tms max fin tot tn lis tim ifr out].
  cbn [SandboxRunner.totalLogBytes SandboxRunner.truncatedNotified
       SandboxRunner.maxLogBytes] in *.
  destruct tn; js_unfold; destruct i; js_split;
    cbn -[JS.utf8_length Z.add Z.leb Z.le] in *;
    rewrite ?Hnotice;
    repeat match goal with
           | H : (_ <=? _) = true |- _ => apply Z.leb_le in H
           | H : (_ <=? _) = false |- _ => apply Z.leb_gt in H
           end;
    try match goal with
        | |- context [JS.utf8_length ?s] => pose proof (utf8_length_nonneg s)
        end;
    (split; [split; lia|reflexivity]).
Qed.

Lemma deliver_recorder es : forall w, deliver recorder es w = w ++ es.
Proof.
  unfold deliver.
  induction es as [|e es IH]; intros w; cbn [fold_left];
    [now rewrite app_nil_r|].
  rewrite IH. unfold recorder. cbn [snd]. rewrite <- app_assoc. reflexivity.
Qed.

Lemma runner_steps_budget ins : forall st es,
  runner_budget_inv st es ->
  exists st' es',
    runner_steps recorder st ins es = (Returned st', es')
    /\ runner_budget_inv st' es'
    /\ SandboxRunner.maxLogBytes st' = SandboxRunner.maxLogBytes st.
Proof.
  induction ins as [|i ins IH]; intros st es Hinv.
  - exists st, es. split; [reflexivity|split; [exact Hinv|reflexivity]].
  - cbn [runner_steps].
    rewrite (bind_returned _ _ _ _ _ (js_step_spec recorder st i es)).
    rewrite deliver_recorder.
    destruct (runner_budget_step st i es Hinv) as [Hinv' Hmax].
    destruct (IH _ _ Hinv') as (st' & es' & Hsteps & Hinv'' & Hmax').
    exists st', es'. split; [exact Hsteps|split; [exact Hinv''|]].
    now rewrite Hmax'.
Qed.

(** X14.  [runJavaScript], called on its own with a budget that is
    not negative ([maxLogBytes], 65536 when left out): the text of the
    [log] events it hands to its callback never adds up to more than the
    budget and the 18 bytes of the truncation notice. *)
Theorem runner_log_budget :
  forall (code : string) (options : SandboxRunner.Options)
         (rnd1 rnd2 now : string) (ins : list Input),
    let budget :=
      match SandboxRunner.o_maxLogBytes options with
      | Some b => b
      | None => 65536
      end in
    0 <= budget ->
    log_bytes (runner_log code options rnd1 rnd2 now ins) <= budget + 18.
Proof.
  intros code options rnd1 rnd2 now ins budget Hbudget.
  unfold runner_log, SandboxRunner.runJavaScript.
  unfold bind at 1. unfold bind at 1.
  unfold SandboxRunner.emit, try_catch, recorder at 1. cbn [snd fst ret app].
  match goal with
  | |- context [runner_steps recorder ?st0 ins ?es0] =>
    destruct (runner_steps_budget ins st0 es0)
      as (st' & es' & -> & [Hb Hm] & Hmax)
  end.
  - split; [reflexivity|]. cbn. fold budget. lia.
  - cbn [snd]. rewrite Hb. cbn in Hmax. fold budget in Hmax.
    destruct (SandboxRunner.truncatedNotified st'); lia.
Qed.

Lemma runner_log_budget_witness :
  log_bytes (runner_log "console.log('abcd'); console.log('efgh')"
                        (SandboxRunner.mkOptions None (Some 5))
                        "q8w2e4" "z7m5n3" "1730000000000" flood)
  <= 5 + 18.
Proof.
  apply (runner_log_budget "console.log('abcd'); console.log('efgh')"
                           (SandboxRunner.mkOptions None (Some 5))
                           "q8w2e4" "z7m5n3" "1730000000000" flood).
  cbn. lia.
Defined.

(** ** Programs waiting for the worker *)

Lemma dispatch_ready {W} msg (ls : list (nat * PythonExecutor.Listener W)) :
  JS.strict_eq (wm_type msg) "ready" = true ->
  forall ex woken w,
  exists ex' w',
    PythonExecutor.dispatch msg ls ex woken w
    = (Returned (ex', woken ++ waiting_runs ls), w')
    /\ PythonExecutor.listeners ex'
       = filter (fun kl => negb (existsb (Nat.eqb (fst kl)) (waiter_keys ls)))
                (PythonExecutor.listeners ex)
    /\ PythonExecutor.outbox ex' = PythonExecutor.outbox ex
    /\ PythonExecutor.token ex' = PythonExecutor.token ex
    /\ PythonExecutor.worker ex' = PythonExecutor.worker ex
    /\ PythonExecutor.ready ex' = PythonExecutor.ready ex.
Proof.
  intros Hready.
  induction ls as [|[key l] ls IH]; intros ex woken w.
  - exists ex, w. cbn. rewrite app_nil_r. repeat split.
    induction (PythonExecutor.listeners ex) as [|kl kls IHk]; [reflexivity|].
    cbn. now rewrite <- IHk.
  - destruct l as [cb|code rnd];
      cbn [PythonExecutor.dispatch waiting_runs waiter_keys].
    + unfold bind, try_catch. cbn [fst snd]. apply IH.
    + rewrite Hready.
      destruct (IH (PythonExecutor.delete key ex) (woken ++ [(code, rnd)]) w)
        as (ex' & w' & Hd & Hl & Ho & Ht & Hw & Hr).
      exists ex', w'. rewrite Hd, <- app_assoc.
      split; [reflexivity|]. split; [|now repeat split].
      rewrite Hl. cbn [PythonExecutor.delete PythonExecutor.listeners].
      induction (PythonExecutor.listeners ex) as [|kl kls IHk]; [reflexivity|].
      cbn [filter existsb].
      destruct (Nat.eqb (fst kl) key); cbn [negb orb filter].
      * exact IHk.
      * destruct (existsb _ _); cbn [negb]; [exact IHk|now rewrite IHk].
Qed.

Lemma resume_all_runs {W} woken : forall (ex : PythonExecutor.Executor W),
  PythonExecutor.worker ex = true ->
  exists ex',
    PythonExecutor.resume_all woken ex = (ex', map run_id woken)
    /\ PythonExecutor.outbox ex'
       = PythonExecutor.outbox ex ++ map (run_msg (PythonExecutor.token ex)) woken
    /\ PythonExecutor.listeners ex' = PythonExecutor.listeners ex
    /\ PythonExecutor.ready ex' = PythonExecutor.ready ex
    /\ PythonExecutor.token ex' = PythonExecutor.token ex.
Proof.
  induction woken as [|[code rnd] woken IH]; intros ex Hw.
  - exists ex. cbn. rewrite app_nil_r. now repeat split.
  - cbn [PythonExecutor.resume_all]. unfold PythonExecutor.resume. rewrite Hw.
    match goal with
    | |- context [PythonExecutor.resume_all woken ?e] =>
      destruct (IH e Hw) as (ex' & -> & Ho & Hl & Hr & Ht)
    end.
    exists ex'. split; [reflexivity|].
    rewrite Ho, Hl, Hr, Ht. cbn. rewrite <- app_assoc. now repeat split.
Qed.

Lemma waiters_removed {W} (ls : list (nat * PythonExecutor.Listener W)) :
  waiting_runs
    (filter (fun kl => negb (existsb (Nat.eqb (fst kl)) (waiter_keys ls))) ls)
  = [].
Proof.
  enough (forall keys,
             (forall k, In k (waiter_keys ls) -> In k keys) ->
             waiting_runs
               (filter (fun kl => negb (existsb (Nat.eqb (fst kl)) keys)) ls)
             = []) as H by (apply H; auto).
  induction ls as [|[key l] ls IH]; intros keys Hin; [reflexivity|].
  destruct l as [cb|code rnd]; cbn [filter fst waiter_keys] in *.
  - destruct (negb _); cbn [waiting_runs]; now apply IH.
  - assert (existsb (Nat.eqb key) keys = true) as ->.
    { apply existsb_exists. exists key. split; [apply Hin; now left|].
      apply Nat.eqb_refl. }
    cbn. apply IH. intros k Hk. apply Hin. now right.
Qed.

Lemma waiting_runs_snoc {W} (ls : list (nat * PythonExecutor.Listener W))
      key code rnd :
  waiting_runs (ls ++ [(key, PythonExecutor.ReadyWaiter code rnd)])
  = waiting_runs ls ++ [(code, rnd)].
Proof.
  induction ls as [|[k [cb|c r]] ls IH]; cbn;
    [reflexivity|exact IH|now rewrite IH].
Qed.

(** X8.  [run] on an executor that is not ready posts no [run]
    message, returns no id yet and queues the program behind those already
    waiting.  When the [ready] message of the worker is accepted, the
    programs waiting are posted to the worker in the order of the calls of
    [run], each with the token of the executor, their runs are settled in
    that order, no waiter stays registered and the executor is ready. *)
Theorem queued_runs_submitted_in_order :
  forall (W : Type) (ex : PythonExecutor.Executor W),
    (forall code rnd,
        PythonExecutor.ready ex = false ->
        let queued := PythonExecutor.run code rnd ex in
        snd queued = None
        /\ waiting_runs (PythonExecutor.listeners (fst queued))
           = waiting_runs (PythonExecutor.listeners ex) ++ [(code, rnd)]
        /\ Forall (fun m => hm_type m <> Some "run")
                  (skipn (List.length (PythonExecutor.outbox ex))
                         (PythonExecutor.outbox (fst queued))))
    /\ (forall data w,
           PythonExecutor.worker ex = true ->
           host_accepts (PythonExecutor.token ex) (data_of data) = true ->
           JS.strict_eq (wm_type (data_of data)) "ready" = true ->
           exists ex' w',
             PythonExecutor.onmessage ex data w
             = (Returned
                  (ex', map run_id (waiting_runs (PythonExecutor.listeners ex))),
                w')
             /\ PythonExecutor.outbox ex'
                = PythonExecutor.outbox ex
                  ++ map (run_msg (PythonExecutor.token ex))
                         (waiting_runs (PythonExecutor.listeners ex))
             /\ waiting_runs (PythonExecutor.listeners ex') = []
             /\ PythonExecutor.ready ex' = true).
Proof.
  intros W ex. split.
  - intros code rnd Hr queued. subst queued.
    unfold PythonExecutor.run, PythonExecutor.ensureWorker.
    destruct (PythonExecutor.worker ex); cbn [PythonExecutor.ready];
      rewrite Hr; cbn [negb fst snd PythonExecutor.add PythonExecutor.listeners
                       PythonExecutor.outbox].
    + split; [reflexivity|]. split.
      * apply waiting_runs_snoc.
      * rewrite skipn_all. constructor.
    + split; [reflexivity|]. split.
      * apply waiting_runs_snoc.
      * rewrite skipn_app, skipn_all, Nat.sub_diag. cbn.
        now repeat constructor.
  - intros data w Hw Hacc Hready. unfold PythonExecutor.onmessage.
    fold (data_of data).
    unfold host_accepts in Hacc. apply negb_true_iff in Hacc. rewrite Hacc.
    rewrite Hready. unfold bind.
    destruct (dispatch_ready (data_of data)
                (PythonExecutor.listeners (PythonExecutor.set_ready true ex))
                Hready (PythonExecutor.set_ready true ex) [] w)
      as (ex1 & w1 & -> & Hl & Ho & Ht & Hw1 & Hr).
    cbn [app fst snd ret].
    destruct (resume_all_runs
                (waiting_runs
                   (PythonExecutor.listeners (PythonExecutor.set_ready true ex)))
                ex1) as (ex2 & -> & Ho2 & Hl2 & Hr2 & Ht2).
    { now rewrite Hw1. }
    exists ex2, w1. cbn [PythonExecutor.set_ready PythonExecutor.listeners] in *.
    split; [reflexivity|].
    rewrite Ho2, Ho, Ht, Hl2, Hl, Hr2, Hr. cbn.
    split; [reflexivity|]. split; [apply waiters_removed|reflexivity].
Qed.

Lemma queued_runs_submitted_in_order_witness :
  exists ex' w',
    PythonExecutor.onmessage two_queued ready_msg tt
    = (Returned (ex', [Returned "py_a4b5c6"; Returned "py_b7c8d9"]), w')
    /\ PythonExecutor.outbox ex'
       = PythonExecutor.outbox two_queued
         ++ [run_msg "q8w2e4.1730000000000" ("print(1)", "a4b5c6");
             run_msg "q8w2e4.1730000000000" ("print(2)", "b7c8d9")]
    /\ waiting_runs (PythonExecutor.listeners ex') = []
    /\ PythonExecutor.ready ex' = true.
Proof.
  apply (proj2 (queued_runs_submitted_in_order unit two_queued) ready_msg tt);
    reflexivity.
Defined.

(** ** Subscribing and unsubscribing *)







(** ** Toasts *)

Lemma toast_inv_remove id st : toast_inv st -> toast_inv (Toasts.remove id st).
Proof.
  intros H x Hin. cbn in Hin. apply filter_In in Hin. now apply H.
Qed.

Lemma toast_inv_push toast rnd st :
  Toasts.t_id toast = None ->
  toast_inv st -> toast_inv (fst (Toasts.push toast rnd st)).
Proof.
  intros Hid H x Hin. cbn in Hin |- *. apply in_app_or in Hin.
  destruct Hin as [Hin|[<-|[]]].
  - destruct (H x Hin) as [Hs|[d Hd]]; [now left|right].
    exists d. destruct (_ >? 0); [apply in_or_app; now left|exact Hd].
  - rewrite Hid. unfold sticky. cbn.
    destruct (Toasts.t_ttl toast) as [n|].
    + destruct (Z.gtb_spec n 0); [right|left; lia].
      exists n. apply in_or_app. right. now left.
    + right. exists 3000. cbn. apply in_or_app. right. now left.
Qed.

Lemma in_remove_nth {A} (xs : list A) n x y :
  nth_error xs n = Some y ->
  In x xs -> x = y \/ In x (firstn n xs ++ skipn (S n) xs).
Proof.
  revert n. induction xs as [|z xs IH]; intros n Hn Hin; [destruct Hin|].
  destruct n as [|n]; cbn in *.
  - injection Hn as <-. destruct Hin; auto.
  - destruct Hin as [<-|Hin]; [right; now left|].
    destruct (IH n Hn Hin); auto.
Qed.

Lemma toast_inv_fire n st : toast_inv st -> toast_inv (Toasts.fire n st).
Proof.
  intros H. unfold Toasts.fire.
  destruct (nth_error (Toasts.timers st) n) as [[id0 d0]|] eqn:Hn; [|exact H].
  intros x Hin. cbn in Hin |- *. apply filter_In in Hin.
  destruct Hin as [Hin Hne]. apply negb_true_iff, String.eqb_neq in Hne.
  destruct (H x Hin) as [Hs|[d Hd]]; [now left|right].
  exists d. destruct (in_remove_nth _ _ _ _ Hn Hd) as [Heq|Hrest];
    [congruence|exact Hrest].
Qed.

Lemma toast_inv_run ops : forall st,
  Forall plain ops -> toast_inv st -> toast_inv (fold_left toast_step ops st).
Proof.
  induction ops as [|op ops IH]; intros st Hplain H; [exact H|].
  inversion Hplain as [|? ? Hop Hops]; subst.
  cbn [fold_left]. apply IH; [exact Hops|].
  destruct op as [toast rnd|id|n]; cbn [toast_step].
  - now apply toast_inv_push.
  - now apply toast_inv_remove.
  - now apply toast_inv_fire.
Qed.

Lemma drain_spec : forall ts st,
  Toasts.timers st = ts ->
  toast_inv st ->
  Toasts.timers (fold_left (fun st _ => Toasts.fire 0 st) ts st) = []
  /\ toast_inv (fold_left (fun st _ => Toasts.fire 0 st) ts st).
Proof.
  induction ts as [|t ts IH]; intros st Hts H; [now split|].
  cbn [fold_left]. apply IH; [|now apply toast_inv_fire].
  unfold Toasts.fire. rewrite Hts. cbn. now destruct t.
Qed.

(** X15.  When no toast is pushed with an id of its own, then once every
    pending timer has fired the toasts still shown are the sticky ones,
    those pushed with a [ttl] of 0 or less. *)
Theorem toasts_expire :
  forall (ops : list ToastOp) (x : Toasts.Item),
    Forall plain ops ->
    In x (Toasts.toasts (drain (fold_left toast_step ops Toasts.initial))) ->
    sticky x.
Proof.
  intros ops x Hplain Hin. unfold drain in Hin.
  destruct (drain_spec _ (fold_left toast_step ops Toasts.initial) eq_refl)
    as [Hnone Hinv].
  { apply toast_inv_run; [exact Hplain|]. intros y []. }
  destruct (Hinv x Hin) as [Hs|[d Hd]]; [exact Hs|].
  rewrite Hnone in Hd. destruct Hd.
Qed.

Lemma toasts_expire_witness :
  sticky (Toasts.mkItem "p0q1r2" (Some "error") (Some "Snippet not found")
                        (Some 0)).
Proof.
  apply (toasts_expire [TPush saved_toast "k3v9x1"; TPush pinned_toast "p0q1r2"]).
  - repeat constructor.
  - cbn. now left.
Defined.

(** X16.  [push] of a toast without an id of its own appends one
    item, whose id is the id [push] returns; when no toast shown has that
    id, [remove] of it gives back the list of toasts as it was before. *)
Theorem remove_undoes_push :
  forall (st : Toasts.State) (toast : Toasts.Toast) (rnd : string),
    Toasts.t_id toast = None ->
    (forall x, In x (Toasts.toasts st) -> Toasts.id x <> rnd) ->
    let pushed := Toasts.push toast rnd st in
    Toasts.toasts (Toasts.remove (snd pushed) (fst pushed)) = Toasts.toasts st
    /\ exists x, Toasts.toasts (fst pushed) = Toasts.toasts st ++ [x]
                 /\ Toasts.id x = snd pushed.
Proof.
  intros st toast rnd Hid Hfresh pushed. subst pushed. cbn. rewrite Hid.
  split.
  - rewrite filter_app. cbn. rewrite String.eqb_refl. cbn. rewrite app_nil_r.
    induction (Toasts.toasts st) as [|y ys IH]; [reflexivity|].
    cbn. assert (Toasts.id y <> rnd) as Hy by (apply Hfresh; now left).
    apply String.eqb_neq in Hy. rewrite Hy. cbn. rewrite IH; [reflexivity|].
    intros x Hin. apply Hfresh. now right.
  - eexists. split; reflexivity.
Qed.

Lemma remove_undoes_push_witness :
  let shown := fst (Toasts.push pinned_toast "p0q1r2" Toasts.initial) in
  let pushed := Toasts.push saved_toast "k3v9x1" shown in
  Toasts.toasts (Toasts.remove (snd pushed) (fst pushed)) = Toasts.toasts shown
  /\ exists x, Toasts.toasts (fst pushed) = Toasts.toasts shown ++ [x]
               /\ Toasts.id x = snd pushed.
Proof.
  apply (remove_undoes_push
           (fst (Toasts.push pinned_toast "p0q1r2" Toasts.initial))
           saved_toast "k3v9x1").
  - reflexivity.
  - intros x [<-|[]]. discriminate.
Defined.

(** ** The matcher *)

Lemma run_star_class p (k : Regex.Cont) :
  (forall s c, k s c <> None) ->
  forall s prev c,
    Regex.run (Regex.Star true (Regex.Chr p)) (Regex.mkPos prev s) c k
    = k (span_end p prev s) c.
Proof.
  intros Hk. cbn [Regex.run Regex.rest].
  induction s as [|ch t IH]; intros prev c; [reflexivity|].
  cbn [List.length Regex.star Regex.run Regex.rest span_end].
  destruct (p ch) eqn:Hp; [|reflexivity].
  unfold Regex.consumed. cbn [Regex.rest List.length].
  rewrite (proj2 (Nat.ltb_lt _ _) (Nat.lt_succ_diag_r _)).
  rewrite IH.
  destruct (k (span_end p (Some ch) t) c) eqn:Hkk; [reflexivity|].
  now apply Hk in Hkk.
Qed.

Lemma span_end_split p t : forall prev,
  exists run,
    t = run ++ Regex.rest (span_end p prev t)
    /\ Forall (fun ch => p ch = true) run.
Proof.
  induction t as [|ch t IH]; intros prev.
  - exists []. now split.
  - cbn [span_end]. destruct (p ch) eqn:Hp.
    + destruct (IH (Some ch)) as (run & Ht & Hrun).
      exists (ch :: run). split; [cbn; now rewrite <- Ht|now constructor].
    + exists []. now split.
Qed.

Lemma word_not_space ch : Regex.word ch = true -> Regex.space ch = false.
Proof.
  destruct ch as [[|] [|] [|] [|] [|] [|] [|] [|]]; vm_compute; congruence.
Qed.

(** ** The separators of [TokenViewer] *)

Lemma at_separator prev ch t :
  Regex.at_pos TokenViewer.separator (Regex.mkPos prev (ch :: t))
  = if Regex.space ch then
      Some (span_end Regex.space (Some ch) t,
            [(1%nat, Regex.text (Regex.mkPos prev (ch :: t))
                                (span_end Regex.space (Some ch) t))])
    else if Regex.word ch then None
    else Some (Regex.mkPos (Some ch) t, [(1%nat, String ch "")]).
Proof.
  unfold Regex.at_pos, TokenViewer.separator, Regex.Plus.
  remember (Regex.Star true (Regex.Chr Regex.space)) as spaces eqn:Hspaces.
  cbn [Regex.run Regex.rest].
  destruct (Regex.space ch) eqn:Hs.
  - subst spaces. rewrite run_star_class; [reflexivity|].
    intros s c. discriminate.
  - cbn [Regex.or_try orb negb]. rewrite orb_false_r.
    destruct (Regex.word ch); cbn [negb]; [reflexivity|].
    unfold Regex.accept, Regex.text. cbn [Regex.rest List.length].
    replace (S (List.length t) - List.length t)%nat with 1%nat by lia.
    reflexivity.
Qed.

Lemma trim_start_spaces s :
  Forall (fun ch => Regex.space ch = true) s -> Str.trim_start s = [].
Proof.
  induction 1 as [|ch s Hch _ IH]; [reflexivity|]. cbn. now rewrite Hch.
Qed.

Lemma trim_spaces s :
  Forall (fun ch => Regex.space ch = true) s ->
  Str.trim (string_of_list_ascii s) = "".
Proof.
  intros H. unfold Str.trim. rewrite list_ascii_of_string_of_list_ascii.
  now rewrite (trim_start_spaces s H).
Qed.

Lemma trim_start_solid s :
  Forall (fun ch => Regex.space ch = false) s -> Str.trim_start s = s.
Proof.
  destruct 1 as [|ch s Hch _]; [reflexivity|]. cbn. now rewrite Hch.
Qed.

Lemma trim_solid s :
  Forall (fun ch => Regex.space ch = false) s ->
  Str.trim (string_of_list_ascii s) = string_of_list_ascii s.
Proof.
  intros H. unfold Str.trim. rewrite list_ascii_of_string_of_list_ascii.
  rewrite (trim_start_solid s H).
  rewrite trim_start_solid, rev_involutive; [reflexivity|].
  now apply Forall_rev.
Qed.

Lemma string_of_list_empty s : string_of_list_ascii s = "" -> s = [].
Proof. destruct s; [reflexivity|discriminate]. Qed.

Lemma string_of_list_app a b :
  string_of_list_ascii (a ++ b)
  = (string_of_list_ascii a ++ string_of_list_ascii b)%string.
Proof. induction a as [|c a IH]; cbn; [reflexivity|now rewrite IH]. Qed.

Lemma length_drop (run tail : list ascii) :
  (S (List.length (run ++ tail)) - List.length tail)%nat
  = S (List.length run).
Proof. rewrite length_app. lia. Qed.

Lemma firstn_length_app {A} (a b : list A) : firstn (List.length a) (a ++ b) = a.
Proof. induction a as [|x a IH]; cbn; [now destruct b|now rewrite IH]. Qed.

(** What [split] and [filter] make of the rest of a source: the words
    still to come, given the piece being read and the separator being
    passed. *)
Lemma words_of_split s : forall prev piece skip,
  Forall (fun ch => Regex.word ch = true) piece ->
  Forall (fun ch => Regex.space ch = true) (firstn skip s) ->
  exists ws,
    TokenViewer.words_of
      (Regex.split_from TokenViewer.separator [1%nat] prev s piece skip)
    = Returned ws
    /\ glue ws
       = string_of_list_ascii
           (rev piece ++ filter (fun ch => negb (Regex.space ch)) s)
    /\ Forall (fun w => word_run w \/ symbol w) ws.
Proof.
  assert (forall piece,
             Forall (fun ch => Regex.word ch = true) piece ->
             forall ws rest,
               glue ws = string_of_list_ascii rest ->
               Forall (fun w => word_run w \/ symbol w) ws ->
               let kept :=
                 if String.eqb (Str.trim (string_of_list_ascii (rev piece))) ""
                 then ws else string_of_list_ascii (rev piece) :: ws in
               glue kept = string_of_list_ascii (rev piece ++ rest)
               /\ Forall (fun w => word_run w \/ symbol w) kept) as Hpiece.
  { intros piece Hw ws rest Hc Hs kept. subst kept.
    assert (Forall (fun ch => Regex.space ch = false) (rev piece)) as Hsolid.
    { apply Forall_rev. eapply Forall_impl; [|exact Hw].
      intros ch. apply word_not_space. }
    rewrite (trim_solid _ Hsolid).
    destruct (String.eqb_spec (string_of_list_ascii (rev piece)) "") as [He|Hne].
    - apply string_of_list_empty in He. rewrite He. now split.
    - split.
      + rewrite string_of_list_app, <- Hc. reflexivity.
      + constructor; [|exact Hs]. left. split; [exact Hne|].
        rewrite list_ascii_of_string_of_list_ascii. now apply Forall_rev. }
  induction s as [|ch t IH]; intros prev piece skip Hw Hskip.
  - cbn [Regex.split_from TokenViewer.words_of].
    destruct (Hpiece piece Hw [] [] eq_refl ltac:(constructor)) as [Hc Hs].
    eexists. split; [reflexivity|]. cbn [filter]. split; assumption.
  - cbn [Regex.split_from]. destruct skip as [|skip].
    + rewrite at_separator. destruct (Regex.space ch) eqn:Hsp.
      * destruct (span_end_split Regex.space t (Some ch)) as (run & Ht & Hrun).
        set (e := span_end Regex.space (Some ch) t) in *. clearbody e. subst t.
        assert (Regex.text (Regex.mkPos prev (ch :: run ++ Regex.rest e)) e
                = string_of_list_ascii (ch :: run)) as Htext.
        { unfold Regex.text. cbn [Regex.rest List.length].
          rewrite length_drop. cbn [firstn]. now rewrite firstn_length_app. }
        cbn [Regex.rest List.length]. rewrite length_drop, Htext.
        destruct (IH (Some ch) [] (List.length run) ltac:(constructor))
          as (ws & Hws & Hc & Hs).
        { rewrite firstn_length_app. exact Hrun. }
        destruct (Hpiece piece Hw ws _ Hc Hs) as [Hc' Hs'].
        eexists. split; [|split; [|exact Hs']].
        -- destruct piece;
             cbn [map Regex.capture Nat.eqb app TokenViewer.words_of];
             rewrite Hws, (trim_spaces (ch :: run)) by (now constructor);
             reflexivity.
        -- cbn [filter rev app] in *. rewrite Hsp. cbn [negb]. exact Hc'.
      * destruct (Regex.word ch) eqn:Hword.
        -- destruct (IH (Some ch) (ch :: piece) 0%nat ltac:(now constructor)
                        ltac:(constructor)) as (ws & Hws & Hc & Hs).
           exists ws. split; [exact Hws|]. split; [|exact Hs].
           rewrite Hc. cbn [rev filter]. rewrite Hsp. cbn [negb].
           now rewrite <- app_assoc.
        -- cbn [Regex.rest List.length].
           replace (S (List.length t) - List.length t)%nat with 1%nat by lia.
           destruct (IH (Some ch) [] 0%nat ltac:(constructor)
                        ltac:(constructor)) as (ws & Hws & Hc & Hs).
           destruct (Hpiece piece Hw (String ch "" :: ws)
                            (ch :: filter (fun c0 => negb (Regex.space c0)) t))
             as [Hc' Hs'].
           { change (glue (String ch "" :: ws))
               with (String ch "" ++ glue ws)%string.
             rewrite Hc. reflexivity. }
           { constructor; [|exact Hs]. right. exists ch. now repeat split. }
           eexists. split; [|split; [|exact Hs']].
           ++ destruct piece;
                cbn [map Regex.capture Nat.eqb app TokenViewer.words_of];
                rewrite Hws;
                replace (Str.trim (String ch "")) with (String ch "")
                  by (symmetry; apply (trim_solid [ch]); now repeat constructor);
                reflexivity.
           ++ cbn [filter]. rewrite Hsp. cbn [negb]. exact Hc'.
    + inversion Hskip as [|? ? Hch Hrest]; subst.
      destruct (IH (Some ch) piece skip Hw Hrest) as (ws & Hws & Hc & Hs).
      exists ws. split; [exact Hws|]. split; [|exact Hs].
      rewrite Hc. cbn [filter]. rewrite Hch. reflexivity.
Qed.

Lemma token_value config w index :
  TokenViewer.value (TokenViewer.token config w index) = w.
Proof.
  unfold TokenViewer.token.
  repeat match goal with
         | |- context [if ?b then _ else _] => destruct b
         end; reflexivity.
Qed.

Lemma map_index_values config ws : forall index,
  map TokenViewer.value (TokenViewer.map_index (TokenViewer.token config) ws index)
  = ws.
Proof.
  induction ws as [|w ws IH]; intros index; [reflexivity|].
  cbn. now rewrite token_value, IH.
Qed.

(** The words of a source: runs of word characters and single symbols
    that, put together, give the source without its white space. *)
Lemma words_of_source src :
  exists ws,
    TokenViewer.words_of (Regex.split TokenViewer.separator [1%nat] src)
    = Returned ws
    /\ glue ws = strip_spaces src
    /\ Forall (fun w => word_run w \/ symbol w) ws.
Proof.
  unfold Regex.split, strip_spaces.
  destruct (list_ascii_of_string src) as [|ch t] eqn:Hsrc.
  - exists []. cbn. now repeat split.
  - destruct (words_of_split (ch :: t) None [] 0%nat ltac:(constructor)
                             ltac:(constructor)) as (ws & Hws & Hc & Hs).
    exists ws. now repeat split.
Qed.

(** X17.  For a language that has a configuration (any name but
    those of the members of [Object.prototype]), the tokenizer returns, the
    values of its tokens put one after the other are the source without its
    white space, and each of them is a run of word characters or a single
    character that is neither a word character nor white space. *)
Theorem tokens_cover_source :
  forall (language : string) (config : TokenViewer.Config) (src : string),
    TokenViewer.config_of language = Some config ->
    exists ts,
      TokenViewer.performLiveTokenization language src = Returned ts
      /\ glue (map TokenViewer.value ts) = strip_spaces src
      /\ Forall (fun t => word_run (TokenViewer.value t)
                          \/ symbol (TokenViewer.value t)) ts.
Proof.
  intros language config src Hconfig. unfold TokenViewer.performLiveTokenization.
  destruct (words_of_source src) as (ws & -> & Hglue & Hshape). rewrite Hconfig.
  exists (TokenViewer.map_index (TokenViewer.token config) ws 0).
  split; [now destruct ws|].
  rewrite map_index_values. split; [exact Hglue|].
  apply Forall_forall. intros t Hin.
  apply (in_map TokenViewer.value) in Hin. rewrite map_index_values in Hin.
  rewrite Forall_forall in Hshape. now apply Hshape.
Qed.

Lemma tokens_cover_source_witness :
  exists ts,
    TokenViewer.performLiveTokenization "javascript" "if (a == 'x y') b1 = 2.5;"
    = Returned ts
    /\ glue (map TokenViewer.value ts) = "if(a=='xy')b1=2.5;"
    /\ Forall (fun t => word_run (TokenViewer.value t)
                        \/ symbol (TokenViewer.value t)) ts.
Proof.
  apply (tokens_cover_source "javascript" TokenViewer.javascript
                             "if (a == 'x y') b1 = 2.5;").
  reflexivity.
Defined.

(** ** The classes a token can get *)

Lemma search_bol r s : forall prev,
  Regex.search (Regex.Seq Regex.Bol r) (Some prev) s = None.
Proof.
  induction s as [|ch t IH]; intros prev; cbn; [reflexivity|apply IH].
Qed.

Lemma test_bol r w :
  Regex.test (Regex.Seq Regex.Bol r) w
  = match Regex.run r (Regex.mkPos None (list_ascii_of_string w)) []
                    Regex.accept with
    | Some _ => true
    | None => false
    end.
Proof.
  unfold Regex.test, Regex.exec.
  destruct (list_ascii_of_string w) as [|ch t];
    cbn [Regex.search Regex.at_pos Regex.run Regex.before];
    destruct (Regex.run r _ [] Regex.accept) as [[e c]|]; try reflexivity.
  now rewrite search_bol.
Qed.

Lemma word_run_head w :
  word_run w ->
  exists ch t, list_ascii_of_string w = ch :: t /\ Regex.word ch = true.
Proof.
  intros [Hne Hall]. destruct w as [|ch t]; [congruence|].
  cbn in Hall. inversion Hall; subst. now exists ch, (list_ascii_of_string t).
Qed.

Lemma not_quoted w :
  word_run w \/ symbol w -> Regex.test TokenViewer.quoted w = false.
Proof.
  intros Hw. unfold TokenViewer.quoted. rewrite test_bol.
  destruct Hw as [Hw|(ch & -> & Hword & Hspace)].
  - destruct (word_run_head w Hw) as (ch & t & -> & Hch).
    cbn [Regex.run Regex.rest].
    replace (TokenViewer.quote ch) with false; [reflexivity|].
    destruct ch as [[|] [|] [|] [|] [|] [|] [|] [|]]; vm_compute in Hch |- *;
      congruence.
  - cbn [list_ascii_of_string Regex.run Regex.rest].
    destruct (TokenViewer.quote ch); reflexivity.
Qed.

Lemma not_comment w :
  word_run w \/ symbol w ->
  Regex.test TokenViewer.line_comment w || Regex.test TokenViewer.block_comment w
  = false.
Proof.
  intros Hw. unfold TokenViewer.line_comment, TokenViewer.block_comment.
  rewrite !test_bol.
  destruct Hw as [Hw|(ch & -> & Hword & Hspace)].
  - destruct (word_run_head w Hw) as (ch & t & -> & Hch).
    cbn [Regex.run Regex.rest Regex.Lit].
    replace (Ascii.eqb "/" ch) with false; [reflexivity|].
    destruct ch as [[|] [|] [|] [|] [|] [|] [|] [|]]; vm_compute in Hch |- *;
      congruence.
  - cbn [list_ascii_of_string Regex.run Regex.rest Regex.Lit].
    destruct (Ascii.eqb "/" ch); reflexivity.
Qed.

(** X18.  No token of the tokenizer has the type [string] or
    [comment]: a quoted text or a comment is always cut into smaller
    tokens. *)
Theorem no_string_or_comment_token :
  forall (language : string) (src : string) (ts : list TokenViewer.Token)
         (t : TokenViewer.Token),
    TokenViewer.performLiveTokenization language src = Returned ts ->
    In t ts ->
    TokenViewer.type t <> "string" /\ TokenViewer.type t <> "comment".
Proof.
  intros language src ts t Hrun Hin.
  unfold TokenViewer.performLiveTokenization in Hrun.
  destruct (words_of_source src) as (ws & Hws & _ & Hshape).
  rewrite Hws in Hrun.
  destruct ws as [|w0 ws0]; [injection Hrun as <-; destruct Hin|].
  destruct (TokenViewer.config_of language) as [config|]; [|discriminate].
  injection Hrun as <-.
  assert (forall ws index,
             Forall (fun w => word_run w \/ symbol w) ws ->
             In t (TokenViewer.map_index (TokenViewer.token config) ws index) ->
             TokenViewer.type t <> "string" /\ TokenViewer.type t <> "comment")
    as H; [|now apply (H _ _ Hshape Hin)].
  clear. induction ws as [|w ws IH]; intros index Hall Ht; [destruct Ht|].
  inversion Hall as [|? ? Hw Hws]; subst.
  destruct Ht as [<-|Ht]; [|now apply (IH (S index))].
  unfold TokenViewer.token.
  rewrite (not_quoted w Hw), (not_comment w Hw).
  repeat match goal with
         | |- context [if ?b then _ else _] => destruct b
         end; split; discriminate.
Qed.

Lemma no_string_or_comment_token_witness :
  TokenViewer.type lone_quote <> "string"
  /\ TokenViewer.type lone_quote <> "comment".
Proof.
  apply (no_string_or_comment_token "python" "'" [lone_quote] lone_quote).
  - vm_compute. reflexivity.
  - now left.
Defined.

(** ** The tree of [generateDynamicAST] *)

Lemma fold_push (ns : list ParserTreeGraph.Node) :
  forall st,
    fold_left (fun st node => ParserTreeGraph.push node st) ns st
    = ParserTreeGraph.mkState (ParserTreeGraph.nodes st ++ ns)
                              (ParserTreeGraph.root_children st)
                              (ParserTreeGraph.idx st).
Proof.
  induction ns as [|n ns IH]; intros [ns0 rc i]; cbn.
  - now rewrite app_nil_r.
  - rewrite IH. cbn. now rewrite <- app_assoc.
Qed.

Lemma mapi_ids {A} (f : A -> nat -> ParserTreeGraph.Node) (g : nat -> string)
      (xs : list A) :
  (forall x k, ParserTreeGraph.id (f x k) = g k) ->
  forall k,
    map ParserTreeGraph.id (ParserTreeGraph.mapi f xs k)
    = ParserTreeGraph.mapi (fun _ k => g k) xs k.
Proof.
  intros H. induction xs as [|x xs IH]; intros k; cbn; [reflexivity|].
  now rewrite H, IH.
Qed.

Lemma mapi_Forall {A B} (f : A -> nat -> B) (P : B -> Prop) (xs : list A) :
  (forall x k, P (f x k)) ->
  forall k, Forall P (ParserTreeGraph.mapi f xs k).
Proof.
  intros H. induction xs as [|x xs IH]; intros k; cbn; constructor; auto.
Qed.

(** A line adds no node, or one node of the first level, in the next
    cell of the grid, followed by its children. *)
Lemma visit_family (st : ParserTreeGraph.State) (line : string) (i : nat) :
  ParserTreeGraph.visit st line i = st \/
  exists g : Family,
    family_ok g /\
    ParserTreeGraph.position (fst g) = cell (ParserTreeGraph.idx st) /\
    ParserTreeGraph.visit st line i
    = ParserTreeGraph.mkState
        (ParserTreeGraph.nodes st ++ family_nodes g)
        (ParserTreeGraph.root_children st ++ [ParserTreeGraph.id (fst g)])
        (S (ParserTreeGraph.idx st)).
Proof.
  destruct st as [ns rc ix].
  unfold ParserTreeGraph.visit.
  destruct (Regex.exec ParserTreeGraph.function_declaration line) as [fn|].
  { right. cbn [ParserTreeGraph.gridPos ParserTreeGraph.idx
                ParserTreeGraph.nodes ParserTreeGraph.root_children].
    eexists (_, _). split; [|split].
    3: { rewrite fold_push. unfold ParserTreeGraph.addChild, family_nodes.
         cbn [ParserTreeGraph.nodes ParserTreeGraph.root_children
              ParserTreeGraph.idx ParserTreeGraph.id fst snd].
         rewrite <- app_assoc. cbn [app]. f_equal; reflexivity. }
    - repeat split; cbn [fst snd ParserTreeGraph.level ParserTreeGraph.children].
      + symmetry. now apply mapi_ids.
      + apply mapi_Forall. intros p k. cbn. repeat split; lia.
    - reflexivity. }
  destruct (Regex.exec ParserTreeGraph.variable_declaration line) as [vd|].
  { right. cbn [ParserTreeGraph.gridPos ParserTreeGraph.idx
                ParserTreeGraph.nodes ParserTreeGraph.root_children].
    destruct (if JS.truthy (Regex.capture 4 vd) then Regex.capture 4 vd
              else None) as [init|].
    - eexists (_, [_]). split; [|split].
      3: { unfold ParserTreeGraph.push, ParserTreeGraph.addChild, family_nodes.
           cbn [ParserTreeGraph.nodes ParserTreeGraph.root_children
                ParserTreeGraph.idx ParserTreeGraph.id fst snd].
           rewrite <- app_assoc. cbn [app]. f_equal; reflexivity. }
      + repeat split; cbn; try reflexivity.
        constructor; [|constructor]. cbn. repeat split; lia.
      + reflexivity.
    - eexists (_, []). split; [|split].
      3: { unfold ParserTreeGraph.addChild, family_nodes.
           cbn [ParserTreeGraph.nodes ParserTreeGraph.root_children
                ParserTreeGraph.idx ParserTreeGraph.id fst snd].
           f_equal; reflexivity. }
      + repeat split; cbn; try reflexivity. constructor.
      + reflexivity. }
  destruct (Regex.exec ParserTreeGraph.return_statement line) as [rt|].
  { right. cbn [ParserTreeGraph.gridPos ParserTreeGraph.idx
                ParserTreeGraph.nodes ParserTreeGraph.root_children].
    eexists (_, []). split; [|split].
    3: { unfold ParserTreeGraph.addChild, family_nodes.
         cbn [ParserTreeGraph.nodes ParserTreeGraph.root_children
              ParserTreeGraph.idx ParserTreeGraph.id fst snd].
         f_equal; reflexivity. }
    - repeat split; cbn; try reflexivity. constructor.
    - reflexivity. }
  destruct (Regex.exec ParserTreeGraph.call_expression line) as [call|].
  { right. cbn [ParserTreeGraph.gridPos ParserTreeGraph.idx
                ParserTreeGraph.nodes ParserTreeGraph.root_children].
    eexists (_, _). split; [|split].
    3: { rewrite fold_push. unfold ParserTreeGraph.addChild, family_nodes.
         cbn [ParserTreeGraph.nodes ParserTreeGraph.root_children
              ParserTreeGraph.idx ParserTreeGraph.id fst snd].
         rewrite <- app_assoc. cbn [app]. f_equal; reflexivity. }
    - repeat split; cbn [fst snd ParserTreeGraph.level ParserTreeGraph.children].
      + symmetry. now apply mapi_ids.
      + apply mapi_Forall. intros p k. cbn. repeat split; lia.
    - reflexivity. }
  cbv zeta.
  destruct (String.eqb _ ""); [now left|].
  right. cbn [ParserTreeGraph.gridPos ParserTreeGraph.idx
              ParserTreeGraph.nodes ParserTreeGraph.root_children].
  eexists (_, []). split; [|split].
  3: { unfold ParserTreeGraph.addChild, family_nodes.
       cbn [ParserTreeGraph.nodes ParserTreeGraph.root_children
            ParserTreeGraph.idx ParserTreeGraph.id fst snd].
       f_equal; reflexivity. }
  - repeat split; cbn; try reflexivity. constructor.
  - reflexivity.
Qed.

Lemma forest_inv_visit st fs line i :
  forest_inv st fs ->
  exists fs', forest_inv (ParserTreeGraph.visit st line i) fs' /\
              (List.length fs' <= S (List.length fs))%nat.
Proof.
  intros (Hn & Hr & Hi & Hok & Hpos).
  destruct (visit_family st line i) as [->|(g & Hg & Hp & ->)].
  - exists fs. split; [now repeat split|lia].
  - exists (fs ++ [g]). split.
    2: { rewrite length_app. cbn. lia. }
    unfold forest_inv. cbn [ParserTreeGraph.nodes ParserTreeGraph.root_children
                            ParserTreeGraph.idx].
    rewrite flat_map_app, map_app, length_app, Hn, Hr, Hi. cbn.
    rewrite app_nil_r. repeat split; try reflexivity.
    + lia.
    + apply Forall_app. split; [exact Hok|now constructor].
    + intros k g' Hk.
      destruct (Nat.lt_ge_cases k (List.length fs)) as [Hlt|Hge].
      * rewrite nth_error_app1 in Hk by exact Hlt. now apply Hpos.
      * rewrite nth_error_app2 in Hk by exact Hge.
        destruct (k - List.length fs)%nat as [|m] eqn:Hm.
        -- cbn in Hk. injection Hk as <-. rewrite Hp, Hi.
           replace k with (List.length fs) by lia. reflexivity.
        -- cbn in Hk. now destruct m.
Qed.

Lemma forest_inv_forEach lines :
  forall st fs i,
    forest_inv st fs ->
    exists fs', forest_inv (ParserTreeGraph.forEach st lines i) fs' /\
                (List.length fs' <= List.length fs + List.length lines)%nat.
Proof.
  induction lines as [|line lines IH]; intros st fs i Hinv; cbn.
  - exists fs. split; [exact Hinv|lia].
  - destruct (forest_inv_visit st fs line i Hinv) as (fs1 & H1 & Hl1).
    destruct (IH _ _ (S i) H1) as (fs2 & H2 & Hl2).
    exists fs2. split; [exact H2|lia].
Qed.

(** X19.  The tree drawn for a source text has two levels below the
    root.  The root lists, in order, the ids of the nodes of level 1; each
    of them is followed in [allNodes] by its own children, which it lists
    by id and which are leaves of level 2 placed in its column below it;
    the [k]-th node of level 1 sits in the cell [k] of a grid of four
    columns; and there is at most one node of level 1 for each line of the
    source that is not blank. *)
Theorem ast_is_a_two_level_forest (sourceCode : option string) :
  let tree := ParserTreeGraph.generateDynamicAST sourceCode in
  exists fs : list Family,
    ParserTreeGraph.allNodes tree
    = ParserTreeGraph.root tree :: flat_map family_nodes fs /\
    ParserTreeGraph.children (ParserTreeGraph.root tree)
    = map (fun g => ParserTreeGraph.id (fst g)) fs /\
    Forall family_ok fs /\
    (forall k g, nth_error fs k = Some g ->
                 ParserTreeGraph.position (fst g) = cell k) /\
    (List.length fs
     <= List.length
          (ParserTreeGraph.lines_of (Str.trim (JS.or_else sourceCode ""))))%nat.
Proof.
  intros tree. subst tree. unfold ParserTreeGraph.generateDynamicAST.
  cbv zeta.
  destruct (String.eqb (Str.trim (JS.or_else sourceCode "")) "") eqn:He.
  - exists []. cbn. repeat split; try constructor.
    + intros k g Hk. now destruct k.
    + lia.
  - destruct (forest_inv_forEach
                (ParserTreeGraph.lines_of (Str.trim (JS.or_else sourceCode "")))
                (ParserTreeGraph.mkState [] [] 0) [] 0)
      as (fs & (Hn & Hr & Hi & Hok & Hpos) & Hlen).
    { repeat split; try constructor. intros k g Hk. now destruct k. }
    exists fs. cbn [ParserTreeGraph.allNodes ParserTreeGraph.root
                    ParserTreeGraph.children].
    rewrite Hn, Hr. repeat split; try assumption.
Qed.

Lemma number_to_string_inj (n m : Z) :
  JS.number_to_string n = JS.number_to_string m -> n = m.
Proof.
  unfold JS.number_to_string. intros H.
  assert (Hnil : forall z, Z.to_int z <> Decimal.Pos Decimal.Nil /\
                           Z.to_int z <> Decimal.Neg Decimal.Nil).
  { intros z. split; intros Hz; pose proof (f_equal Z.of_int Hz) as Hz';
      rewrite DecimalZ.of_to in Hz'; cbn in Hz'; subst z; discriminate Hz. }
  apply DecimalZ.to_int_inj.
  assert (Some (Z.to_int n) = Some (Z.to_int m)) as [= ->]; [|reflexivity].
  rewrite <- (NilZero.isi (Z.to_int n)), <- (NilZero.isi (Z.to_int m));
    try apply Hnil.
  now rewrite H.
Qed.

Lemma id1_inj p q i j :
  In p prefixes -> In q prefixes ->
  ParserTreeGraph.id1 p i = ParserTreeGraph.id1 q j -> i = j.
Proof.
  unfold prefixes, ParserTreeGraph.id1. cbn [In].
  intros Hp Hq H.
  assert (JS.number_to_string (Z.of_nat i) = JS.number_to_string (Z.of_nat j)).
  { repeat (destruct Hp as [<-|Hp]; [|]); try contradiction;
      repeat (destruct Hq as [<-|Hq]; [|]); try contradiction;
      cbn [append] in H; congruence. }
  apply number_to_string_inj in H0. lia.
Qed.

Lemma id1_not_root p i :
  In p prefixes -> ParserTreeGraph.id1 p i <> "root".
Proof.
  unfold prefixes, ParserTreeGraph.id1. cbn [In]. intros Hp H.
  repeat (destruct Hp as [<-|Hp]; [|]); try contradiction;
    cbn [append] in H; congruence.
Qed.

Lemma fold_push_keys (ns : list ParserTreeGraph.Node) st :
  ParserTreeGraph.root_children
    (fold_left (fun st node => ParserTreeGraph.push node st) ns st)
  = ParserTreeGraph.root_children st.
Proof. now rewrite fold_push. Qed.

(** A line adds no id to the root, or the one made of a prefix and the
    index of the line. *)
Lemma visit_key (st : ParserTreeGraph.State) (line : string) (i : nat) :
  ParserTreeGraph.root_children (ParserTreeGraph.visit st line i)
  = ParserTreeGraph.root_children st \/
  exists p, In p prefixes /\
            ParserTreeGraph.root_children (ParserTreeGraph.visit st line i)
            = ParserTreeGraph.root_children st ++ [ParserTreeGraph.id1 p i].
Proof.
  destruct st as [ns rc ix].
  unfold ParserTreeGraph.visit, prefixes.
  destruct (Regex.exec ParserTreeGraph.function_declaration line) as [fn|].
  { right. exists "fn". split; [cbn; tauto|].
    cbn [ParserTreeGraph.gridPos]. now rewrite fold_push_keys. }
  destruct (Regex.exec ParserTreeGraph.variable_declaration line) as [vd|].
  { right. exists "var". split; [cbn; tauto|].
    cbn [ParserTreeGraph.gridPos].
    now destruct (if JS.truthy (Regex.capture 4 vd) then Regex.capture 4 vd
                  else None). }
  destruct (Regex.exec ParserTreeGraph.return_statement line) as [rt|].
  { right. exists "ret". split; [cbn; tauto|]. reflexivity. }
  destruct (Regex.exec ParserTreeGraph.call_expression line) as [call|].
  { right. exists "call". split; [cbn; tauto|].
    cbn [ParserTreeGraph.gridPos]. now rewrite fold_push_keys. }
  cbv zeta. destruct (String.eqb _ ""); [now left|].
  right. exists "expr". split; [cbn; tauto|]. reflexivity.
Qed.

Lemma keys_inv_forEach lines :
  forall st i, keys_inv st i ->
               keys_inv (ParserTreeGraph.forEach st lines i)
                        (i + List.length lines).
Proof.
  induction lines as [|line lines IH]; intros st i Hinv; cbn [ParserTreeGraph.forEach List.length].
  - now rewrite Nat.add_0_r.
  - replace (i + S (List.length lines))%nat with (S i + List.length lines)%nat
      by lia.
    apply IH. destruct Hinv as (keys & Hr & Hall & Hnd).
    unfold keys_inv.
    destruct (visit_key st line i) as [->|(p & Hp & ->)].
    + exists keys. repeat split; try assumption.
      eapply Forall_impl; [|exact Hall]. cbn. intros key [? ?]. split; [assumption|lia].
    + exists (keys ++ [(p, i)]). rewrite !map_app, Hr. cbn. repeat split.
      * apply Forall_app. split.
        -- eapply Forall_impl; [|exact Hall]. cbn. intros key [? ?].
           split; [assumption|lia].
        -- constructor; [|constructor]. cbn. split; [exact Hp|lia].
      * apply NoDup_app; [exact Hnd|repeat constructor; intros []|].
        intros j Hj [<-|[]]. apply in_map_iff in Hj as (key & <- & Hkey).
        rewrite Forall_forall in Hall. apply Hall in Hkey. lia.
Qed.

Lemma level_one_families (fs : list Family) :
  Forall family_ok fs ->
  filter (fun node => ParserTreeGraph.level node =? 1)
         (flat_map family_nodes fs)
  = map fst fs.
Proof.
  induction 1 as [|[parent kids] fs (Hl & _ & Hkids) _ IH]; [reflexivity|].
  cbn [flat_map family_nodes fst snd map] in *.
  unfold family_nodes at 1. cbn [app filter fst snd]. rewrite Hl. cbn [Z.eqb Pos.eqb]. f_equal.
  rewrite filter_app, IH.
  replace (filter _ kids) with (@nil ParserTreeGraph.Node); [reflexivity|].
  symmetry. clear -Hkids. induction Hkids as [|n kids (Hn & _) _ IH];
    [reflexivity|]. cbn. now rewrite Hn.
Qed.

(** X20.  The nodes the component draws below the root are the
    children the root lists, in the same order, and their ids, which the
    component uses as keys, are pairwise distinct and differ from the id of
    the root. *)
Theorem drawn_nodes_are_the_root_children (sourceCode : option string) :
  let tree := ParserTreeGraph.generateDynamicAST sourceCode in
  let keys := map ParserTreeGraph.id (ParserTreeGraph.childNodes tree) in
  keys = ParserTreeGraph.children (ParserTreeGraph.root tree) /\
  NoDup keys /\
  ~ In (ParserTreeGraph.id (ParserTreeGraph.root tree)) keys.
Proof.
  intros tree keys. subst keys tree.
  unfold ParserTreeGraph.generateDynamicAST, ParserTreeGraph.childNodes.
  cbv zeta.
  destruct (String.eqb (Str.trim (JS.or_else sourceCode "")) "") eqn:He.
  - cbn. repeat split; [constructor|tauto].
  - set (lines := ParserTreeGraph.lines_of _).
    destruct (forest_inv_forEach lines (ParserTreeGraph.mkState [] [] 0) [] 0)
      as (fs & (Hn & Hr & _ & Hok & _) & _).
    { repeat split; try constructor. intros k g Hk. now destruct k. }
    destruct (keys_inv_forEach lines (ParserTreeGraph.mkState [] [] 0) 0)
      as (ks & Hks & Hall & Hnd).
    { exists []. repeat split; constructor. }
    cbn [ParserTreeGraph.allNodes ParserTreeGraph.root ParserTreeGraph.children
         ParserTreeGraph.id].
    cbn [filter ParserTreeGraph.level Z.eqb].
    rewrite Hn, level_one_families by exact Hok.
    rewrite map_map, <- Hr. split; [reflexivity|].
    rewrite Hks. clear -Hall Hnd. split.
    + induction ks as [|[p j] ks IH]; [constructor|].
      cbn in *. inversion Hall as [|? ? [Hp _] Hall']; subst.
      inversion Hnd as [|? ? Hj Hnd']; subst. constructor; [|now apply IH].
      intros Hin. apply in_map_iff in Hin as ([q j'] & Heq & Hin). cbn in Heq.
      rewrite Forall_forall in Hall'. destruct (Hall' _ Hin) as [Hq _].
      apply (id1_inj q p) in Heq; try assumption. subst j'.
      apply Hj. apply in_map_iff. now exists (q, j).
    + intros Hin. apply in_map_iff in Hin as ([q j'] & Heq & Hin).
      rewrite Forall_forall in Hall. destruct (Hall _ Hin) as [Hq _].
      now apply id1_not_root in Heq.
Qed.

(** ** The terminal *)

Lemma numbered_add now ty tx ls :
  numbered ls -> numbered (TerminalOutput.add now ty tx ls).
Proof.
  unfold numbered, TerminalOutput.add. intros H.
  rewrite map_app, length_app, H. cbn [List.length map TerminalOutput.id].
  rewrite Nat.add_1_r, seq_S, map_app. reflexivity.
Qed.

Lemma numbered_increase ls : numbered ls -> ids_increase ls.
Proof.
  unfold numbered, ids_increase. intros ->.
  generalize 0%nat. induction (List.length ls) as [|n IH]; intros k; cbn.
  - constructor.
  - constructor; [apply IH|].
    apply Forall_forall. intros z Hz.
    apply in_map_iff in Hz as (j & <- & Hj). apply in_seq in Hj. lia.
Qed.

Lemma increase_skipn k ls : ids_increase ls -> ids_increase (skipn k ls).
Proof.
  unfold ids_increase. revert ls. induction k as [|k IH]; intros ls H.
  - exact H.
  - destruct ls as [|l ls]; [exact H|]. cbn. apply IH.
    now inversion H.
Qed.

Lemma increase_snoc ls l :
  ids_increase ls ->
  TerminalOutput.last_id ls < TerminalOutput.id l ->
  ids_increase (ls ++ [l]).
Proof.
  unfold ids_increase, TerminalOutput.last_id.
  induction ls as [|a ls IH]; intros Hs Hl; cbn.
  - repeat constructor.
  - inversion Hs as [|? ? Hs' Ha]; subst.
    assert (Hlast : TerminalOutput.id a < TerminalOutput.id l
                    /\ (match rev ls with
                        | l0 :: _ => TerminalOutput.id l0
                        | [] => 0
                        end < TerminalOutput.id l \/ ls = [])).
    { cbn in Hl. destruct ls as [|b ls'] using rev_ind.
      - cbn in Hl. split; [exact Hl|now right].
      - rewrite rev_app_distr in Hl. cbn in Hl.
        rewrite rev_app_distr. cbn. split; [|now left].
        rewrite Forall_forall in Ha.
        specialize (Ha (TerminalOutput.id b)).
        rewrite map_app, in_app_iff in Ha. cbn in Ha.
        assert (TerminalOutput.id a < TerminalOutput.id b) by tauto. lia. }
    destruct Hlast as [Hal Hrest].
    constructor.
    + destruct Hrest as [Hrest| ->]; [now apply IH|repeat constructor].
    + rewrite map_app, Forall_app. split; [exact Ha|].
      repeat constructor. exact Hal.
Qed.

(** The lines of a run are numbered from 1, and the lines shown have
    growing ids. *)
Lemma terminal_inv language now ops :
  numbered (TerminalOutput.lines (terminal_after language now ops))
  /\ ids_increase (TerminalOutput.output (terminal_after language now ops)).
Proof.
  unfold terminal_after.
  assert (H0 : numbered (TerminalOutput.lines
                           (TerminalOutput.launch now TerminalOutput.initial))
               /\ ids_increase
                    (TerminalOutput.output
                       (TerminalOutput.launch now TerminalOutput.initial))).
  { split; [reflexivity|repeat constructor]. }
  revert H0. generalize (TerminalOutput.launch now TerminalOutput.initial).
  induction ops as [|op ops IH]; intros st Hst; [exact Hst|].
  cbn [fold_left]. apply IH. destruct Hst as [Hn Ho].
  destruct op as [evt t| | |t]; cbn [terminal_step].
  - assert (Hshow : forall ls r,
               numbered ls ->
               numbered (TerminalOutput.lines
                           (TerminalOutput.mkState ls
                              (TerminalOutput.last_lines ls) r
                              (TerminalOutput.stopRef st)))
               /\ ids_increase
                    (TerminalOutput.output
                       (TerminalOutput.mkState ls
                          (TerminalOutput.last_lines ls) r
                          (TerminalOutput.stopRef st)))).
    { intros ls r Hls. split; [exact Hls|].
      apply increase_skipn, numbered_increase, Hls. }
    unfold TerminalOutput.onEvent. cbv zeta.
    repeat match goal with
           | |- context [if String.eqb (ev_type evt) ?s then _ else _] =>
             destruct (String.eqb (ev_type evt) s)
           end;
      apply Hshow; try apply numbered_add; exact Hn.
  - now split.
  - split; [exact Hn|constructor].
  - unfold TerminalOutput.stopJs.
    destruct (TerminalOutput.stopRef st); [|now split].
    split; [exact Hn|]. cbn. apply increase_snoc; [exact Ho|]. cbn. lia.
Qed.

(** X21.  Whatever events are delivered and whatever is clicked
    during a run, the lines the terminal shows have pairwise distinct ids,
    which the component uses as keys. *)
Theorem terminal_keys_are_distinct :
  forall (language now : string) (ops : list TerminalOp),
    NoDup (map TerminalOutput.id
               (TerminalOutput.output (terminal_after language now ops))).
Proof.
  intros language now ops.
  destruct (terminal_inv language now ops) as [_ H].
  unfold ids_increase in H.
  induction H as [|z zs _ IH Hz]; constructor; [|exact IH].
  intros Hin. rewrite Forall_forall in Hz. apply Hz in Hin. lia.
Qed.

Lemma lines_of_deliveries language ops :
  forall st st',
    TerminalOutput.lines st = TerminalOutput.lines st' ->
    TerminalOutput.lines (fold_left (terminal_step language) ops st)
    = TerminalOutput.lines
        (fold_left (terminal_step language) (filter is_delivery ops) st').
Proof.
  induction ops as [|op ops IH]; intros st st' H; [exact H|].
  destruct op as [evt t| | |t]; cbn [filter is_delivery fold_left terminal_step].
  - apply IH. unfold TerminalOutput.onEvent. cbv zeta. rewrite H.
    repeat match goal with
           | |- context [if String.eqb (ev_type evt) ?s then _ else _] =>
             destruct (String.eqb (ev_type evt) s)
           end; reflexivity.
  - apply IH. exact H.
  - apply IH. exact H.
  - apply IH. unfold TerminalOutput.stopJs.
    now destruct (TerminalOutput.stopRef st).
Qed.

Lemma output_after_event language now evt st :
  TerminalOutput.output (TerminalOutput.onEvent language now evt st)
  = TerminalOutput.last_lines
      (TerminalOutput.lines (TerminalOutput.onEvent language now evt st)).
Proof.
  unfold TerminalOutput.onEvent. cbv zeta.
  repeat match goal with
         | |- context [if String.eqb (ev_type evt) ?s then _ else _] =>
           destruct (String.eqb (ev_type evt) s)
         end; reflexivity.
Qed.

(** X22.  Clearing the terminal, or stopping the run, leaves
    no trace once the next event is delivered: the lines kept and the lines
    shown are then what they would be had nothing been clicked, and the
    lines shown are the last 500 of the lines kept, those cleared
    included. *)
Theorem next_event_restores_the_lines :
  forall (language now : string) (ops : list TerminalOp) (evt : Event)
         (t : string),
    let st := terminal_after language now (ops ++ [Deliver evt t]) in
    let st' :=
      terminal_after language now (filter is_delivery ops ++ [Deliver evt t]) in
    TerminalOutput.lines st = TerminalOutput.lines st'
    /\ TerminalOutput.output st = TerminalOutput.output st'
    /\ TerminalOutput.output st
       = TerminalOutput.last_lines (TerminalOutput.lines st).
Proof.
  intros language now ops evt t st st'. subst st st'.
  unfold terminal_after.
  assert (Hl : TerminalOutput.lines
                 (fold_left (terminal_step language) (ops ++ [Deliver evt t])
                            (TerminalOutput.launch now TerminalOutput.initial))
               = TerminalOutput.lines
                   (fold_left (terminal_step language)
                              (filter is_delivery ops ++ [Deliver evt t])
                              (TerminalOutput.launch now TerminalOutput.initial))).
  { rewrite (lines_of_deliveries language (ops ++ [Deliver evt t]) _ _ eq_refl).
    rewrite filter_app. reflexivity. }
  rewrite !fold_left_app in *. cbn [fold_left terminal_step] in *.
  rewrite !output_after_event. rewrite Hl. repeat split.
Qed.

(** ** The Stop button *)

Lemma running_after_event language now evt st :
  TerminalOutput.isJsRunning (TerminalOutput.onEvent language now evt st)
  = if String.eqb language "javascript" then
      if has_type "start" evt then true
      else if terminal evt then false
      else TerminalOutput.isJsRunning st
    else TerminalOutput.isJsRunning st.
Proof.
  unfold TerminalOutput.onEvent, has_type, terminal. cbv zeta.
  destruct (String.eqb language "javascript");
    destruct (String.eqb (ev_type evt) "start") eqn:H1;
    try (apply String.eqb_eq in H1; rewrite H1); cbn; try reflexivity;
    destruct (String.eqb (ev_type evt) "stdout") eqn:H2;
    try (apply String.eqb_eq in H2; rewrite H2); cbn; try reflexivity;
    destruct (String.eqb (ev_type evt) "stderr") eqn:H3;
    try (apply String.eqb_eq in H3; rewrite H3); cbn; try reflexivity;
    destruct (String.eqb (ev_type evt) "result") eqn:H4;
    try (apply String.eqb_eq in H4; rewrite H4); cbn; try reflexivity;
    destruct (String.eqb (ev_type evt) "error") eqn:H5; cbn; try reflexivity;
    destruct (String.eqb (ev_type evt) "timeout") eqn:H6; cbn;
      try rewrite orb_true_r; try reflexivity;
    destruct (String.eqb (ev_type evt) "done") eqn:H7; cbn; reflexivity.
Qed.

Lemma running_other_language language clock es :
  String.eqb language "javascript" = false ->
  forall n st,
    TerminalOutput.isJsRunning
      (fold_left (terminal_step language) (deliveries_at clock n es) st)
    = TerminalOutput.isJsRunning st.
Proof.
  intros Hl. induction es as [|e es IH]; intros n st; [reflexivity|].
  cbn [deliveries_at fold_left terminal_step]. rewrite IH.
  now rewrite running_after_event, Hl.
Qed.

Lemma running_no_terminal clock es :
  forallb (fun e => negb (terminal e)) es = true ->
  forall n st,
    TerminalOutput.isJsRunning
      (fold_left (terminal_step "javascript") (deliveries_at clock n es) st)
    = TerminalOutput.isJsRunning st || existsb (has_type "start") es.
Proof.
  induction es as [|e es IH]; intros Hall n st.
  - cbn. now rewrite orb_false_r.
  - cbn [forallb] in Hall. apply andb_prop in Hall as [He Hall].
    cbn [deliveries_at fold_left terminal_step existsb].
    rewrite IH by exact Hall. rewrite running_after_event, String.eqb_refl.
    destruct (has_type "start" e); [now rewrite orb_true_r|].
    apply negb_true_iff in He. rewrite He. reflexivity.
Qed.

Lemma deliveries_at_app clock es es' :
  forall n,
    deliveries_at clock n (es ++ es')
    = deliveries_at clock n es ++ deliveries_at clock (n + List.length es) es'.
Proof.
  induction es as [|e es IH]; intros n; cbn.
  - now rewrite Nat.add_0_r.
  - rewrite IH. do 3 f_equal. lia.
Qed.

Lemma terminal_split (es : list Event) :
  forallb (fun e => negb (terminal e)) es = true
  \/ exists pre e post, es = pre ++ e :: post /\ terminal e = true.
Proof.
  induction es as [|e es IH]; [now left|].
  cbn [forallb]. destruct (terminal e) eqn:He.
  - right. now exists [], e, es.
  - destruct IH as [IH|(pre & x & post & -> & Hx)].
    + left. now rewrite IH.
    + right. now exists (e :: pre), x, post.
Qed.

(** X23.  When the terminal has been handed the events of a
    run, [isJsRunning], which enables the Stop button, holds exactly when
    the language is javascript, a [start] event was delivered and no
    [done], [error] or [timeout] event was. *)
Theorem stop_button_follows_the_run :
  forall (language code : string) (en : Virtualizer.Entropy)
         (ins : list Input) (now : string) (clock : nat -> string),
    let es :=
      Virtualizer.stream (terminal_options language code) terminal_callback
                         en ins in
    TerminalOutput.isJsRunning
      (terminal_after language now (deliveries_at clock 0 es))
    = String.eqb language "javascript"
      && existsb (has_type "start") es
      && negb (existsb terminal es).
Proof.
  intros language code en ins now clock es. unfold terminal_after.
  destruct (String.eqb language "javascript") eqn:Hl.
  2: { now rewrite running_other_language. }
  apply String.eqb_eq in Hl. subst language.
  destruct (stream_javascript_terminal
              (terminal_options "javascript" code) terminal_callback en ins
              eq_refl) as [_ Hclose].
  fold es in Hclose. cbn [andb].
  destruct (terminal_split es) as [Hnone|(pre & e & post & Hes & He)].
  - rewrite running_no_terminal by exact Hnone. cbn [orb].
    replace (existsb terminal es) with false; [now rewrite andb_true_r|].
    symmetry. clear -Hnone. induction es as [|x xs IH]; [reflexivity|].
    cbn in *. apply andb_prop in Hnone as [Hx Hxs].
    apply negb_true_iff in Hx. rewrite Hx. now apply IH.
  - pose proof (Hclose pre e post Hes He) as ->.
    rewrite Hes, deliveries_at_app, fold_left_app.
    cbn [deliveries_at fold_left terminal_step].
    rewrite running_after_event, String.eqb_refl.
    rewrite !existsb_app. cbn [existsb].
    rewrite He, !orb_true_r, andb_false_r.
    destruct (has_type "start" e) eqn:Hs; [|reflexivity].
    unfold has_type in Hs. apply String.eqb_eq in Hs.
    unfold terminal in He. rewrite Hs in He. discriminate.
Qed.
